(** * ArcaneWeaver entity-system components

    A shallow embedding of [arcaneweaver/core/entity_system/components.py]:
    [StatComponent], [StatsComponent], [InventoryCellComponent] and
    [InventoryComponent], together with the part of the pydantic model
    machinery the components rely on (field validators run in declaration
    order, assignment validation, model validators, [model_copy],
    [model_dump]).

    Conventions.
    - Python [float] is IEEE 754 binary64 as the Standard Library
      specifies it ([spec_float] with precision 53 and maximal exponent
      1024): addition rounds to nearest, ties to even, and every comparison
      with NaN is false.  The code compares floats and adds them once.
    - Python [int] is [Z]; [Optional[T]] is [option T].
    - A method that mutates [self] returns the new object next to its
      result; a method that can raise returns a [res].
    - Keyword arguments and serialized records are records of optional
      fields: [None] stands for an absent key (or, for an [Optional] field,
      an explicit [None]: the code never tells the two apart). *)

From Stdlib Require Import ZArith Lia SpecFloat.
From stdpp Require Import base option list strings.

Local Open Scope Z_scope.

(** ** Shared definitions *)

Inductive ComponentType := STAT | INVENTORY | CUSTOM.

(** What an exception says; the f-string arguments are kept as data. *)
Inductive message :=
  | AlreadyExists (name : string)      (* "Stat with name '...' already exists. ..." *)
  | MaxStatsReached (max_stats : Z)    (* "Cannot add stat: maximum number of stats (...) reached" *)
  | QuantityWithoutItem                (* "Cannot have quantity > 0 without an item_id" *)
  | Missing (field : string)           (* required field not supplied *)
  | GreaterEqual (field : string) (bound : Z). (* Field(ge=bound) violated *)

Inductive exn :=
  | ValueError (m : message)
  | ValidationError (m : message).

Inductive res (A : Type) :=
  | Ok (a : A)
  | Raise (e : exn).
Arguments Ok {A} a.
Arguments Raise {A} e.

#[global] Instance res_ret : MRet res := fun A a => Ok a.

#[global] Instance res_bind : MBind res := fun A B k r =>
  match r with
  | Ok a => k a
  | Raise e => Raise e
  end.

(** Python [float]: IEEE 754 binary64. *)
Definition float := spec_float.

(** [x + y] *)
Definition fadd (x y : float) : float := SFadd 53 1024 x y.

(** [x < y] and [x <= y]; both are false when either side is NaN. *)
Definition fltb (x y : float) : bool := SFltb x y.

Definition fleb (x y : float) : bool := SFleb x y.

Definition is_nan (x : float) : bool :=
  match x with S754_nan => true | _ => false end.

(** [float(n)] *)
Definition float_of_Z (n : Z) : float := binary_normalize 53 1024 n 0 false.

#[global] Arguments fadd : simpl never.
#[global] Arguments fltb : simpl never.
#[global] Arguments fleb : simpl never.
#[global] Arguments float_of_Z : simpl never.

(** [bound is not None and x < bound]: the bound when the test holds. *)
Definition below (x : float) (bound : option float) : option float :=
  match bound with
  | Some b => if fltb x b then Some b else None
  | None => None
  end.

(** [bound is not None and x > bound]: the bound when the test holds. *)
Definition above (x : float) (bound : option float) : option float :=
  match bound with
  | Some b => if fltb b x then Some b else None
  | None => None
  end.

(** [lo <= x] when the lower bound is set, [x <= hi] when the upper one is;
    a NaN satisfies neither. *)
Definition ge_bound (x : float) (lo : option float) : Prop :=
  match lo with Some l => fleb l x = true | None => True end.

Definition le_bound (x : float) (hi : option float) : Prop :=
  match hi with Some h => fleb x h = true | None => True end.

Definition within (lo hi : option float) (x : float) : Prop :=
  ge_bound x lo /\ le_bound x hi.

(** The bounds describe a non-empty interval: [lo <= hi] when both are set,
    and a bound set alone is a number. *)
Definition bounds_ordered (lo hi : option float) : Prop :=
  match lo, hi with
  | Some l, Some h => fleb l h = true
  | Some b, None | None, Some b => is_nan b = false
  | None, None => True
  end.

(** ** StatComponent *)

Module Stat.

Record StatComponent := {
  component_type : ComponentType;
  name : string;
  base_value : float;
  current_value : float;
  min_value : option float;
  max_value : option float;
  description : string
}.

(** Keyword arguments of the constructor, the record [model_dump] produces,
    and [validation_info.data] (the fields validated so far). *)
Record Data := {
  d_component_type : option ComponentType;
  d_name : option string;
  d_base_value : option float;
  d_current_value : option float;
  d_min_value : option float;
  d_max_value : option float;
  d_description : option string
}.

(** [@field_validator("current_value")] *)
Definition validate_current_value (current_value : float) (values : Data) : float :=
  let min_val := d_min_value values in
  let max_val := d_max_value values in
  match below current_value min_val with
  | Some lo => lo
  | None =>
    match above current_value max_val with
    | Some hi => hi
    | None => current_value
    end
  end.

(** [@field_validator("base_value")] *)
Definition validate_base_value (base_value : float) (values : Data) : float :=
  let min_val := d_min_value values in
  let max_val := d_max_value values in
  match below base_value min_val with
  | Some lo => lo
  | None =>
    match above base_value max_val with
    | Some hi => hi
    | None => base_value
    end
  end.

(** [StatComponent.__init__] followed by pydantic's field validation.
    Fields are validated in declaration order (component_type, name,
    base_value, current_value, min_value, max_value, description) and a
    field validator receives in [validation_info.data] the fields
    validated before its own: [min_value] and [max_value] are declared
    after [base_value] and [current_value], so neither validator finds
    them there.  Validators do not run on defaults. *)
Definition init (data : Data) : res StatComponent :=
  let data :=
    match d_current_value data, d_base_value data with
    | None, Some b =>
      {| d_component_type := d_component_type data; d_name := d_name data;
         d_base_value := d_base_value data; d_current_value := Some b;
         d_min_value := d_min_value data; d_max_value := d_max_value data;
         d_description := d_description data |}
    | _, _ => data
    end in
  let ct := default STAT (d_component_type data) in
  match d_name data with
  | None => Raise (ValidationError (Missing "name"))
  | Some nm =>
    let seen1 :=
      {| d_component_type := Some ct; d_name := Some nm;
         d_base_value := None; d_current_value := None;
         d_min_value := None; d_max_value := None; d_description := None |} in
    let base :=
      match d_base_value data with
      | Some b => validate_base_value b seen1
      | None => S754_zero false
      end in
    let seen2 :=
      {| d_component_type := Some ct; d_name := Some nm;
         d_base_value := Some base; d_current_value := None;
         d_min_value := None; d_max_value := None; d_description := None |} in
    let cur :=
      match d_current_value data with
      | Some c => validate_current_value c seen2
      | None => S754_zero false
      end in
    Ok {| component_type := ct; name := nm; base_value := base;
          current_value := cur; min_value := d_min_value data;
          max_value := d_max_value data;
          description := default EmptyString (d_description data) |}
  end.

(** On assignment ([validate_assignment=True]) the validator of the
    assigned field receives every other field of the instance. *)
Definition all_but_current (self : StatComponent) : Data :=
  {| d_component_type := Some (component_type self);
     d_name := Some (name self);
     d_base_value := Some (base_value self);
     d_current_value := None;
     d_min_value := min_value self;
     d_max_value := max_value self;
     d_description := Some (description self) |}.

Definition all_but_base (self : StatComponent) : Data :=
  {| d_component_type := Some (component_type self);
     d_name := Some (name self);
     d_base_value := None;
     d_current_value := Some (current_value self);
     d_min_value := min_value self;
     d_max_value := max_value self;
     d_description := Some (description self) |}.

(** [self.current_value = v] *)
Definition assign_current_value (self : StatComponent) (v : float) : StatComponent :=
  {| component_type := component_type self; name := name self;
     base_value := base_value self;
     current_value := validate_current_value v (all_but_current self);
     min_value := min_value self; max_value := max_value self;
     description := description self |}.

(** [self.base_value = v] *)
Definition assign_base_value (self : StatComponent) (v : float) : StatComponent :=
  {| component_type := component_type self; name := name self;
     base_value := validate_base_value v (all_but_base self);
     current_value := current_value self;
     min_value := min_value self; max_value := max_value self;
     description := description self |}.

Definition modify_value (self : StatComponent) (modifier : float)
  : float * StatComponent :=
  let new_value := fadd (current_value self) modifier in
  let new_value :=
    match below new_value (min_value self) with
    | Some lo => lo
    | None => new_value
    end in
  let new_value :=
    match above new_value (max_value self) with
    | Some hi => hi
    | None => new_value
    end in
  let self := assign_current_value self new_value in
  (current_value self, self).

Definition reset_to_base (self : StatComponent) : StatComponent :=
  assign_current_value self (base_value self).

Definition set_base_value (self : StatComponent) (new_value : float)
  : float * StatComponent :=
  let new_value :=
    match below new_value (min_value self) with
    | Some lo => lo
    | None => new_value
    end in
  let new_value :=
    match above new_value (max_value self) with
    | Some hi => hi
    | None => new_value
    end in
  let self := assign_base_value self new_value in
  let self := assign_current_value self new_value in
  (base_value self, self).

(** [model_dump()]: every declared field, under its own name. *)
Definition model_dump (self : StatComponent) : Data :=
  {| d_component_type := Some (component_type self);
     d_name := Some (name self);
     d_base_value := Some (base_value self);
     d_current_value := Some (current_value self);
     d_min_value := min_value self;
     d_max_value := max_value self;
     d_description := Some (description self) |}.

(** Both values of the stat lie within the bounds that are set. *)
Definition in_bounds (self : StatComponent) : Prop :=
  within (min_value self) (max_value self) (base_value self) /\
  within (min_value self) (max_value self) (current_value self).

(** The clamp of the specification: a value above [hi] becomes [hi], then a
    value below [lo] becomes [lo]. *)
Definition clamp (lo hi : option float) (x : float) : float :=
  let x := match above x hi with Some h => h | None => x end in
  match below x lo with Some l => l | None => x end.

End Stat.

(** ** StatsComponent *)

Module Stats.

Record StatsComponent := {
  component_type : ComponentType;
  stats : list Stat.StatComponent;
  max_stats : option Z
}.

Definition with_stats (self : StatsComponent) (l : list Stat.StatComponent)
  : StatsComponent :=
  {| component_type := component_type self; stats := l;
     max_stats := max_stats self |}.

(** The scan [for i, stat in enumerate(self.stats): if stat.name == name]:
    position and object of the first stat with that name. *)
Definition lookup_stat (self : StatsComponent) (name : string)
  : option (nat * Stat.StatComponent) :=
  list_find (fun stat => Stat.name stat = name) (stats self).

Definition get_stat (self : StatsComponent) (name : string)
  : option Stat.StatComponent :=
  snd <$> lookup_stat self name.

Definition has_stat (self : StatsComponent) (name : string) : bool :=
  bool_decide (get_stat self name <> None).

Definition remove_stat (self : StatsComponent) (name : string)
  : bool * StatsComponent :=
  match lookup_stat self name with
  | Some (i, _) => (true, with_stats self (delete i (stats self)))
  | None => (false, self)
  end.

(** [self.max_stats is not None and len(self.stats) >= self.max_stats] *)
Definition at_capacity (self : StatsComponent) : bool :=
  match max_stats self with
  | Some m => bool_decide (m <= Z.of_nat (length (stats self)))
  | None => false
  end.

(** [add_stat]; the collection is returned as it is when the call ends,
    also when it ends by raising. *)
Definition add_stat (self : StatsComponent) (name : string) (base_value : float)
    (current_value min_value max_value : option float) (description : string)
    (replace_if_exists : bool) : res Stat.StatComponent * StatsComponent :=
  let existing_stat := get_stat self name in
  let checked : res StatsComponent :=
    match existing_stat with
    | Some _ =>
      if replace_if_exists then Ok (snd (remove_stat self name))
      else Raise (ValueError (AlreadyExists name))
    | None => Ok self
    end in
  match checked with
  | Raise e => (Raise e, self)
  | Ok self =>
    if at_capacity self then
      (Raise (ValueError (MaxStatsReached (default 0 (max_stats self)))), self)
    else
      let stat_data :=
        {| Stat.d_component_type := None; Stat.d_name := Some name;
           Stat.d_base_value := Some base_value;
           Stat.d_current_value := current_value;
           Stat.d_min_value := min_value; Stat.d_max_value := max_value;
           Stat.d_description := Some description |} in
      match Stat.init stat_data with
      | Raise e => (Raise e, self)
      | Ok new_stat => (Ok new_stat, with_stats self (stats self ++ [new_stat]))
      end
  end.

(** The delegating operations act on the object [get_stat] returned, which
    is the one stored in the list: the change lands at its position. *)
Definition modify_stat (self : StatsComponent) (name : string) (modifier : float)
  : option float * StatsComponent :=
  match lookup_stat self name with
  | None => (None, self)
  | Some (i, stat) =>
    let '(r, stat) := Stat.modify_value stat modifier in
    (Some r, with_stats self (<[i := stat]> (stats self)))
  end.

Definition set_stat_base_value (self : StatsComponent) (name : string)
    (new_value : float) : option float * StatsComponent :=
  match lookup_stat self name with
  | None => (None, self)
  | Some (i, stat) =>
    let '(r, stat) := Stat.set_base_value stat new_value in
    (Some r, with_stats self (<[i := stat]> (stats self)))
  end.

Definition set_stat_current_value (self : StatsComponent) (name : string)
    (new_value : float) : option float * StatsComponent :=
  match lookup_stat self name with
  | None => (None, self)
  | Some (i, stat) =>
    let stat := Stat.assign_current_value stat new_value in
    (Some (Stat.current_value stat),
     with_stats self (<[i := stat]> (stats self)))
  end.

Definition reset_stat_to_base (self : StatsComponent) (name : string)
  : bool * StatsComponent :=
  match lookup_stat self name with
  | None => (false, self)
  | Some (i, stat) =>
    let stat := Stat.reset_to_base stat in
    (true, with_stats self (<[i := stat]> (stats self)))
  end.

(** [@model_validator(mode="after")] *)
Definition validate_stats_count (self : StatsComponent) : StatsComponent :=
  match max_stats self with
  | Some m =>
    if bool_decide (m < Z.of_nat (length (stats self)))
    then with_stats self (take (Z.to_nat m) (stats self))
    else self
  | None => self
  end.

(** [StatsComponent(stats=..., max_stats=...)]: [max_stats] is checked
    against [ge=1], then the model validator runs. *)
Definition init (stats0 : list Stat.StatComponent) (max_stats0 : option Z)
  : res StatsComponent :=
  match max_stats0 with
  | Some m =>
    if bool_decide (1 <= m)
    then Ok (validate_stats_count
               {| component_type := STAT; stats := stats0; max_stats := Some m |})
    else Raise (ValidationError (GreaterEqual "max_stats" 1))
  | None =>
    Ok (validate_stats_count
          {| component_type := STAT; stats := stats0; max_stats := None |})
  end.

(** What [validate_stats_count] establishes: [len(stats) <= max_stats]. *)
Definition count_ok (self : StatsComponent) : Prop :=
  match max_stats self with
  | Some m => Z.of_nat (length (stats self)) <= m
  | None => True
  end.

(** [for stat in self.stats: stat.reset_to_base()]: every stat is reset
    where it stands. *)
Definition reset_all_to_base (self : StatsComponent) : StatsComponent :=
  with_stats self (Stat.reset_to_base <$> stats self).

Definition get_stat_names (self : StatsComponent) : list string :=
  Stat.name <$> stats self.

(** [list(self.stats)] *)
Definition get_all_stats (self : StatsComponent) : list Stat.StatComponent :=
  stats self.

Definition clear_all_stats (self : StatsComponent) : Z * StatsComponent :=
  let count := Z.of_nat (length (stats self)) in
  (count, with_stats self []).

(** No two stats of the collection carry the same name. *)
Definition names_unique (self : StatsComponent) : Prop :=
  NoDup (get_stat_names self).

End Stats.

(** ** InventoryCellComponent *)

Module Cell.

Record InventoryCellComponent := {
  component_type : ComponentType;
  item_id : option string;
  quantity : Z;
  max_stack_size : Z;
  slot_type : option string;
  is_equipped : bool
}.

(** Keyword arguments, serialized record and [validation_info.data]. *)
Record Data := {
  d_component_type : option ComponentType;
  d_item_id : option string;
  d_quantity : option Z;
  d_max_stack_size : option Z;
  d_slot_type : option string;
  d_is_equipped : option bool
}.

(** [@field_validator("quantity")] *)
Definition validate_quantity (quantity : Z) (values : Data) : Z :=
  let max_stack := default 1 (d_max_stack_size values) in
  if bool_decide (max_stack < quantity) then max_stack else quantity.

(** [@model_validator(mode="after")].  The assignment [self.item_id = None]
    runs this validator once more, on a cell it then leaves alone. *)
Definition validate_item_id_and_quantity (self : InventoryCellComponent)
  : res InventoryCellComponent :=
  if bool_decide (0 < quantity self) then
    match item_id self with
    | None => Raise (ValidationError QuantityWithoutItem)
    | Some _ => Ok self
    end
  else
    match item_id self with
    | Some _ =>
      Ok {| component_type := component_type self; item_id := None;
            quantity := quantity self; max_stack_size := max_stack_size self;
            slot_type := slot_type self; is_equipped := is_equipped self |}
    | None => Ok self
    end.

(** [Field(..., ge=bound)] *)
Definition check_ge (field : string) (bound v : Z) : res Z :=
  if bool_decide (bound <= v) then Ok v
  else Raise (ValidationError (GreaterEqual field bound)).

(** The constructor [InventoryCellComponent] on keyword arguments [data].
    Fields are validated in declaration order (component_type, item_id,
    quantity, max_stack_size, slot_type, is_equipped); [validate_quantity]
    receives the fields validated before [quantity], among which
    [max_stack_size] is not.  Validators and constraints do not run on
    defaults.  Of several field errors the first is reported; the model
    validator runs only when there is none. *)
Definition init (data : Data) : res InventoryCellComponent :=
  let ct := default INVENTORY (d_component_type data) in
  let seen :=
    {| d_component_type := Some ct; d_item_id := d_item_id data;
       d_quantity := None; d_max_stack_size := None; d_slot_type := None;
       d_is_equipped := None |} in
  q ← match d_quantity data with
      | Some q => q ← check_ge "quantity" 0 q; Ok (validate_quantity q seen)
      | None => Ok 0
      end;
  m ← match d_max_stack_size data with
      | Some m => check_ge "max_stack_size" 1 m
      | None => Ok 1
      end;
  validate_item_id_and_quantity
    {| component_type := ct; item_id := d_item_id data; quantity := q;
       max_stack_size := m; slot_type := d_slot_type data;
       is_equipped := default false (d_is_equipped data) |}.

Definition is_empty (self : InventoryCellComponent) : bool :=
  bool_decide (quantity self = 0) || bool_decide (item_id self = None).

Definition is_full (self : InventoryCellComponent) : bool :=
  bool_decide (max_stack_size self <= quantity self).

(** [self.model_copy(update={"item_id": i, "quantity": q})] followed by
    [self.__dict__.update(updated.__dict__)]: the two fields are replaced,
    no validator runs. *)
Definition update_item_id_quantity (self : InventoryCellComponent)
    (i : option string) (q : Z) : InventoryCellComponent :=
  {| component_type := component_type self; item_id := i; quantity := q;
     max_stack_size := max_stack_size self; slot_type := slot_type self;
     is_equipped := is_equipped self |}.

(** [self.model_copy(update={"quantity": q})], copied back likewise. *)
Definition update_quantity (self : InventoryCellComponent) (q : Z)
  : InventoryCellComponent :=
  update_item_id_quantity self (item_id self) q.

Definition add_items (self : InventoryCellComponent) (item_id0 : string)
    (add_quantity : Z) : Z * InventoryCellComponent :=
  if bool_decide (add_quantity <= 0) then (0, self)
  else if negb (is_empty self) && bool_decide (item_id self <> Some item_id0)
  then (0, self)
  else
    let available_space := max_stack_size self - quantity self in
    let actual_add := Z.min add_quantity available_space in
    (actual_add,
     update_item_id_quantity self (Some item_id0) (quantity self + actual_add)).

Definition remove_items (self : InventoryCellComponent) (remove_quantity : Z)
  : Z * InventoryCellComponent :=
  if bool_decide (remove_quantity <= 0) || is_empty self then (0, self)
  else
    let actual_remove := Z.min remove_quantity (quantity self) in
    let new_quantity := quantity self - actual_remove in
    (actual_remove,
     if bool_decide (new_quantity = 0)
     then update_item_id_quantity self None new_quantity
     else update_quantity self new_quantity).

(** [model_dump()] *)
Definition model_dump (self : InventoryCellComponent) : Data :=
  {| d_component_type := Some (component_type self);
     d_item_id := item_id self;
     d_quantity := Some (quantity self);
     d_max_stack_size := Some (max_stack_size self);
     d_slot_type := slot_type self;
     d_is_equipped := Some (is_equipped self) |}.

(** The invariant of a cell: [0 <= quantity <= max_stack_size], and
    [quantity == 0] exactly when [item_id is None]. *)
Definition cell_ok (self : InventoryCellComponent) : Prop :=
  0 <= quantity self <= max_stack_size self /\
  (quantity self = 0 <-> item_id self = None).

(** The cells the model admits: the invariant, and [max_stack_size >= 1]
    ([Field(ge=1)], which neither [add_items] nor [remove_items] touches). *)
Definition wf (self : InventoryCellComponent) : Prop :=
  cell_ok self /\ 1 <= max_stack_size self.

(** One call on a cell, and a sequence of them run from a starting cell,
    keeping the state after every call. *)
Inductive call :=
  | AddItems (item_id0 : string) (add_quantity : Z)
  | RemoveItems (remove_quantity : Z).

Definition run_call (self : InventoryCellComponent) (c : call)
  : InventoryCellComponent :=
  match c with
  | AddItems i n => snd (add_items self i n)
  | RemoveItems n => snd (remove_items self n)
  end.

Fixpoint states_after (self : InventoryCellComponent) (calls : list call)
  : list InventoryCellComponent :=
  match calls with
  | [] => []
  | c :: calls => let self := run_call self c in self :: states_after self calls
  end.

(** On assignment [validate_quantity] receives every other field of the
    cell, [max_stack_size] among them. *)
Definition all_but_quantity (self : InventoryCellComponent) : Data :=
  {| d_component_type := Some (component_type self);
     d_item_id := item_id self;
     d_quantity := None;
     d_max_stack_size := Some (max_stack_size self);
     d_slot_type := slot_type self;
     d_is_equipped := Some (is_equipped self) |}.

(** [self.quantity = v] under [validate_assignment=True]: the [ge=0]
    constraint, the field validator, then the model validator.  What the
    cell holds after an assignment that raised is not modelled. *)
Definition assign_quantity (self : InventoryCellComponent) (v : Z)
  : res InventoryCellComponent :=
  v ← check_ge "quantity" 0 v;
  validate_item_id_and_quantity
    {| component_type := component_type self; item_id := item_id self;
       quantity := validate_quantity v (all_but_quantity self);
       max_stack_size := max_stack_size self; slot_type := slot_type self;
       is_equipped := is_equipped self |}.

(** [self.item_id = v]: no field validator, then the model validator. *)
Definition assign_item_id (self : InventoryCellComponent) (v : option string)
  : res InventoryCellComponent :=
  validate_item_id_and_quantity
    {| component_type := component_type self; item_id := v;
       quantity := quantity self;
       max_stack_size := max_stack_size self; slot_type := slot_type self;
       is_equipped := is_equipped self |}.

Definition clear_slot (self : InventoryCellComponent)
  : res (Z * InventoryCellComponent) :=
  let previous_quantity := quantity self in
  self ← assign_quantity self 0;
  self ← assign_item_id self None;
  Ok (previous_quantity, self).

End Cell.

(** ** InventoryComponent *)

Module Inventory.

Abbreviation ICell := Cell.InventoryCellComponent.

Record InventoryComponent := {
  component_type : ComponentType;
  cells : list ICell;
  max_cells : Z;
  default_max_stack_size : Z
}.

Definition with_cells (self : InventoryComponent) (l : list ICell)
  : InventoryComponent :=
  {| component_type := component_type self; cells := l;
     max_cells := max_cells self;
     default_max_stack_size := default_max_stack_size self |}.

(** [not cell.is_empty() and cell.item_id == item_id] *)
Definition holds (item_id : string) (cell : ICell) : bool :=
  negb (Cell.is_empty cell) && bool_decide (Cell.item_id cell = Some item_id).

(** The first loop of [add_item], over the cells from the one it has
    reached: the cells as the loop leaves them, the remaining quantity, and
    whether the loop ended in [return quantity]. *)
Fixpoint fill (item_id : string) (cells : list ICell) (remaining_quantity : Z)
  : list ICell * Z * bool :=
  match cells with
  | [] => ([], remaining_quantity, false)
  | cell :: rest =>
    if holds item_id cell then
      let '(added, cell) := Cell.add_items cell item_id remaining_quantity in
      let remaining_quantity := remaining_quantity - added in
      if bool_decide (remaining_quantity <= 0)
      then (cell :: rest, remaining_quantity, true)
      else
        let '(rest, remaining_quantity, returned) :=
          fill item_id rest remaining_quantity in
        (cell :: rest, remaining_quantity, returned)
    else
      let '(rest, remaining_quantity, returned) :=
        fill item_id rest remaining_quantity in
      (cell :: rest, remaining_quantity, returned)
  end.

(** [for cell in self.cells: if cell.is_empty(): empty_cell = cell; break]:
    the first empty cell and its position, the cell being an object of the
    list. *)
Definition find_empty (cells : list ICell) : option (nat * ICell) :=
  list_find (fun cell => Cell.is_empty cell = true) cells.

(** The [while remaining_quantity > 0] loop; [fuel] bounds the number of
    iterations, [None] is fuel exhausted.  A run that raises returns the
    inventory as the exception leaves it. *)
Fixpoint place (fuel : nat) (self : InventoryComponent) (item_id : string)
    (max_stack_size : option Z) (remaining_quantity : Z)
  : option (res Z * InventoryComponent) :=
  if bool_decide (remaining_quantity <= 0) then Some (Ok remaining_quantity, self)
  else
    match fuel with
    | O => None
    | S fuel =>
      match find_empty (cells self) with
      | Some (i, empty_cell) =>
        let '(added, empty_cell) :=
          Cell.add_items empty_cell item_id remaining_quantity in
        place fuel (with_cells self (<[i := empty_cell]> (cells self)))
          item_id max_stack_size (remaining_quantity - added)
      | None =>
        if bool_decide (Z.of_nat (length (cells self)) < max_cells self) then
          let stack_size :=
            default (default_max_stack_size self) max_stack_size in
          match Cell.init
                  {| Cell.d_component_type := None; Cell.d_item_id := None;
                     Cell.d_quantity := None;
                     Cell.d_max_stack_size := Some stack_size;
                     Cell.d_slot_type := None; Cell.d_is_equipped := None |}
          with
          | Raise e => Some (Raise e, self)
          | Ok new_cell =>
            let i := length (cells self) in
            let self := with_cells self (cells self ++ [new_cell]) in
            let '(added, empty_cell) :=
              Cell.add_items new_cell item_id remaining_quantity in
            place fuel (with_cells self (<[i := empty_cell]> (cells self)))
              item_id max_stack_size (remaining_quantity - added)
          end
        else Some (Ok remaining_quantity, self)
      end
    end.

Definition add_item (fuel : nat) (self : InventoryComponent) (item_id : string)
    (quantity : Z) (max_stack_size : option Z)
  : option (res Z * InventoryComponent) :=
  if bool_decide (quantity <= 0) then Some (Ok 0, self)
  else
    let remaining_quantity := quantity in
    let '(cells1, remaining_quantity, returned) :=
      fill item_id (cells self) remaining_quantity in
    let self := with_cells self cells1 in
    if returned then Some (Ok quantity, self)
    else
      match place fuel self item_id max_stack_size remaining_quantity with
      | Some (Ok remaining_quantity, self) =>
        Some (Ok (quantity - remaining_quantity), self)
      | Some (Raise e, self) => Some (Raise e, self)
      | None => None
      end.

(** The loop of [remove_item], in the shape of [fill]. *)
Fixpoint drain (item_id : string) (cells : list ICell) (remaining_to_remove : Z)
  : list ICell * Z * bool :=
  match cells with
  | [] => ([], remaining_to_remove, false)
  | cell :: rest =>
    if holds item_id cell then
      let '(removed, cell) := Cell.remove_items cell remaining_to_remove in
      let remaining_to_remove := remaining_to_remove - removed in
      if bool_decide (remaining_to_remove <= 0)
      then (cell :: rest, remaining_to_remove, true)
      else
        let '(rest, remaining_to_remove, returned) :=
          drain item_id rest remaining_to_remove in
        (cell :: rest, remaining_to_remove, returned)
    else
      let '(rest, remaining_to_remove, returned) :=
        drain item_id rest remaining_to_remove in
      (cell :: rest, remaining_to_remove, returned)
  end.

Definition remove_item (self : InventoryComponent) (item_id : string)
    (quantity : Z) : Z * InventoryComponent :=
  if bool_decide (quantity <= 0) then (0, self)
  else
    let '(cells1, remaining_to_remove, returned) :=
      drain item_id (cells self) quantity in
    let self := with_cells self cells1 in
    if returned then (quantity, self)
    else (quantity - remaining_to_remove, self).

Definition get_item_count (self : InventoryComponent) (item_id : string) : Z :=
  foldl (fun total cell =>
           if holds item_id cell then total + Cell.quantity cell else total)
        0 (cells self).

(** [validate_cells_count], the model validator. *)
Definition validate_cells_count (self : InventoryComponent)
  : InventoryComponent :=
  if bool_decide (max_cells self < Z.of_nat (length (cells self)))
  then with_cells self (take (Z.to_nat (max_cells self)) (cells self))
  else self.

(** [InventoryComponent(cells=..., max_cells=..., default_max_stack_size=...)]
    with cells that are instances already. *)
Definition init (cells0 : list ICell) (max_cells0 default0 : option Z)
  : res InventoryComponent :=
  m ← match max_cells0 with
      | Some m => Cell.check_ge "max_cells" 1 m
      | None => Ok 10
      end;
  d ← match default0 with
      | Some d => Cell.check_ge "default_max_stack_size" 1 d
      | None => Ok 1
      end;
  Ok (validate_cells_count
        {| component_type := INVENTORY; cells := cells0; max_cells := m;
           default_max_stack_size := d |}).

(** Well-formed inventories: every cell is one the cell model admits, and
    so are the cells created with the default stack size. *)
Definition wf (self : InventoryComponent) : Prop :=
  Forall Cell.wf (cells self) /\ 1 <= default_max_stack_size self.

(** A stack size [add_item] may be given for new cells. *)
Definition stack_size_ok (max_stack_size : option Z) : Prop :=
  match max_stack_size with
  | Some k => 1 <= k
  | None => True
  end.

(** How [remove_item] may leave the cell that was [c]: as it was, or, if it
    held [item_id], with fewer items, and then without [item_id] exactly
    when no item is left; the other fields are never touched. *)
Definition drained (item_id : string) (c c' : ICell) : Prop :=
  Cell.component_type c' = Cell.component_type c /\
  Cell.max_stack_size c' = Cell.max_stack_size c /\
  Cell.slot_type c' = Cell.slot_type c /\
  Cell.is_equipped c' = Cell.is_equipped c /\
  (c' = c \/
   (holds item_id c = true /\
    if bool_decide (Cell.quantity c' = 0)
    then Cell.item_id c' = None
    else Cell.item_id c' = Cell.item_id c)).

(** *** The algorithm of [add_item] as the specification words it *)

(** What a cell takes of [amount]: [min(amount, max_stack_size - quantity)]. *)
Definition accepts (cell : ICell) (amount : Z) : Z :=
  Z.min amount (Cell.max_stack_size cell - Cell.quantity cell).

(** The cell after it took [n] items of kind [item_id]. *)
Definition stacked (cell : ICell) (item_id : string) (n : Z) : ICell :=
  {| Cell.component_type := Cell.component_type cell;
     Cell.item_id := Some item_id;
     Cell.quantity := Cell.quantity cell + n;
     Cell.max_stack_size := Cell.max_stack_size cell;
     Cell.slot_type := Cell.slot_type cell;
     Cell.is_equipped := Cell.is_equipped cell |}.

(** A cell created on demand: empty, with the given stack size. *)
Definition fresh_cell (stack_size : Z) : ICell :=
  {| Cell.component_type := INVENTORY; Cell.item_id := None;
     Cell.quantity := 0; Cell.max_stack_size := stack_size;
     Cell.slot_type := None; Cell.is_equipped := false |}.

(** Fill pass: in cell order, every non-empty cell holding [item_id] takes
    what it accepts of the remaining amount; the pass stops as soon as
    nothing remains. *)
Inductive fill_spec (item_id : string) : list ICell -> Z -> list ICell -> Z -> Prop :=
  | fill_stop cells remaining :
      remaining <= 0 ->
      fill_spec item_id cells remaining cells remaining
  | fill_end remaining :
      fill_spec item_id [] remaining [] remaining
  | fill_take cell rest remaining rest' remaining' :
      0 < remaining ->
      holds item_id cell = true ->
      fill_spec item_id rest (remaining - accepts cell remaining) rest' remaining' ->
      fill_spec item_id (cell :: rest) remaining
        (stacked cell item_id (accepts cell remaining) :: rest') remaining'
  | fill_skip cell rest remaining rest' remaining' :
      0 < remaining ->
      holds item_id cell = false ->
      fill_spec item_id rest remaining rest' remaining' ->
      fill_spec item_id (cell :: rest) remaining (cell :: rest') remaining'.

(** [cell], at position [i], is the first empty cell. *)
Definition first_empty (cells : list ICell) (i : nat) (cell : ICell) : Prop :=
  cells !! i = Some cell /\ Cell.is_empty cell = true /\
  forall j c, cells !! j = Some c -> (j < i)%nat -> Cell.is_empty c = false.

Definition no_empty (cells : list ICell) : Prop :=
  forall c, c ∈ cells -> Cell.is_empty c = false.

(** Overflow pass: while an amount remains, the first empty cell takes what
    it accepts; a new cell is appended only when there is no empty cell and
    fewer than [max_cells] cells; the pass stops when neither is possible. *)
Inductive overflow_spec (item_id : string) (max_cells stack_size : Z)
  : list ICell -> Z -> list ICell -> Z -> Prop :=
  | overflow_done cells remaining :
      remaining <= 0 ->
      overflow_spec item_id max_cells stack_size cells remaining cells remaining
  | overflow_use cells remaining i cell cells' remaining' :
      0 < remaining ->
      first_empty cells i cell ->
      overflow_spec item_id max_cells stack_size
        (<[i := stacked cell item_id (accepts cell remaining)]> cells)
        (remaining - accepts cell remaining) cells' remaining' ->
      overflow_spec item_id max_cells stack_size cells remaining cells' remaining'
  | overflow_create cells remaining cells' remaining' :
      0 < remaining ->
      no_empty cells ->
      Z.of_nat (length cells) < max_cells ->
      overflow_spec item_id max_cells stack_size
        (cells ++ [stacked (fresh_cell stack_size) item_id
                     (accepts (fresh_cell stack_size) remaining)])
        (remaining - accepts (fresh_cell stack_size) remaining)
        cells' remaining' ->
      overflow_spec item_id max_cells stack_size cells remaining cells' remaining'
  | overflow_stop cells remaining :
      0 < remaining ->
      no_empty cells ->
      max_cells <= Z.of_nat (length cells) ->
      overflow_spec item_id max_cells stack_size cells remaining cells remaining.

(** [add_item] returns [returned] and leaves the inventory [self']. *)
Definition add_item_spec (self : InventoryComponent) (item_id : string)
    (quantity : Z) (max_stack_size : option Z)
    (returned : Z) (self' : InventoryComponent) : Prop :=
  if bool_decide (quantity <= 0) then returned = 0 /\ self' = self
  else
    exists cells1 remaining1 cells2 remaining2,
      fill_spec item_id (cells self) quantity cells1 remaining1 /\
      overflow_spec item_id (max_cells self)
        (default (default_max_stack_size self) max_stack_size)
        cells1 remaining1 cells2 remaining2 /\
      returned = quantity - remaining2 /\
      self' = with_cells self cells2.

(** The loop of [has_item], over the cells from the one it has reached,
    with the running total. *)
Fixpoint has_item_scan (item_id : string) (quantity : Z) (cells : list ICell)
    (total_quantity : Z) : bool :=
  match cells with
  | [] => false
  | cell :: rest =>
    if holds item_id cell then
      let total_quantity := total_quantity + Cell.quantity cell in
      if bool_decide (quantity <= total_quantity) then true
      else has_item_scan item_id quantity rest total_quantity
    else has_item_scan item_id quantity rest total_quantity
  end.

Definition has_item (self : InventoryComponent) (item_id : string)
    (quantity : Z) : bool :=
  if bool_decide (quantity <= 0) then true
  else has_item_scan item_id quantity (cells self) 0.

(** [sum(1 for cell in self.cells if cell.is_empty())] *)
Definition get_empty_cells_count (self : InventoryComponent) : Z :=
  foldr (fun cell n => if Cell.is_empty cell then 1 + n else n) 0 (cells self).

Definition is_full (self : InventoryComponent) : bool :=
  if bool_decide (Z.of_nat (length (cells self)) < max_cells self) then false
  else forallb Cell.is_full (cells self).

(** [for cell in self.cells: cell.clear_slot()] *)
Definition clear_all (self : InventoryComponent) : res InventoryComponent :=
  cells1 ← mapM (fun cell => r ← Cell.clear_slot cell; Ok (snd r)) (cells self);
  Ok (with_cells self cells1).

End Inventory.

(** ** Instances used in the statements, and counting *)

Definition scenario4 : Stat.Data :=
  {| Stat.d_component_type := None; Stat.d_name := Some "hp";
     Stat.d_base_value := Some (float_of_Z 10); Stat.d_current_value := None;
     Stat.d_min_value := Some (float_of_Z 0); Stat.d_max_value := Some (float_of_Z 100);
     Stat.d_description := None |}.

Definition out_of_range : Stat.Data :=
  {| Stat.d_component_type := None; Stat.d_name := Some "hp";
     Stat.d_base_value := Some (float_of_Z 150); Stat.d_current_value := None;
     Stat.d_min_value := Some (float_of_Z 0); Stat.d_max_value := Some (float_of_Z 100);
     Stat.d_description := None |}.

(** The stat the constructor builds from the arguments of [add_stat]. *)
Definition built (name : string) (base_value : float)
    (current_value min_value max_value : option float) (description : string)
  : Stat.StatComponent :=
  {| Stat.component_type := STAT; Stat.name := name;
     Stat.base_value := base_value;
     Stat.current_value := default base_value current_value;
     Stat.min_value := min_value; Stat.max_value := max_value;
     Stat.description := description |}.

Definition stats_str_dex : Stats.StatsComponent :=
  {| Stats.component_type := STAT;
     Stats.stats :=
       [built "str" (float_of_Z 10) None None None EmptyString; built "dex" (float_of_Z 12) None None None EmptyString];
     Stats.max_stats := Some 2 |}.

Definition potion_cell : Cell.Data :=
  {| Cell.d_component_type := None; Cell.d_item_id := None;
     Cell.d_quantity := None; Cell.d_max_stack_size := Some 5;
     Cell.d_slot_type := None; Cell.d_is_equipped := None |}.

Definition two_potions : Inventory.InventoryComponent :=
  {| Inventory.component_type := INVENTORY;
     Inventory.cells :=
       [ {| Cell.component_type := INVENTORY; Cell.item_id := Some "potion";
            Cell.quantity := 3; Cell.max_stack_size := 5;
            Cell.slot_type := None; Cell.is_equipped := false |};
         {| Cell.component_type := INVENTORY; Cell.item_id := None;
            Cell.quantity := 0; Cell.max_stack_size := 5;
            Cell.slot_type := None; Cell.is_equipped := false |} ];
     Inventory.max_cells := 3;
     Inventory.default_max_stack_size := 5 |}.

Definition bag : Inventory.InventoryComponent :=
  {| Inventory.component_type := INVENTORY; Inventory.cells := [];
     Inventory.max_cells := 10; Inventory.default_max_stack_size := 5 |}.

(** What a cell contributes to [get_item_count]. *)
Definition stored (item_id : string) (c : Cell.InventoryCellComponent) : Z :=
  if Inventory.holds item_id c then Cell.quantity c else 0.

Fixpoint total (item_id : string) (cells : list Cell.InventoryCellComponent) : Z :=
  match cells with
  | [] => 0
  | c :: cells => stored item_id c + total item_id cells
  end.

(** The floats nearest to 0.1, 0.2 and 0.3, and the float above the last. *)
Definition float_0_1 : float := S754_finite false 7205759403792794 (-56).

Definition float_0_2 : float := S754_finite false 7205759403792794 (-55).

Definition float_0_3 : float := S754_finite false 5404319552844595 (-54).

Definition float_0_30000000000000004 : float :=
  S754_finite false 5404319552844596 (-54).

Definition mana : Stat.StatComponent :=
  built "mana" (float_of_Z 50) (Some (float_of_Z 40)) (Some (float_of_Z 0)) (Some (float_of_Z 100))
    EmptyString.

Definition stats_one : Stats.StatsComponent :=
  {| Stats.component_type := STAT;
     Stats.stats := [built "str" (float_of_Z 10) None None None EmptyString];
     Stats.max_stats := Some 2 |}.

(** The collection [self'] differs from [self] in the stat called [name]
    only, which is now [stat']: same names in the same order, same capacity,
    every other name found as before. *)
Definition changes_only (self self' : Stats.StatsComponent) (name : string)
    (stat' : Stat.StatComponent) : Prop :=
  Stats.get_stat self' name = Some stat' /\
  Stats.get_stat_names self' = Stats.get_stat_names self /\
  Stats.max_stats self' = Stats.max_stats self /\
  forall other, other <> name ->
    Stats.get_stat self' other = Stats.get_stat self other.

Definition three_potions : Cell.InventoryCellComponent :=
  {| Cell.component_type := INVENTORY; Cell.item_id := Some "potion";
     Cell.quantity := 3; Cell.max_stack_size := 5;
     Cell.slot_type := None; Cell.is_equipped := false |}.

(** The cell [c'] is the cell [c] with possibly more items: the fields
    [add_item] never writes are the same. *)
Definition topped_up (c c' : Cell.InventoryCellComponent) : Prop :=
  Cell.component_type c' = Cell.component_type c /\
  Cell.max_stack_size c' = Cell.max_stack_size c /\
  Cell.slot_type c' = Cell.slot_type c /\
  Cell.is_equipped c' = Cell.is_equipped c /\
  Cell.quantity c <= Cell.quantity c'.

(** Every cell of [cells] is still at its position in [cells'], possibly
    topped up; [cells'] may have more cells behind them. *)
Definition extends (cells cells' : list Cell.InventoryCellComponent) : Prop :=
  (length cells <= length cells')%nat /\
  forall i c, cells !! i = Some c ->
    exists c', cells' !! i = Some c' /\ topped_up c c'.

(** The cell [clear_slot] leaves. *)
Definition cleared (c : Cell.InventoryCellComponent)
  : Cell.InventoryCellComponent :=
  {| Cell.component_type := Cell.component_type c; Cell.item_id := None;
     Cell.quantity := Z.min 0 (Cell.max_stack_size c);
     Cell.max_stack_size := Cell.max_stack_size c;
     Cell.slot_type := Cell.slot_type c;
     Cell.is_equipped := Cell.is_equipped c |}.

(** Two full stacks of potions in an inventory of two cells. *)
Definition full_bag : Inventory.InventoryComponent :=
  {| Inventory.component_type := INVENTORY;
     Inventory.cells :=
       [ {| Cell.component_type := INVENTORY; Cell.item_id := Some "potion";
            Cell.quantity := 5; Cell.max_stack_size := 5;
            Cell.slot_type := None; Cell.is_equipped := false |};
         {| Cell.component_type := INVENTORY; Cell.item_id := Some "potion";
            Cell.quantity := 5; Cell.max_stack_size := 5;
            Cell.slot_type := None; Cell.is_equipped := false |} ];
     Inventory.max_cells := 2;
     Inventory.default_max_stack_size := 5 |}.

(** * Properties *)

(** ** Comparison and clamping *)

(** The order of floats is read off [SFcompare]: by cases on the floats,
    then on the comparisons of their exponents and mantissas. *)
Ltac cases_compare :=
  repeat match goal with
  | H : context [(?a ?= ?b)%Z] |- _ => destruct (Z.compare_spec a b); subst
  | |- context [(?a ?= ?b)%Z] => destruct (Z.compare_spec a b); subst
  | H : context [Pos.compare_cont Eq ?a ?b] |- _ =>
    change (Pos.compare_cont Eq a b) with (Pos.compare a b) in *;
    destruct (Pos.compare_spec a b); subst
  | |- context [Pos.compare_cont Eq ?a ?b] =>
    change (Pos.compare_cont Eq a b) with (Pos.compare a b) in *;
    destruct (Pos.compare_spec a b); subst
  end.

Ltac float_cases :=
  intros;
  unfold fltb, fleb, SFltb, SFleb, SFcompare, is_nan in *;
  repeat match goal with
  | x : float |- _ => destruct x as [[]|[]| |[] ? ?]
  end;
  cbn in *; try done; cases_compare; cbn in *; try done; try lia.

Lemma fltb_irrefl x : fltb x x = false.
Proof. float_cases. Qed.

Lemma fltb_trans x y z : fltb x y = true -> fltb y z = true -> fltb x z = true.
Proof. float_cases. Qed.

Lemma fleb_fltb x y : fleb x y = true -> fltb y x = false.
Proof. float_cases. Qed.

Lemma not_fltb_fleb x y :
  is_nan x = false -> is_nan y = false -> fltb y x = false -> fleb x y = true.
Proof. float_cases. Qed.

Lemma fleb_not_nan_l x y : fleb x y = true -> is_nan x = false.
Proof. float_cases. Qed.

Lemma fleb_not_nan_r x y : fleb x y = true -> is_nan y = false.
Proof. float_cases. Qed.

Lemma fleb_refl x : is_nan x = false -> fleb x x = true.
Proof. float_cases. Qed.

Lemma fleb_trans x y z : fleb x y = true -> fleb y z = true -> fleb x z = true.
Proof. float_cases. Qed.

Lemma fleb_fltb_trans x y z :
  fleb x y = true -> fltb y z = true -> fltb x z = true.
Proof. float_cases. Qed.

Lemma fltb_fleb_trans x y z :
  fltb x y = true -> fleb y z = true -> fltb x z = true.
Proof. float_cases. Qed.

(** NaN is below nothing and above nothing. *)
Lemma fltb_nan_l x y : is_nan x = true -> fltb x y = false.
Proof. float_cases. Qed.

Lemma fltb_nan_r x y : is_nan y = true -> fltb x y = false.
Proof. float_cases. Qed.

Lemma fleb_nan_l x y : is_nan x = true -> fleb x y = false.
Proof. float_cases. Qed.

Lemma fleb_nan_r x y : is_nan y = true -> fleb x y = false.
Proof. float_cases. Qed.

(** Replace every [fltb] test in sight by its outcome, innermost tests
    first. *)
Ltac cases_fltb :=
  repeat match goal with
  | |- context [fltb ?a ?b] =>
    lazymatch a with context [fltb _ _] => fail | _ => idtac end;
    lazymatch b with context [fltb _ _] => fail | _ => idtac end;
    let E := fresh "E" in
    destruct (fltb a b) eqn:E; cbn
  end.

(** Close a goal whose comparisons contradict one another. *)
Ltac float_order :=
  exfalso;
  repeat match goal with
  | H : fltb ?a ?a = true |- _ => rewrite fltb_irrefl in H; discriminate
  | H : fleb ?a ?b = true |- _ =>
    lazymatch goal with
    | _ : fltb b a = false |- _ => fail
    | _ => pose proof (fleb_fltb _ _ H)
    end
  | H1 : fltb ?a ?b = true, H2 : fltb ?b ?c = true |- _ =>
    lazymatch goal with
    | _ : fltb a c = true |- _ => fail
    | _ => pose proof (fltb_trans _ _ _ H1 H2)
    end
  | H1 : fleb ?a ?b = true, H2 : fltb ?b ?c = true |- _ =>
    lazymatch goal with
    | _ : fltb a c = true |- _ => fail
    | _ => pose proof (fleb_fltb_trans _ _ _ H1 H2)
    end
  | H1 : fltb ?a ?b = true, H2 : fleb ?b ?c = true |- _ =>
    lazymatch goal with
    | _ : fltb a c = true |- _ => fail
    | _ => pose proof (fltb_fleb_trans _ _ _ H1 H2)
    end
  end;
  congruence.

Ltac not_nan :=
  first [ assumption
        | eapply fleb_not_nan_l; eassumption
        | eapply fleb_not_nan_r; eassumption ].

(** Prove [a <= b] from the comparisons in sight. *)
Ltac float_le :=
  first [ assumption
        | apply fleb_refl; not_nan
        | apply not_fltb_fleb; [not_nan | not_nan | assumption]
        | float_order ].

(** A non-empty interval has numbers for bounds. *)
Lemma within_bounds_ordered lo hi x : within lo hi x -> bounds_ordered lo hi.
Proof.
  unfold within. destruct lo as [l|], hi as [h|]; cbn; intros [H1 H2];
    try done; try not_nan.
  by eapply fleb_trans.
Qed.

(** With ordered bounds the specification's clamp of a number lands within
    them. *)
Lemma clamp_within lo hi x :
  bounds_ordered lo hi -> is_nan x = false -> within lo hi (Stat.clamp lo hi x).
Proof.
  unfold Stat.clamp, within.
  destruct lo as [l|], hi as [h|]; cbn; intros Hb Hx; cases_fltb;
    split; try done; float_le.
Qed.

(** A value within the bounds is its own clamp. *)
Lemma clamp_id lo hi x : within lo hi x -> Stat.clamp lo hi x = x.
Proof.
  unfold Stat.clamp, within.
  destruct lo as [l|], hi as [h|]; cbn; intros [H1 H2]; cases_fltb;
    try done; float_order.
Qed.

(** The clamp compares, and every comparison with NaN fails: the clamp of NaN
    is NaN. *)
Lemma clamp_nan lo hi x : is_nan x = true -> Stat.clamp lo hi x = x.
Proof.
  unfold Stat.clamp. intros Hx.
  destruct lo as [l|], hi as [h|]; cbn;
    rewrite ?(fltb_nan_r _ x Hx); cbn; rewrite ?(fltb_nan_l x _ Hx); done.
Qed.

(** ** StatComponent *)

(** An assignment to [current_value] stores the clamp of the value when
    the bounds are ordered. *)
Lemma validate_current_value_clamp v (self : Stat.StatComponent) :
  bounds_ordered (Stat.min_value self) (Stat.max_value self) ->
  Stat.validate_current_value v (Stat.all_but_current self)
  = Stat.clamp (Stat.min_value self) (Stat.max_value self) v.
Proof.
  unfold Stat.validate_current_value, Stat.clamp. cbn.
  destruct (Stat.min_value self) as [l|], (Stat.max_value self) as [h|]; cbn;
    intros Hb; cases_fltb; try done; float_order.
Qed.

Lemma validate_base_value_clamp v (self : Stat.StatComponent) :
  bounds_ordered (Stat.min_value self) (Stat.max_value self) ->
  Stat.validate_base_value v (Stat.all_but_base self)
  = Stat.clamp (Stat.min_value self) (Stat.max_value self) v.
Proof.
  unfold Stat.validate_base_value, Stat.clamp. cbn.
  destruct (Stat.min_value self) as [l|], (Stat.max_value self) as [h|]; cbn;
    intros Hb; cases_fltb; try done; float_order.
Qed.

(** What [modify_value] stores, whatever the bounds. *)
Lemma modify_value_current (self : Stat.StatComponent) modifier :
  Stat.current_value (snd (Stat.modify_value self modifier))
  = Stat.clamp (Stat.min_value self) (Stat.max_value self)
      (fadd (Stat.current_value self) modifier).
Proof.
  unfold Stat.modify_value, Stat.assign_current_value,
    Stat.validate_current_value, Stat.clamp. cbn.
  destruct (Stat.min_value self) as [l|], (Stat.max_value self) as [h|]; cbn;
    cases_fltb; try done; float_order.
Qed.

(** What [set_base_value] stores, whatever the bounds. *)
Lemma set_base_value_values (self : Stat.StatComponent) new_value :
  Stat.base_value (snd (Stat.set_base_value self new_value))
  = Stat.clamp (Stat.min_value self) (Stat.max_value self) new_value /\
  Stat.current_value (snd (Stat.set_base_value self new_value))
  = Stat.clamp (Stat.min_value self) (Stat.max_value self) new_value.
Proof.
  unfold Stat.set_base_value, Stat.assign_base_value,
    Stat.assign_current_value, Stat.validate_base_value,
    Stat.validate_current_value, Stat.clamp. cbn.
  destruct (Stat.min_value self) as [l|], (Stat.max_value self) as [h|]; cbn;
    cases_fltb; split; try done; float_order.
Qed.

(** With ordered bounds [set_base_value] of a number leaves both values
    within them. *)
Lemma set_base_value_in_bounds (self : Stat.StatComponent) new_value :
  bounds_ordered (Stat.min_value self) (Stat.max_value self) ->
  is_nan new_value = false ->
  Stat.in_bounds (snd (Stat.set_base_value self new_value)).
Proof.
  intros Hb Hn. destruct (set_base_value_values self new_value) as [H1 H2].
  split; [rewrite H1 | rewrite H2]; by apply clamp_within.
Qed.

(** With ordered bounds [modify_value] leaves [current_value] within them
    when the sum is a number, and does not move [base_value]. *)
Lemma modify_value_in_bounds (self : Stat.StatComponent) modifier :
  bounds_ordered (Stat.min_value self) (Stat.max_value self) ->
  is_nan (fadd (Stat.current_value self) modifier) = false ->
  within (Stat.min_value self) (Stat.max_value self) (Stat.base_value self) ->
  Stat.in_bounds (snd (Stat.modify_value self modifier)).
Proof.
  intros Hb Hn Hbase. split.
  - exact Hbase.
  - rewrite modify_value_current. by apply clamp_within.
Qed.

(** C6. [modify_value] adds the modifier to [current_value] (one binary64
    addition), clamps the sum to the bounds that are set, stores it in
    [current_value] and returns it; every other field, [base_value] among
    them, keeps its value.  The clamp: a sum above [max_value] becomes
    [max_value], then one below [min_value] becomes [min_value]; so with
    ordered bounds a sum that is a number ends within them, a sum within
    them is stored as it is, and a NaN sum, which compares false with both
    bounds, is stored as NaN.  On a stat built with base 10, min 0 and
    max 100, [modify_value(-50)] returns 0, leaves [current_value] at 0 and
    [base_value] at 10. *)
Theorem C6_modify_value_clamps (self : Stat.StatComponent) (modifier : float) :
  (let sum := fadd (Stat.current_value self) modifier in
   let self' := snd (Stat.modify_value self modifier) in
   fst (Stat.modify_value self modifier) = Stat.current_value self' /\
   Stat.current_value self'
   = Stat.clamp (Stat.min_value self) (Stat.max_value self) sum /\
   (bounds_ordered (Stat.min_value self) (Stat.max_value self) ->
    is_nan sum = false ->
    within (Stat.min_value self) (Stat.max_value self)
      (Stat.current_value self')) /\
   (within (Stat.min_value self) (Stat.max_value self) sum ->
    Stat.current_value self' = sum) /\
   (is_nan sum = true -> Stat.current_value self' = sum) /\
   Stat.base_value self' = Stat.base_value self /\
   Stat.min_value self' = Stat.min_value self /\
   Stat.max_value self' = Stat.max_value self /\
   Stat.name self' = Stat.name self /\
   Stat.description self' = Stat.description self /\
   Stat.component_type self' = Stat.component_type self) /\
  (exists stat,
     Stat.init scenario4 = Ok stat /\
     Stat.base_value stat = float_of_Z 10 /\
     Stat.current_value stat = float_of_Z 10 /\
     fst (Stat.modify_value stat (float_of_Z (-50))) = float_of_Z 0 /\
     Stat.current_value (snd (Stat.modify_value stat (float_of_Z (-50))))
     = float_of_Z 0 /\
     Stat.base_value (snd (Stat.modify_value stat (float_of_Z (-50))))
     = float_of_Z 10).
Proof.
  split.
  - cbn zeta. split; [reflexivity|]. split; [apply modify_value_current|].
    split; [|split; [|split]].
    + intros Hb Hn. rewrite modify_value_current. by apply clamp_within.
    + intros Hw. rewrite modify_value_current. by apply clamp_id.
    + intros Hn. rewrite modify_value_current. by apply clamp_nan.
    + repeat split.
  - eexists. split; [reflexivity|]. repeat split; vm_compute; reflexivity.
Qed.

(** The sum is the rounded one: [0.1 + 0.2] is stored as
    [0.30000000000000004], not as [0.3]; and a NaN modifier is stored. *)
Example modify_value_rounds :
  let stat := built "speed" float_0_1 None None None EmptyString in
  fst (Stat.modify_value stat float_0_2) = float_0_30000000000000004 /\
  fst (Stat.modify_value stat float_0_2) <> float_0_3 /\
  fst (Stat.modify_value mana S754_nan) = S754_nan.
Proof. split; [reflexivity|]. split; [discriminate | reflexivity]. Qed.

(** C1 (the code departs from it). [StatComponent(name="hp", base_value=150,
    min_value=0, max_value=100)] is built with [base_value] and
    [current_value] both 150, above [max_value]: the two field validators
    run before [min_value] and [max_value] are validated and find no bound.
    [modify_value] afterwards brings [current_value] back within the bounds
    but leaves [base_value] at 150. *)
Theorem C1_construction_does_not_clamp :
  exists stat,
    Stat.init out_of_range = Ok stat /\
    Stat.min_value stat = Some (float_of_Z 0) /\
    Stat.max_value stat = Some (float_of_Z 100) /\
    Stat.base_value stat = (float_of_Z 150) /\
    Stat.current_value stat = (float_of_Z 150) /\
    ~ Stat.in_bounds stat /\
    ~ Stat.in_bounds (snd (Stat.modify_value stat (float_of_Z (-10)))).
Proof.
  eexists. split; [reflexivity|]. cbn.
  repeat split; unfold Stat.in_bounds, within; cbn;
    intros [[_ H] _]; vm_compute in H; discriminate.
Qed.

(** ** StatsComponent *)

Lemma lookup_stat_None (self : Stats.StatsComponent) name :
  Forall (fun stat => Stat.name stat <> name) (Stats.stats self) ->
  Stats.lookup_stat self name = None.
Proof. intros H. unfold Stats.lookup_stat. by apply list_find_None. Qed.

Lemma get_stat_lookup (self : Stats.StatsComponent) name :
  Stats.get_stat self name = snd <$> Stats.lookup_stat self name.
Proof. reflexivity. Qed.

Lemma init_built name base_value current_value min_value max_value description :
  Stat.init
    {| Stat.d_component_type := None; Stat.d_name := Some name;
       Stat.d_base_value := Some base_value;
       Stat.d_current_value := current_value;
       Stat.d_min_value := min_value; Stat.d_max_value := max_value;
       Stat.d_description := Some description |}
  = Ok (built name base_value current_value min_value max_value description).
Proof. destruct current_value; reflexivity. Qed.

(** Removing a stat from a collection within its capacity leaves room. *)
Lemma room_after_remove (self : Stats.StatsComponent) i stat :
  Stats.count_ok self ->
  Stats.stats self !! i = Some stat ->
  Stats.at_capacity (Stats.with_stats self (delete i (Stats.stats self))) = false.
Proof.
  unfold Stats.count_ok, Stats.at_capacity. cbn.
  destruct (Stats.max_stats self) as [m|]; [|done].
  intros Hc Hi. apply bool_decide_eq_false.
  rewrite length_delete by eauto.
  apply lookup_lt_Some in Hi. lia.
Qed.

(** Every way [add_stat] can end, for a collection within its capacity. *)
Lemma add_stat_outcome (self : Stats.StatsComponent) name base_value
    current_value min_value max_value description replace_if_exists :
  Stats.count_ok self ->
  let new_stat :=
    built name base_value current_value min_value max_value description in
  Stats.add_stat self name base_value current_value min_value max_value
    description replace_if_exists
  = match Stats.lookup_stat self name with
    | Some (i, _) =>
      if replace_if_exists
      then (Ok new_stat,
            Stats.with_stats self (delete i (Stats.stats self) ++ [new_stat]))
      else (Raise (ValueError (AlreadyExists name)), self)
    | None =>
      if Stats.at_capacity self
      then (Raise (ValueError
                     (MaxStatsReached (default 0 (Stats.max_stats self)))),
            self)
      else (Ok new_stat,
            Stats.with_stats self (Stats.stats self ++ [new_stat]))
    end.
Proof.
  intros Hc new_stat. unfold Stats.add_stat, Stats.remove_stat.
  rewrite get_stat_lookup.
  destruct (Stats.lookup_stat self name) as [[i old]|] eqn:Hl; cbn.
  - destruct replace_if_exists; [|done].
    apply list_find_Some in Hl as (Hi & _ & _).
    rewrite (room_after_remove self i old Hc Hi).
    rewrite init_built. reflexivity.
  - destruct (Stats.at_capacity self); [done|].
    rewrite init_built. reflexivity.
Qed.

(** A collection that holds the name: the scan finds the first stat that
    carries it. *)
Lemma lookup_stat_first (self : Stats.StatsComponent) name :
  Exists (fun stat => Stat.name stat = name) (Stats.stats self) ->
  exists i old,
    Stats.lookup_stat self name = Some (i, old) /\
    Stats.stats self !! i = Some old /\
    Stat.name old = name /\
    (forall j s, (j < i)%nat -> Stats.stats self !! j = Some s ->
       Stat.name s <> name).
Proof.
  intros Hex. unfold Stats.lookup_stat.
  destruct (list_find (fun stat => Stat.name stat = name) (Stats.stats self))
    as [[i old]|] eqn:Hl.
  - apply list_find_Some in Hl as (Hi & Hn & Hbefore).
    exists i, old. repeat split; try done.
    intros j s Hj Hs. by eapply Hbefore.
  - apply list_find_None in Hl. apply Exists_exists in Hex as (s & Hs & Hn).
    rewrite Forall_forall in Hl. by destruct (Hl s Hs).
Qed.

(** C5. On a collection within its capacity: when a stat of the collection
    carries the name, [add_stat] with [replace_if_exists=False] raises the
    "already exists" error; when no stat carries it and one more stat
    would exceed [max_stats], [add_stat] raises the "maximum number of
    stats" error, and otherwise it returns the new stat; and whenever
    [add_stat] raises, the collection is the one it was called on.  With
    [max_stats=2], after adding "str" and "dex", adding "int" raises the
    capacity error and the collection still has two stats. *)
Theorem C5_add_stat_failures (self : Stats.StatsComponent) (name : string)
    (base_value : float) (current_value min_value max_value : option float)
    (description : string) (replace_if_exists : bool) :
  Stats.count_ok self ->
  (Exists (fun stat => Stat.name stat = name) (Stats.stats self) ->
   Stats.add_stat self name base_value current_value min_value max_value
     description false
   = (Raise (ValueError (AlreadyExists name)), self)) /\
  (Forall (fun stat => Stat.name stat <> name) (Stats.stats self) ->
   match Stats.max_stats self with
   | Some m =>
     if bool_decide (Z.of_nat (length (Stats.stats self)) + 1 <= m) then
       fst (Stats.add_stat self name base_value current_value min_value
              max_value description replace_if_exists)
       = Ok (built name base_value current_value min_value max_value
               description)
     else
       Stats.add_stat self name base_value current_value min_value max_value
         description replace_if_exists
       = (Raise (ValueError (MaxStatsReached m)), self)
   | None =>
     fst (Stats.add_stat self name base_value current_value min_value
            max_value description replace_if_exists)
     = Ok (built name base_value current_value min_value max_value
             description)
   end) /\
  match fst (Stats.add_stat self name base_value current_value min_value
               max_value description replace_if_exists) with
  | Raise _ =>
    snd (Stats.add_stat self name base_value current_value min_value
           max_value description replace_if_exists) = self
  | Ok _ => True
  end /\
  (exists s0 s1 s2 st1 st2,
     Stats.init [] (Some 2) = Ok s0 /\
     Stats.add_stat s0 "str" (float_of_Z 10) None None None EmptyString false
     = (Ok st1, s1) /\
     Stats.add_stat s1 "dex" (float_of_Z 12) None None None EmptyString false
     = (Ok st2, s2) /\
     Stats.add_stat s2 "int" (float_of_Z 8) None None None EmptyString false
     = (Raise (ValueError (MaxStatsReached 2)), s2) /\
     length (Stats.stats s2) = 2%nat).
Proof.
  intros Hc. split; [|split; [|split]].
  - intros Hex. rewrite add_stat_outcome by done.
    destruct (lookup_stat_first self name Hex) as (i & old & -> & _). done.
  - intros Hno. rewrite !add_stat_outcome by done.
    rewrite (lookup_stat_None self name Hno).
    unfold Stats.at_capacity.
    destruct (Stats.max_stats self) as [m|]; [|done].
    repeat case_bool_decide; try done; lia.
  - rewrite add_stat_outcome by done.
    destruct (Stats.lookup_stat self name) as [[i old]|];
      [destruct replace_if_exists | destruct (Stats.at_capacity self)]; done.
  - do 5 eexists. repeat split; reflexivity.
Qed.

Lemma C5_add_stat_failures_witness :
  Stats.count_ok stats_str_dex /\
  Exists (fun stat => Stat.name stat = "str") (Stats.stats stats_str_dex) /\
  Stats.add_stat stats_str_dex "str" (float_of_Z 8) None None None EmptyString
    false
  = (Raise (ValueError (AlreadyExists "str")), stats_str_dex) /\
  Forall (fun stat => Stat.name stat <> "int") (Stats.stats stats_str_dex) /\
  Stats.add_stat stats_str_dex "int" (float_of_Z 8) None None None EmptyString
    false
  = (Raise (ValueError (MaxStatsReached 2)), stats_str_dex).
Proof.
  assert (Hc : Stats.count_ok stats_str_dex) by (cbn; lia).
  assert (Hex : Exists (fun stat => Stat.name stat = "str")
                  (Stats.stats stats_str_dex))
    by (left; reflexivity).
  assert (Hno : Forall (fun stat => Stat.name stat <> "int")
                  (Stats.stats stats_str_dex))
    by (repeat constructor; discriminate).
  split; [exact Hc|]. split; [exact Hex|].
  split; [|split; [exact Hno|]].
  - exact (proj1 (C5_add_stat_failures stats_str_dex "str" (float_of_Z 8)
                    None None None EmptyString false Hc) Hex).
  - exact (proj1 (proj2 (C5_add_stat_failures stats_str_dex "int"
                           (float_of_Z 8) None None None EmptyString false Hc))
             Hno).
Defined.

(** C8. For a name no stat of the collection carries, [modify_stat],
    [set_stat_base_value] and [set_stat_current_value] return [None],
    [reset_stat_to_base] and [remove_stat] return [False], and each leaves
    the collection as it was; none of them has a raising path. *)
Theorem C8_absent_name_is_signalled (self : Stats.StatsComponent)
    (name : string) (x : float) :
  Forall (fun stat => Stat.name stat <> name) (Stats.stats self) ->
  Stats.modify_stat self name x = (None, self) /\
  Stats.set_stat_base_value self name x = (None, self) /\
  Stats.set_stat_current_value self name x = (None, self) /\
  Stats.reset_stat_to_base self name = (false, self) /\
  Stats.remove_stat self name = (false, self).
Proof.
  intros H. apply lookup_stat_None in H.
  unfold Stats.modify_stat, Stats.set_stat_base_value,
    Stats.set_stat_current_value, Stats.reset_stat_to_base, Stats.remove_stat.
  rewrite H. done.
Qed.

Lemma C8_absent_name_is_signalled_witness :
  Forall (fun stat => Stat.name stat <> "luck") (Stats.stats stats_str_dex) /\
  Stats.modify_stat stats_str_dex "luck" (float_of_Z 5) = (None, stats_str_dex) /\
  Stats.remove_stat stats_str_dex "luck" = (false, stats_str_dex).
Proof.
  assert (H : Forall (fun stat => Stat.name stat <> "luck")
                (Stats.stats stats_str_dex))
    by (repeat constructor; discriminate).
  split; [exact H|].
  pose proof (C8_absent_name_is_signalled stats_str_dex "luck" (float_of_Z 5) H)
    as (H1 & _ & _ & _ & H5).
  split; [exact H1 | exact H5].
Defined.

(** C9. On a collection within its capacity in which some stat carries the
    name, [add_stat] with [replace_if_exists=True] does not raise, also
    when the collection is full: it deletes the first stat that carries the
    name and appends the new one, which therefore sits at the last
    position, and the number of stats is unchanged. *)
Theorem C9_replace_appends_at_end (self : Stats.StatsComponent)
    (name : string) (base_value : float)
    (current_value min_value max_value : option float) (description : string) :
  Stats.count_ok self ->
  Exists (fun stat => Stat.name stat = name) (Stats.stats self) ->
  let new_stat :=
    built name base_value current_value min_value max_value description in
  let self' :=
    snd (Stats.add_stat self name base_value current_value min_value
           max_value description true) in
  fst (Stats.add_stat self name base_value current_value min_value
         max_value description true) = Ok new_stat /\
  (exists i old,
     Stats.stats self !! i = Some old /\
     Stat.name old = name /\
     (forall j s, (j < i)%nat -> Stats.stats self !! j = Some s ->
        Stat.name s <> name) /\
     Stats.stats self' = delete i (Stats.stats self) ++ [new_stat]) /\
  length (Stats.stats self') = length (Stats.stats self) /\
  Stats.stats self' !! (length (Stats.stats self) - 1)%nat = Some new_stat /\
  Stats.max_stats self' = Stats.max_stats self.
Proof.
  intros Hc Hex new_stat self'. subst self'.
  destruct (lookup_stat_first self name Hex)
    as (i & old & Hl & Hi & Hn & Hfirst).
  rewrite add_stat_outcome by done. rewrite Hl. cbn.
  assert (Hlen : length (delete i (Stats.stats self))
                 = (length (Stats.stats self) - 1)%nat)
    by (apply length_delete; eauto).
  pose proof (lookup_lt_Some _ _ _ Hi) as Hlt.
  split; [done|]. split; [by exists i, old|].
  repeat split.
  - rewrite length_app, Hlen. cbn. lia.
  - rewrite lookup_app_r by lia. rewrite Hlen, Nat.sub_diag. done.
Qed.

Lemma C9_replace_appends_at_end_witness :
  Stats.count_ok stats_str_dex /\
  Exists (fun stat => Stat.name stat = "str") (Stats.stats stats_str_dex) /\
  fst (Stats.add_stat stats_str_dex "str" (float_of_Z 20) None None None
         EmptyString true)
  = Ok (built "str" (float_of_Z 20) None None None EmptyString) /\
  Stats.stats
    (snd (Stats.add_stat stats_str_dex "str" (float_of_Z 20) None None None
            EmptyString true)) !! 1%nat
  = Some (built "str" (float_of_Z 20) None None None EmptyString).
Proof.
  assert (Hc : Stats.count_ok stats_str_dex) by (cbn; lia).
  assert (Hex : Exists (fun stat => Stat.name stat = "str")
                  (Stats.stats stats_str_dex))
    by (left; reflexivity).
  split; [exact Hc|]. split; [exact Hex|].
  pose proof (C9_replace_appends_at_end stats_str_dex "str" (float_of_Z 20)
                None None None EmptyString Hc Hex) as (H1 & _ & _ & H4 & _).
  split; [exact H1 | exact H4].
Defined.

(** ** InventoryCellComponent *)

Ltac cell_cases :=
  unfold Cell.add_items, Cell.remove_items, Cell.is_empty, Cell.wf,
    Cell.cell_ok, Cell.update_quantity, Cell.update_item_id_quantity in *;
  cbn in *;
  repeat (case_bool_decide; cbn in *).

Ltac cell_close Hi :=
  repeat split; try lia; try done; try tauto;
  try (intros ?; exfalso; lia);
  try (intros ?; exfalso; destruct Hi; (discriminate || lia || (simplify_eq; lia))).

Lemma add_items_wf (self : Cell.InventoryCellComponent) item_id0 n :
  Cell.wf self -> Cell.wf (snd (Cell.add_items self item_id0 n)).
Proof.
  destruct self as [ct [i|] q m st eq]; cell_cases;
    intros [[Hq Hi] Hm]; cbn; cell_close Hi.
Qed.

Lemma remove_items_wf (self : Cell.InventoryCellComponent) n :
  Cell.wf self -> Cell.wf (snd (Cell.remove_items self n)).
Proof.
  destruct self as [ct [i|] q m st eq]; cell_cases;
    intros [[Hq Hi] Hm]; cbn; cell_close Hi.
Qed.

Lemma run_call_wf (self : Cell.InventoryCellComponent) c :
  Cell.wf self -> Cell.wf (Cell.run_call self c).
Proof.
  destruct c; cbn; [apply add_items_wf | apply remove_items_wf].
Qed.

Lemma states_after_wf calls : forall self : Cell.InventoryCellComponent,
  Cell.wf self -> Forall Cell.wf (Cell.states_after self calls).
Proof.
  induction calls as [|c calls IH]; intros self Hwf; cbn; constructor.
  - by apply run_call_wf.
  - by apply IH, run_call_wf.
Qed.

(** The constructor returns only cells the model admits, with at most one
    item: [validate_quantity] runs before [max_stack_size] is validated and
    clamps against the fallback 1. *)
Lemma init_wf data (cell : Cell.InventoryCellComponent) :
  Cell.init data = Ok cell -> Cell.wf cell /\ Cell.quantity cell <= 1.
Proof.
  unfold Cell.init, Cell.check_ge, Cell.validate_quantity,
    Cell.validate_item_id_and_quantity, Cell.wf, Cell.cell_ok.
  destruct data as [ct i q m st eq]; cbn.
  destruct q as [q|], m as [m|], i as [i|]; cbn;
    repeat (case_bool_decide; cbn); intros; simplify_eq; cbn;
    repeat split; try lia; try done; intros; exfalso; lia.
Qed.

(** C3. From any cell the constructor returns, after every call of any
    finite sequence of [add_items] and [remove_items] calls the cell has
    [0 <= quantity <= max_stack_size], and [quantity == 0] exactly when
    [item_id is None]; the constructed cell has both as well. *)
Theorem C3_cell_invariant (data : Cell.Data)
    (cell : Cell.InventoryCellComponent) (calls : list Cell.call) :
  Cell.init data = Ok cell ->
  Forall Cell.cell_ok (cell :: Cell.states_after cell calls).
Proof.
  intros Hinit. apply init_wf in Hinit as [Hwf _].
  constructor; [apply Hwf|].
  eapply Forall_impl; [by apply states_after_wf|].
  by intros c [Hok _].
Qed.

Lemma C3_cell_invariant_witness :
  exists cell,
    Cell.init potion_cell = Ok cell /\
    Forall Cell.cell_ok
      (cell :: Cell.states_after cell
                 [Cell.AddItems "potion" 3; Cell.AddItems "potion" 5;
                  Cell.RemoveItems 5]).
Proof.
  eexists. split; [reflexivity|].
  apply (C3_cell_invariant potion_cell). reflexivity.
Defined.

(** ** InventoryComponent: [remove_item] *)

Lemma drained_refl item_id c : Inventory.drained item_id c c.
Proof. unfold Inventory.drained. auto 10. Qed.

Lemma remove_items_drained item_id (c : Cell.InventoryCellComponent) n :
  Inventory.holds item_id c = true ->
  Inventory.drained item_id c (snd (Cell.remove_items c n)).
Proof.
  intros Hh. unfold Inventory.drained, Cell.remove_items.
  destruct (bool_decide (n <= 0) || Cell.is_empty c); cbn; [auto 10|].
  case_bool_decide as Hz; cbn; repeat split; right; (split; [done|]);
    case_bool_decide; done.
Qed.

Lemma drain_drained item_id cells : forall remaining,
  Forall2 (Inventory.drained item_id) cells
    (Inventory.drain item_id cells remaining).1.1.
Proof.
  induction cells as [|c rest IH]; intros remaining; cbn; [constructor|].
  destruct (Inventory.holds item_id c) eqn:Hh.
  - pose proof (remove_items_drained item_id c remaining Hh) as Hc.
    destruct (Cell.remove_items c remaining) as [removed c'].
    case_bool_decide; cbn.
    + constructor; [done|]. apply Forall_Forall2_diag, Forall_forall.
      intros; apply drained_refl.
    + specialize (IH (remaining - removed)).
      destruct (Inventory.drain item_id rest (remaining - removed))
        as [[rest' r] b]. by constructor.
  - specialize (IH remaining).
    destruct (Inventory.drain item_id rest remaining) as [[rest' r] b].
    constructor; [apply drained_refl | done].
Qed.

(** C10. [remove_item] leaves as many cells as it found, each at its
    position: a cell is either untouched or, if it held the item, reduced,
    keeping its other fields, and when its quantity has reached zero it
    stays in the list with [item_id] [None]. *)
Theorem C10_remove_item_keeps_cells (self : Inventory.InventoryComponent)
    (item_id : string) (quantity : Z) :
  let self' := snd (Inventory.remove_item self item_id quantity) in
  length (Inventory.cells self') = length (Inventory.cells self) /\
  Forall2 (Inventory.drained item_id)
    (Inventory.cells self) (Inventory.cells self') /\
  Inventory.max_cells self' = Inventory.max_cells self /\
  Inventory.default_max_stack_size self'
  = Inventory.default_max_stack_size self.
Proof.
  cbn zeta.
  assert (H : Forall2 (Inventory.drained item_id) (Inventory.cells self)
                (Inventory.cells
                   (snd (Inventory.remove_item self item_id quantity))) /\
              Inventory.max_cells
                (snd (Inventory.remove_item self item_id quantity))
              = Inventory.max_cells self /\
              Inventory.default_max_stack_size
                (snd (Inventory.remove_item self item_id quantity))
              = Inventory.default_max_stack_size self).
  { unfold Inventory.remove_item. case_bool_decide; cbn.
    - split; [|done]. apply Forall_Forall2_diag, Forall_forall.
      intros; apply drained_refl.
    - pose proof (drain_drained item_id (Inventory.cells self) quantity) as Hd.
      destruct (Inventory.drain item_id (Inventory.cells self) quantity)
        as [[cells1 r] b]. cbn in Hd. by destruct b. }
  destruct H as (H2 & Hm & Hd). repeat split; try done.
  symmetry. by eapply Forall2_length.
Qed.

(** ** InventoryComponent: [add_item] *)

Lemma add_items_holds item_id (c : Cell.InventoryCellComponent) remaining :
  0 < remaining ->
  Inventory.holds item_id c = true ->
  Cell.add_items c item_id remaining
  = (Inventory.accepts c remaining,
     Inventory.stacked c item_id (Inventory.accepts c remaining)).
Proof.
  unfold Inventory.holds, Cell.add_items. intros Hr Hh.
  apply andb_true_iff in Hh as [He Hi]. apply negb_true_iff in He.
  apply bool_decide_eq_true in Hi.
  rewrite He. cbn. repeat case_bool_decide; try done; lia.
Qed.

Lemma add_items_empty item_id (c : Cell.InventoryCellComponent) remaining :
  0 < remaining ->
  Cell.is_empty c = true ->
  Cell.add_items c item_id remaining
  = (Inventory.accepts c remaining,
     Inventory.stacked c item_id (Inventory.accepts c remaining)).
Proof.
  unfold Cell.add_items. intros Hr He. rewrite He. cbn.
  case_bool_decide; [lia | done].
Qed.

(** A well-formed cell that holds the item takes between nothing and all of
    the remaining amount, and stays well-formed, holding the item. *)
Lemma stacked_holds_wf item_id (c : Cell.InventoryCellComponent) remaining :
  0 < remaining -> Cell.wf c -> Inventory.holds item_id c = true ->
  0 <= Inventory.accepts c remaining <= remaining /\
  Cell.wf (Inventory.stacked c item_id (Inventory.accepts c remaining)) /\
  Inventory.holds item_id
    (Inventory.stacked c item_id (Inventory.accepts c remaining)) = true.
Proof.
  unfold Inventory.holds, Inventory.accepts, Inventory.stacked, Cell.wf,
    Cell.cell_ok, Cell.is_empty.
  intros Hr [[Hq Hi] Hm] Hh. cbn.
  apply andb_true_iff in Hh as [He Hid]. apply negb_true_iff in He.
  apply orb_false_iff in He as [He1 He2].
  apply bool_decide_eq_false in He1.
  repeat split; try lia; try done.
  apply andb_true_iff. split; [|by apply bool_decide_eq_true].
  apply negb_true_iff, orb_false_iff.
  split; [apply bool_decide_eq_false; lia | done].
Qed.

(** A well-formed empty cell takes at least one item. *)
Lemma stacked_empty_wf item_id (c : Cell.InventoryCellComponent) remaining :
  0 < remaining -> Cell.wf c -> Cell.is_empty c = true ->
  1 <= Inventory.accepts c remaining <= remaining /\
  Cell.quantity c = 0 /\
  Cell.wf (Inventory.stacked c item_id (Inventory.accepts c remaining)) /\
  Inventory.holds item_id
    (Inventory.stacked c item_id (Inventory.accepts c remaining)) = true.
Proof.
  unfold Inventory.holds, Inventory.accepts, Inventory.stacked, Cell.wf,
    Cell.cell_ok, Cell.is_empty.
  intros Hr [[Hq Hi] Hm] He. cbn.
  assert (Hz : Cell.quantity c = 0).
  { apply orb_true_iff in He as [He|He]; apply bool_decide_eq_true in He;
      [done | by apply Hi]. }
  rewrite Hz. repeat split; try lia; try done.
  apply andb_true_iff. split; [|by apply bool_decide_eq_true].
  apply negb_true_iff, orb_false_iff.
  split; [apply bool_decide_eq_false; lia | done].
Qed.

Lemma fresh_cell_init stack_size :
  1 <= stack_size ->
  Cell.init
    {| Cell.d_component_type := None; Cell.d_item_id := None;
       Cell.d_quantity := None; Cell.d_max_stack_size := Some stack_size;
       Cell.d_slot_type := None; Cell.d_is_equipped := None |}
  = Ok (Inventory.fresh_cell stack_size).
Proof.
  intros H. unfold Cell.init, Cell.check_ge. cbn.
  case_bool_decide; [reflexivity | lia].
Qed.

Lemma fresh_cell_wf stack_size :
  1 <= stack_size ->
  Cell.wf (Inventory.fresh_cell stack_size) /\
  Cell.is_empty (Inventory.fresh_cell stack_size) = true.
Proof.
  intros H. unfold Cell.wf, Cell.cell_ok. cbn. repeat split; try lia; done.
Qed.

(** The first loop of [add_item] performs the fill pass. *)
Lemma fill_sound item_id cells : forall remaining,
  0 < remaining ->
  Forall Cell.wf cells ->
  exists cells' remaining' returned,
    Inventory.fill item_id cells remaining = (cells', remaining', returned) /\
    Inventory.fill_spec item_id cells remaining cells' remaining' /\
    Forall Cell.wf cells' /\
    0 <= remaining' <= remaining /\
    (if returned then remaining' = 0 else 0 < remaining').
Proof.
  induction cells as [|c rest IH]; intros remaining Hr Hwf; cbn.
  - exists [], remaining, false. repeat split; try lia; try done.
    apply Inventory.fill_end.
  - apply Forall_cons in Hwf as [Hc Hrest].
    destruct (Inventory.holds item_id c) eqn:Hh.
    + rewrite add_items_holds by done.
      destruct (stacked_holds_wf item_id c remaining Hr Hc Hh)
        as (Hacc & Hwf' & _).
      case_bool_decide as Hdone.
      * eexists _, _, true. split; [reflexivity|].
        repeat split; try lia; [|by constructor].
        apply Inventory.fill_take; [done..|]. by apply Inventory.fill_stop.
      * destruct (IH (remaining - Inventory.accepts c remaining))
          as (rest' & r' & b & Hf & Hs & Hw & Hb & Hret); [lia | done |].
        rewrite Hf. eexists _, _, b. split; [reflexivity|].
        repeat split; try lia; try done; [|by constructor].
        by apply Inventory.fill_take.
    + destruct (IH remaining) as (rest' & r' & b & Hf & Hs & Hw & Hb & Hret);
        [done..|].
      rewrite Hf. eexists _, _, b. split; [reflexivity|].
      repeat split; try lia; try done; [|by constructor].
      by apply Inventory.fill_skip.
Qed.

Lemma place_unfold fuel (self : Inventory.InventoryComponent) item_id mss
    remaining :
  Inventory.place fuel self item_id mss remaining
  = if bool_decide (remaining <= 0) then Some (Ok remaining, self)
    else
      match fuel with
      | O => None
      | S fuel =>
        match Inventory.find_empty (Inventory.cells self) with
        | Some (i, empty_cell) =>
          let '(added, empty_cell) :=
            Cell.add_items empty_cell item_id remaining in
          Inventory.place fuel
            (Inventory.with_cells self
               (<[i := empty_cell]> (Inventory.cells self)))
            item_id mss (remaining - added)
        | None =>
          if bool_decide (Z.of_nat (length (Inventory.cells self))
                          < Inventory.max_cells self) then
            let stack_size :=
              default (Inventory.default_max_stack_size self) mss in
            match Cell.init
                    {| Cell.d_component_type := None; Cell.d_item_id := None;
                       Cell.d_quantity := None;
                       Cell.d_max_stack_size := Some stack_size;
                       Cell.d_slot_type := None; Cell.d_is_equipped := None |}
            with
            | Raise e => Some (Raise e, self)
            | Ok new_cell =>
              let i := length (Inventory.cells self) in
              let self1 :=
                Inventory.with_cells self (Inventory.cells self ++ [new_cell]) in
              let '(added, empty_cell) :=
                Cell.add_items new_cell item_id remaining in
              Inventory.place fuel
                (Inventory.with_cells self1
                   (<[i := empty_cell]> (Inventory.cells self1)))
                item_id mss (remaining - added)
            end
          else Some (Ok remaining, self)
        end
      end.
Proof. destruct fuel; reflexivity. Qed.

(** More fuel does not change the outcome of a run that had enough. *)
Lemma place_mono item_id mss fuel :
  forall (self : Inventory.InventoryComponent) remaining r fuel',
    Inventory.place fuel self item_id mss remaining = Some r ->
    (fuel <= fuel')%nat ->
    Inventory.place fuel' self item_id mss remaining = Some r.
Proof.
  induction fuel as [|fuel IH]; intros self remaining r fuel' H Hle;
    rewrite place_unfold in H; rewrite place_unfold;
    case_bool_decide; try done.
  destruct fuel' as [|fuel']; [lia|].
  destruct (Inventory.find_empty (Inventory.cells self)) as [[i c]|].
  - destruct (Cell.add_items c item_id remaining) as [added c'].
    eapply IH; [done | lia].
  - case_bool_decide; [|done].
    cbn zeta in *.
    destruct (Cell.init _) as [new_cell|e]; [|done].
    destruct (Cell.add_items new_cell item_id remaining) as [added c'].
    eapply IH; [done | lia].
Qed.

Lemma add_item_mono item_id mss fuel fuel'
    (self : Inventory.InventoryComponent) quantity r :
  Inventory.add_item fuel self item_id quantity mss = Some r ->
  (fuel <= fuel')%nat ->
  Inventory.add_item fuel' self item_id quantity mss = Some r.
Proof.
  unfold Inventory.add_item. intros H Hle.
  case_bool_decide; [done|].
  destruct (Inventory.fill item_id (Inventory.cells self) quantity)
    as [[cells1 r1] b].
  destruct b; [done|].
  destruct (Inventory.place fuel _ item_id mss r1) as [o|] eqn:Hp; [|done].
  by rewrite (place_mono _ _ _ _ _ _ fuel' Hp Hle).
Qed.

Lemma with_cells_same (self : Inventory.InventoryComponent) :
  Inventory.with_cells self (Inventory.cells self) = self.
Proof. by destruct self. Qed.

Lemma insert_at_end {A} (l : list A) (x y : A) :
  <[length l := y]> (l ++ [x]) = l ++ [y].
Proof. induction l as [|a l IH]; simpl; [done | by f_equal]. Qed.

Lemma find_empty_first (cells : list Cell.InventoryCellComponent) i c :
  Inventory.find_empty cells = Some (i, c) -> Inventory.first_empty cells i c.
Proof.
  unfold Inventory.find_empty, Inventory.first_empty. intros H.
  apply list_find_Some in H as (Hi & He & Hbefore).
  repeat split; try done.
  intros j c' Hj Hlt. apply not_true_iff_false. by eapply Hbefore.
Qed.

Lemma find_empty_none (cells : list Cell.InventoryCellComponent) :
  Inventory.find_empty cells = None -> Inventory.no_empty cells.
Proof.
  unfold Inventory.find_empty, Inventory.no_empty. intros H c Hc.
  apply list_find_None in H. rewrite Forall_forall in H.
  apply not_true_iff_false. by apply H.
Qed.

Lemma stack_size_positive (self : Inventory.InventoryComponent) mss :
  Inventory.wf self -> Inventory.stack_size_ok mss ->
  1 <= default (Inventory.default_max_stack_size self) mss.
Proof. intros [_ Hd] Hs. by destruct mss. Qed.

(** The [while] loop of [add_item] performs the overflow pass, within a
    number of iterations bounded by the remaining amount. *)
Lemma place_sound item_id mss fuel :
  forall (self : Inventory.InventoryComponent) remaining,
    Inventory.wf self -> Inventory.stack_size_ok mss ->
    0 <= remaining -> (Z.to_nat remaining <= fuel)%nat ->
    exists cells' remaining',
      Inventory.place fuel self item_id mss remaining
      = Some (Ok remaining', Inventory.with_cells self cells') /\
      Inventory.overflow_spec item_id (Inventory.max_cells self)
        (default (Inventory.default_max_stack_size self) mss)
        (Inventory.cells self) remaining cells' remaining' /\
      Forall Cell.wf cells' /\
      0 <= remaining' <= remaining.
Proof.
  induction fuel as [|fuel IH]; intros self remaining Hwf Hs Hr Hfuel;
    rewrite place_unfold; case_bool_decide as Hdone.
  1,3: exists (Inventory.cells self), remaining;
       rewrite with_cells_same; repeat split; try lia; try apply Hwf;
       by apply Inventory.overflow_done.
  - lia.
  - pose proof (stack_size_positive self mss Hwf Hs) as Hstack.
    destruct Hwf as [Hcells Hdef].
    destruct (Inventory.find_empty (Inventory.cells self)) as [[i c]|] eqn:Hf.
    + apply find_empty_first in Hf. pose proof Hf as (Hi & He & _).
      assert (Hc : Cell.wf c) by (by eapply Forall_lookup_1).
      rewrite add_items_empty by (done || lia).
      destruct (stacked_empty_wf item_id c remaining ltac:(lia) Hc He)
        as (Hacc & _ & Hwf' & _).
      destruct (IH (Inventory.with_cells self
                      (<[i := Inventory.stacked c item_id
                                (Inventory.accepts c remaining)]>
                         (Inventory.cells self)))
                   (remaining - Inventory.accepts c remaining))
        as (cells' & r' & Hp & Hspec & Hw & Hb);
        [split; [by apply Forall_insert | done] | done | lia | lia |].
      exists cells', r'. split; [exact Hp|]. split; [|split; [done | lia]].
      eapply Inventory.overflow_use; [lia | done | exact Hspec].
    + apply find_empty_none in Hf.
      case_bool_decide as Hroom.
      * cbn zeta. rewrite fresh_cell_init by done.
        destruct (fresh_cell_wf _ Hstack) as [Hfresh Hempty].
        rewrite add_items_empty by (done || lia).
        destruct (stacked_empty_wf item_id _ remaining ltac:(lia) Hfresh Hempty)
          as (Hacc & _ & Hwf' & _).
        cbn [Inventory.cells Inventory.with_cells]. rewrite insert_at_end.
        set (stack := default (Inventory.default_max_stack_size self) mss) in *.
        set (new := Inventory.stacked (Inventory.fresh_cell stack) item_id
                      (Inventory.accepts (Inventory.fresh_cell stack) remaining))
          in *.
        destruct (IH (Inventory.with_cells self (Inventory.cells self ++ [new]))
                     (remaining
                      - Inventory.accepts (Inventory.fresh_cell stack) remaining))
          as (cells' & r' & Hp & Hspec & Hw & Hb);
          [split; [apply Forall_app; split; [done | by constructor] | done]
          | done | lia | lia |].
        exists cells', r'. split; [exact Hp|]. split; [|split; [done | lia]].
        eapply Inventory.overflow_create; [lia | done | done | exact Hspec].
      * exists (Inventory.cells self), remaining. rewrite with_cells_same.
        repeat split; try lia; try done.
        apply Inventory.overflow_stop; [lia | done | lia].
Qed.

(** [add_item] ends, without raising, in the outcome the algorithm of the
    specification describes, and leaves the inventory well-formed. *)
Lemma add_item_sound (self : Inventory.InventoryComponent) item_id quantity mss :
  Inventory.wf self -> Inventory.stack_size_ok mss ->
  exists returned self',
    (forall fuel, (Z.to_nat quantity <= fuel)%nat ->
       Inventory.add_item fuel self item_id quantity mss
       = Some (Ok returned, self')) /\
    Inventory.add_item_spec self item_id quantity mss returned self' /\
    Inventory.wf self'.
Proof.
  intros Hwf Hs. unfold Inventory.add_item, Inventory.add_item_spec.
  case_bool_decide as Hq; [by exists 0, self|].
  destruct (fill_sound item_id (Inventory.cells self) quantity)
    as (cells1 & r1 & b & Hf & Hfs & Hw1 & Hb1 & Hret); [lia | apply Hwf |].
  rewrite Hf. destruct b.
  - subst r1. exists quantity, (Inventory.with_cells self cells1).
    split; [done|]. split; [|split; [done | apply Hwf]].
    exists cells1, 0, cells1, 0. repeat split; try done; try lia.
    by apply Inventory.overflow_done.
  - destruct (place_sound item_id mss (Z.to_nat r1)
                (Inventory.with_cells self cells1) r1)
      as (cells2 & r2 & Hp & Hos & Hw2 & Hb2);
      [split; [done | apply Hwf] | done | lia | lia |].
    exists (quantity - r2), (Inventory.with_cells self cells2).
    split; [|split; [|split; [done | apply Hwf]]].
    + intros fuel Hfuel.
      rewrite (place_mono _ _ _ _ _ _ fuel Hp) by lia. done.
    + exists cells1, r1, cells2, r2. done.
Qed.

(** *** The specification determines the outcome *)

Lemma fill_spec_unique item_id cells remaining c1 r1 :
  Inventory.fill_spec item_id cells remaining c1 r1 ->
  forall c2 r2,
    Inventory.fill_spec item_id cells remaining c2 r2 -> c1 = c2 /\ r1 = r2.
Proof.
  induction 1 as [cells r Hr | r | c rest r rest' r' Hr Hh _ IH
                 | c rest r rest' r' Hr Hh _ IH];
    intros c2 r2 H2; inversion H2; subst; try done; try lia; try congruence.
  - match goal with H : Inventory.fill_spec _ rest _ _ _ |- _ =>
      apply IH in H as [-> ->] end. done.
  - match goal with H : Inventory.fill_spec _ rest _ _ _ |- _ =>
      apply IH in H as [-> ->] end. done.
Qed.

Lemma first_empty_unique (cells : list Cell.InventoryCellComponent) i c i' c' :
  Inventory.first_empty cells i c -> Inventory.first_empty cells i' c' ->
  i = i' /\ c = c'.
Proof.
  intros (Hi & He & Hb) (Hi' & He' & Hb').
  assert (i = i') as <-.
  { destruct (Nat.lt_trichotomy i i') as [Hlt|[Heq|Hgt]]; [|done|].
    - specialize (Hb' _ _ Hi Hlt). congruence.
    - specialize (Hb _ _ Hi' Hgt). congruence. }
  split; [done | congruence].
Qed.

Lemma first_empty_not_none (cells : list Cell.InventoryCellComponent) i c :
  Inventory.first_empty cells i c -> Inventory.no_empty cells -> False.
Proof.
  intros (Hi & He & _) Hn.
  apply list_elem_of_lookup_2 in Hi. apply Hn in Hi. congruence.
Qed.

Lemma overflow_spec_unique item_id max_cells stack cells remaining c1 r1 :
  Inventory.overflow_spec item_id max_cells stack cells remaining c1 r1 ->
  forall c2 r2,
    Inventory.overflow_spec item_id max_cells stack cells remaining c2 r2 ->
    c1 = c2 /\ r1 = r2.
Proof.
  induction 1 as [cells r Hr | cells r i c cells' r' Hr Hfirst _ IH
                 | cells r cells' r' Hr Hnone Hroom _ IH
                 | cells r Hr Hnone Hfull];
    intros c2 r2 H2; inversion H2; subst; try done; try lia;
    try (exfalso; by eapply first_empty_not_none).
  - match goal with H : Inventory.first_empty _ _ _ |- _ =>
      destruct (first_empty_unique _ _ _ _ _ Hfirst H) as [<- <-] end.
    by apply IH.
  - by apply IH.
Qed.

(** Two outcomes the specification allows for one call are the same. *)
Lemma add_item_spec_unique (self : Inventory.InventoryComponent) item_id
    quantity mss n1 s1 n2 s2 :
  Inventory.add_item_spec self item_id quantity mss n1 s1 ->
  Inventory.add_item_spec self item_id quantity mss n2 s2 ->
  n1 = n2 /\ s1 = s2.
Proof.
  unfold Inventory.add_item_spec. case_bool_decide.
  - by intros [-> ->] [-> ->].
  - intros (c1 & r1 & d1 & q1 & Hf1 & Ho1 & -> & ->)
           (c2 & r2 & d2 & q2 & Hf2 & Ho2 & -> & ->).
    destruct (fill_spec_unique _ _ _ _ _ Hf1 _ _ Hf2) as [<- <-].
    destruct (overflow_spec_unique _ _ _ _ _ _ _ Ho1 _ _ Ho2) as [<- <-].
    done.
Qed.

Lemma two_potions_wf : Inventory.wf two_potions.
Proof.
  split; [|cbn; lia].
  repeat constructor; cbn; try lia; done.
Defined.

(** C2. On a well-formed inventory, with a stack size for new cells that is
    absent or at least 1, [add_item] returns (within [quantity] iterations
    of its [while] loop, without raising) the result of the two passes: the
    fill pass over the non-empty cells holding the item, in cell order,
    stopped as soon as nothing remains; then the overflow pass, which uses
    the first empty cell, appends a new cell only when there is no empty
    cell and fewer than [max_cells] cells, and stops when neither is
    possible; the value returned is [quantity] minus what remains, and 0
    with the inventory untouched when [quantity <= 0].  The two passes
    allow no other outcome. *)
Theorem C2_add_item_algorithm (self : Inventory.InventoryComponent)
    (item_id : string) (quantity : Z) (max_stack_size : option Z) :
  Inventory.wf self ->
  Inventory.stack_size_ok max_stack_size ->
  exists returned self',
    (forall fuel, (Z.to_nat quantity <= fuel)%nat ->
       Inventory.add_item fuel self item_id quantity max_stack_size
       = Some (Ok returned, self')) /\
    Inventory.add_item_spec self item_id quantity max_stack_size returned self' /\
    (forall n s,
       Inventory.add_item_spec self item_id quantity max_stack_size n s ->
       n = returned /\ s = self').
Proof.
  intros Hwf Hs.
  destruct (add_item_sound self item_id quantity max_stack_size Hwf Hs)
    as (returned & self' & Hrun & Hspec & _).
  exists returned, self'. split; [done|]. split; [done|].
  intros n s Hns. by eapply add_item_spec_unique.
Qed.

Lemma C2_add_item_algorithm_witness :
  Inventory.wf two_potions /\
  Inventory.stack_size_ok None /\
  exists returned self',
    (forall fuel, (Z.to_nat 9 <= fuel)%nat ->
       Inventory.add_item fuel two_potions "potion" 9 None
       = Some (Ok returned, self')) /\
    Inventory.add_item_spec two_potions "potion" 9 None returned self' /\
    (forall n s,
       Inventory.add_item_spec two_potions "potion" 9 None n s ->
       n = returned /\ s = self').
Proof.
  split; [exact two_potions_wf|]. split; [exact I|].
  exact (C2_add_item_algorithm two_potions "potion" 9 None two_potions_wf I).
Defined.

(** *** Counting *)

Lemma get_item_count_total (self : Inventory.InventoryComponent) item_id :
  Inventory.get_item_count self item_id = total item_id (Inventory.cells self).
Proof.
  unfold Inventory.get_item_count.
  enough (H : forall cells acc,
             foldl (fun t c =>
                      if Inventory.holds item_id c then t + Cell.quantity c else t)
                   acc cells
             = acc + total item_id cells) by (rewrite H; lia).
  induction cells as [|c cells IH]; intros acc; cbn; [lia|].
  rewrite IH. unfold stored. destruct (Inventory.holds item_id c); lia.
Qed.

Lemma total_app item_id l1 l2 :
  total item_id (l1 ++ l2) = total item_id l1 + total item_id l2.
Proof. induction l1 as [|c l1 IH]; cbn; [done | rewrite IH; lia]. Qed.

Lemma total_insert item_id (l : list Cell.InventoryCellComponent) i c c' :
  l !! i = Some c ->
  total item_id (<[i := c']> l)
  = total item_id l - stored item_id c + stored item_id c'.
Proof.
  revert i. induction l as [|a l IH]; intros [|i] Hi; simplify_eq; simpl.
  - simplify_eq/=. lia.
  - rewrite (IH i) by done. lia.
Qed.

Lemma stored_empty item_id (c : Cell.InventoryCellComponent) :
  Cell.is_empty c = true -> stored item_id c = 0.
Proof. unfold stored, Inventory.holds. by intros ->. Qed.

Lemma fill_spec_total item_id cells remaining cells' remaining' :
  Inventory.fill_spec item_id cells remaining cells' remaining' ->
  Forall Cell.wf cells ->
  total item_id cells' = total item_id cells + (remaining - remaining').
Proof.
  induction 1 as [cells r Hr | r | c rest r rest' r' Hr Hh _ IH
                 | c rest r rest' r' Hr Hh _ IH]; intros Hwf; cbn; try lia.
  - apply Forall_cons in Hwf as [Hc Hrest].
    destruct (stacked_holds_wf item_id c r Hr Hc Hh) as (_ & _ & Hh').
    rewrite IH by done. unfold stored. rewrite Hh, Hh'. cbn. lia.
  - apply Forall_cons in Hwf as [Hc Hrest]. rewrite IH by done. lia.
Qed.

Lemma overflow_spec_total item_id max_cells stack cells remaining cells'
    remaining' :
  Inventory.overflow_spec item_id max_cells stack cells remaining cells'
    remaining' ->
  1 <= stack ->
  Forall Cell.wf cells ->
  total item_id cells' = total item_id cells + (remaining - remaining').
Proof.
  induction 1 as [cells r Hr | cells r i c cells' r' Hr Hfirst _ IH
                 | cells r cells' r' Hr Hnone Hroom _ IH
                 | cells r Hr Hnone Hfull]; intros Hstack Hwf; try lia.
  - destruct Hfirst as (Hi & He & _).
    assert (Hc : Cell.wf c) by (by eapply Forall_lookup_1).
    destruct (stacked_empty_wf item_id c r Hr Hc He) as (_ & Hz & Hwf' & Hh').
    rewrite IH by (done || by apply Forall_insert).
    rewrite (total_insert _ _ _ c) by done.
    rewrite (stored_empty _ c He). unfold stored. rewrite Hh'. cbn. lia.
  - destruct (fresh_cell_wf stack Hstack) as [Hfresh He].
    destruct (stacked_empty_wf item_id _ r Hr Hfresh He) as (_ & _ & Hwf' & Hh').
    rewrite IH by (done || (apply Forall_app; split; [done | by constructor])).
    rewrite total_app. cbn. unfold stored. rewrite Hh'. cbn. lia.
Qed.

Lemma fill_spec_wf item_id cells remaining cells' remaining' :
  Inventory.fill_spec item_id cells remaining cells' remaining' ->
  Forall Cell.wf cells -> Forall Cell.wf cells'.
Proof.
  induction 1 as [cells r Hr | r | c rest r rest' r' Hr Hh _ IH
                 | c rest r rest' r' Hr Hh _ IH]; intros Hwf; try done.
  - apply Forall_cons in Hwf as [Hc Hrest].
    destruct (stacked_holds_wf item_id c r Hr Hc Hh) as (_ & Hwf' & _).
    constructor; [done | by apply IH].
  - apply Forall_cons in Hwf as [Hc Hrest]. constructor; [done | by apply IH].
Qed.

(** What [add_item] returns is what [get_item_count] gains. *)
Lemma add_item_spec_count (self : Inventory.InventoryComponent) item_id
    quantity mss returned self' :
  Inventory.wf self -> Inventory.stack_size_ok mss ->
  Inventory.add_item_spec self item_id quantity mss returned self' ->
  Inventory.get_item_count self' item_id
  = Inventory.get_item_count self item_id + returned.
Proof.
  intros Hwf Hs. unfold Inventory.add_item_spec.
  case_bool_decide; [intros [-> ->]; lia|].
  intros (cells1 & r1 & cells2 & r2 & Hf & Ho & -> & ->).
  rewrite !get_item_count_total. cbn.
  pose proof (stack_size_positive self mss Hwf Hs) as Hstack.
  destruct Hwf as [Hcells _].
  rewrite (overflow_spec_total _ _ _ _ _ _ _ Ho Hstack
             (fill_spec_wf _ _ _ _ _ Hf Hcells)).
  rewrite (fill_spec_total _ _ _ _ _ Hf Hcells). lia.
Qed.

Lemma bag_wf : Inventory.wf bag.
Proof. split; [constructor | cbn; lia]. Defined.

(** C7. On a well-formed inventory, when [add_item] of [a], then of [b],
    and [add_item] of [a + b] on the same starting inventory each return
    the quantity they were asked to add (capacity is not exceeded),
    [get_item_count] of the item is the same after the two calls as after
    the single one: the count before plus [a + b]. *)
Theorem C7_add_item_splits (self s1 s2 s3 : Inventory.InventoryComponent)
    (item_id : string) (a b : Z) (max_stack_size : option Z)
    (fuel1 fuel2 fuel3 : nat) :
  Inventory.wf self ->
  Inventory.stack_size_ok max_stack_size ->
  Inventory.add_item fuel1 self item_id a max_stack_size = Some (Ok a, s1) ->
  Inventory.add_item fuel2 s1 item_id b max_stack_size = Some (Ok b, s2) ->
  Inventory.add_item fuel3 self item_id (a + b) max_stack_size
  = Some (Ok (a + b), s3) ->
  Inventory.get_item_count s2 item_id = Inventory.get_item_count s3 item_id /\
  Inventory.get_item_count s3 item_id
  = Inventory.get_item_count self item_id + (a + b).
Proof.
  intros Hwf Hs H1 H2 H3.
  assert (Hstep : forall fuel (s s' : Inventory.InventoryComponent) q,
             Inventory.wf s ->
             Inventory.add_item fuel s item_id q max_stack_size
             = Some (Ok q, s') ->
             Inventory.wf s' /\
             Inventory.get_item_count s' item_id
             = Inventory.get_item_count s item_id + q).
  { intros fuel s s' q Hw Hrun.
    destruct (add_item_sound s item_id q max_stack_size Hw Hs)
      as (r & t & Hall & Hspec & Hw').
    pose proof (add_item_mono _ _ _ (fuel `max` Z.to_nat q)%nat _ _ _ Hrun
                  ltac:(lia)) as Hrun'.
    rewrite Hall in Hrun' by lia. simplify_eq.
    split; [done|]. by eapply add_item_spec_count. }
  destruct (Hstep _ _ _ _ Hwf H1) as [Hw1 Hc1].
  destruct (Hstep _ _ _ _ Hw1 H2) as [_ Hc2].
  destruct (Hstep _ _ _ _ Hwf H3) as [_ Hc3].
  lia.
Qed.

Lemma C7_add_item_splits_witness :
  exists s1 s2 s3,
    Inventory.add_item 10 bag "potion" 3 None = Some (Ok 3, s1) /\
    Inventory.add_item 10 s1 "potion" 4 None = Some (Ok 4, s2) /\
    Inventory.add_item 10 bag "potion" (3 + 4) None = Some (Ok (3 + 4), s3) /\
    Inventory.get_item_count s2 "potion" = Inventory.get_item_count s3 "potion".
Proof.
  do 3 eexists.
  split; [reflexivity|]. split; [reflexivity|]. split; [reflexivity|].
  exact (proj1 (C7_add_item_splits bag _ _ _ "potion" 3 4 None 10 10 10
                  bag_wf I eq_refl eq_refl eq_refl)).
Defined.

(** ** Serialization *)

(** A stat comes back from its record as it was: at construction neither
    validator changes a value. *)
Lemma stat_round_trip (self : Stat.StatComponent) :
  Stat.init (Stat.model_dump self) = Ok self.
Proof. by destruct self. Qed.

(** So does a cell the model admits, as long as it holds at most one item. *)
Lemma cell_round_trip_small (self : Cell.InventoryCellComponent) :
  Cell.wf self -> Cell.quantity self <= 1 ->
  Cell.init (Cell.model_dump self) = Ok self.
Proof.
  destruct self as [ct i q m st eq]. intros [[Hq Hi] Hm] Hone. cbn in *.
  assert (Hcases : q = 0 /\ i = None \/ q = 1 /\ exists s, i = Some s).
  { destruct i as [s|].
    - right. split; [|by eauto].
      destruct (decide (q = 0)) as [Hz|Hz]; [by apply Hi in Hz | lia].
    - left. split; [by apply Hi | done]. }
  unfold Cell.init, Cell.check_ge, Cell.validate_quantity,
    Cell.validate_item_id_and_quantity.
  destruct Hcases as [[-> ->] | [-> [s ->]]]; cbn;
    case_bool_decide; try lia; done.
Qed.

(** C4 (the code departs from it). A cell built with [max_stack_size=5]
    that took 3 "potion" holds 3 of them; the cell rebuilt from its
    [model_dump()] record holds 1: at construction [validate_quantity] runs
    before [max_stack_size] is validated and clamps the quantity against
    the fallback 1. *)
Theorem C4_cell_round_trip_loses_quantity :
  exists cell0 cell back,
    Cell.init potion_cell = Ok cell0 /\
    Cell.add_items cell0 "potion" 3 = (3, cell) /\
    Cell.quantity cell = 3 /\ Cell.max_stack_size cell = 5 /\
    Cell.init (Cell.model_dump cell) = Ok back /\
    Cell.quantity back = 1 /\
    back <> cell.
Proof.
  do 3 eexists. split; [reflexivity|]. split; [reflexivity|].
  split; [reflexivity|]. split; [reflexivity|]. split; [reflexivity|].
  split; [reflexivity | discriminate].
Qed.

(** ** The repository's tests, replayed on the model *)

(** [test_stat_component_validation_min_value],
    [test_stat_component_validation_base_value_max] *)
Example test_assignment_clamps :
  let stat := built "health" (float_of_Z 10) None (Some (float_of_Z 0)) (Some (float_of_Z 100)) EmptyString in
  Stat.current_value (Stat.assign_current_value stat (float_of_Z (-5))) = (float_of_Z 0) /\
  Stat.base_value (Stat.assign_base_value stat (float_of_Z 150)) = (float_of_Z 100).
Proof. split; reflexivity. Qed.

(** [test_modify_value_respects_max], [test_set_base_value_respects_min] *)
Example test_modify_and_set_base :
  fst (Stat.modify_value
         (built "health" (float_of_Z 80) (Some (float_of_Z 90)) (Some (float_of_Z 0))
            (Some (float_of_Z 100)) EmptyString) (float_of_Z 50)) = (float_of_Z 100) /\
  Stat.set_base_value
    (built "health" (float_of_Z 50) None (Some (float_of_Z 0)) (Some (float_of_Z 100)) EmptyString) (float_of_Z (-10))
  = ((float_of_Z 0),
     built "health" (float_of_Z 0) None (Some (float_of_Z 0)) (Some (float_of_Z 100)) EmptyString).
Proof. split; reflexivity. Qed.

(** [test_add_stat_duplicate_name_raises_error],
    [test_add_stat_replace_if_exists] *)
Example test_add_stat_twice :
  exists s0 s1 st,
    Stats.init [] None = Ok s0 /\
    Stats.add_stat s0 "strength" (float_of_Z 15) None None None EmptyString false = (Ok st, s1) /\
    Stats.add_stat s1 "strength" (float_of_Z 10) None None None EmptyString false
    = (Raise (ValueError (AlreadyExists "strength")), s1) /\
    Stat.base_value <$>
      Stats.stats (snd (Stats.add_stat s1 "strength" (float_of_Z 20) None None None EmptyString
                          true))
    = [(float_of_Z 20)].
Proof. do 3 eexists. repeat split; reflexivity. Qed.

(** [test_inventory_component_validation_quantity_without_item_id],
    [test_is_empty_false_when_has_items] *)
Example test_cell_construction :
  Cell.init
    {| Cell.d_component_type := None; Cell.d_item_id := None;
       Cell.d_quantity := Some 5; Cell.d_max_stack_size := None;
       Cell.d_slot_type := None; Cell.d_is_equipped := None |}
  = Raise (ValidationError QuantityWithoutItem) /\
  exists cell,
    Cell.init
      {| Cell.d_component_type := None; Cell.d_item_id := Some "sword";
         Cell.d_quantity := Some 1; Cell.d_max_stack_size := None;
         Cell.d_slot_type := None; Cell.d_is_equipped := None |}
    = Ok cell /\ Cell.is_empty cell = false.
Proof. split; [reflexivity|]. eexists. split; reflexivity. Qed.

(** [test_add_items_partial_add], [test_add_items_different_item_id],
    [test_remove_items_more_than_available] *)
Example test_cell_add_remove :
  exists c0 c1 c2 c3,
    Cell.init potion_cell = Ok c0 /\
    Cell.add_items c0 "potion" 3 = (3, c1) /\
    Cell.add_items c1 "potion" 5 = (2, c2) /\
    Cell.quantity c2 = 5 /\ Cell.is_full c2 = true /\
    Cell.add_items c2 "axe" 1 = (0, c2) /\
    Cell.remove_items c2 9 = (5, c3) /\
    Cell.quantity c3 = 0 /\ Cell.item_id c3 = None.
Proof. do 4 eexists. repeat split; reflexivity. Qed.

(** [test_add_item_fills_existing_then_creates_new], [test_get_item_count],
    [test_remove_item_from_multiple_cells] *)
Example test_inventory_fill_then_create :
  exists inv s1 s2,
    Inventory.init [] None (Some 5) = Ok inv /\
    Inventory.add_item 5 inv "potion" 3 None = Some (Ok 3, s1) /\
    Inventory.add_item 5 s1 "potion" 5 None = Some (Ok 5, s2) /\
    Cell.quantity <$> Inventory.cells s2 = [5; 3] /\
    Inventory.get_item_count s2 "potion" = 8 /\
    fst (Inventory.remove_item s2 "potion" 7) = 7 /\
    Cell.quantity <$> Inventory.cells (snd (Inventory.remove_item s2 "potion" 7))
    = [0; 1].
Proof. do 3 eexists. repeat split; reflexivity. Qed.

(** [test_add_item_partial_add_when_full], [test_add_item_respects_max_cells] *)
Example test_inventory_full :
  exists inv s1 s2,
    Inventory.init [] (Some 2) (Some 5) = Ok inv /\
    Inventory.add_item 5 inv "potion" 5 None = Some (Ok 5, s1) /\
    Inventory.add_item 5 s1 "potion" 5 None = Some (Ok 5, s2) /\
    length (Inventory.cells s2) = 2%nat /\
    Inventory.add_item 5 s2 "potion" 3 None = Some (Ok 0, s2) /\
    Inventory.add_item 5 s2 "sword" 1 None = Some (Ok 0, s2).
Proof. do 3 eexists. repeat split; reflexivity. Qed.

(** [test_remove_item_clears_cell] *)
Example test_remove_last_item :
  exists inv s1,
    Inventory.init [] None None = Ok inv /\
    Inventory.add_item 5 inv "sword" 1 None = Some (Ok 1, s1) /\
    fst (Inventory.remove_item s1 "sword" 1) = 1 /\
    (fun c => (Cell.item_id c, Cell.quantity c)) <$>
      Inventory.cells (snd (Inventory.remove_item s1 "sword" 1))
    = [(None, 0)].
Proof. do 2 eexists. repeat split; reflexivity. Qed.

(** * Further properties *)

(** ** StatComponent *)

Lemma assign_current_value_current (self : Stat.StatComponent) v :
  bounds_ordered (Stat.min_value self) (Stat.max_value self) ->
  Stat.current_value (Stat.assign_current_value self v)
  = Stat.clamp (Stat.min_value self) (Stat.max_value self) v.
Proof. intros Hb. cbn. by apply validate_current_value_clamp. Qed.

Lemma assign_base_value_base (self : Stat.StatComponent) v :
  bounds_ordered (Stat.min_value self) (Stat.max_value self) ->
  Stat.base_value (Stat.assign_base_value self v)
  = Stat.clamp (Stat.min_value self) (Stat.max_value self) v.
Proof. intros Hb. cbn. by apply validate_base_value_clamp. Qed.

(** NaN lies within no bound. *)
Lemma nan_not_within lo hi x :
  is_nan x = true -> lo <> None \/ hi <> None -> ~ within lo hi x.
Proof.
  intros Hx Hset [Hlo Hhi].
  destruct lo as [l|], hi as [h|]; cbn in *;
    rewrite ?(fleb_nan_r _ x Hx), ?(fleb_nan_l x _ Hx) in *;
    try done; by destruct Hset.
Qed.

(** X1. A stat whose two values lie within the bounds that are set keeps
    both within them through every mutation the class offers, as long as
    the value to store is a number: [modify_value] when the sum is not NaN,
    [set_base_value] and the validated assignments to [current_value] and
    to [base_value] when the value given is not NaN, and [reset_to_base]
    always.  A NaN passes every comparison: given to [set_base_value] or
    assigned to [current_value] of a stat with a bound, it is stored and
    the stat leaves its bounds. *)
Theorem stat_bounds_invariant (self : Stat.StatComponent) (x : float) :
  Stat.in_bounds self ->
  (is_nan (fadd (Stat.current_value self) x) = false ->
   Stat.in_bounds (snd (Stat.modify_value self x))) /\
  (is_nan x = false ->
   Stat.in_bounds (snd (Stat.set_base_value self x)) /\
   Stat.in_bounds (Stat.assign_current_value self x) /\
   Stat.in_bounds (Stat.assign_base_value self x)) /\
  Stat.in_bounds (Stat.reset_to_base self) /\
  (is_nan x = true ->
   Stat.min_value self <> None \/ Stat.max_value self <> None ->
   ~ Stat.in_bounds (snd (Stat.set_base_value self x)) /\
   ~ Stat.in_bounds (Stat.assign_current_value self x)).
Proof.
  intros [Hbase Hcur].
  pose proof (within_bounds_ordered _ _ _ Hbase) as Hb.
  split; [|split; [|split]].
  - intros Hn. split; [exact Hbase|].
    rewrite modify_value_current. by apply clamp_within.
  - intros Hn.
    destruct (set_base_value_values self x) as [H1 H2].
    split; [|split].
    + split; [rewrite H1 | rewrite H2]; by apply clamp_within.
    + split; [exact Hbase|].
      rewrite assign_current_value_current by done. by apply clamp_within.
    + split; [|exact Hcur].
      rewrite assign_base_value_base by done. by apply clamp_within.
  - split; [exact Hbase|]. unfold Stat.reset_to_base.
    rewrite assign_current_value_current by done.
    by rewrite clamp_id.
  - intros Hn Hset. split.
    + intros [_ H]. revert H.
      rewrite (proj2 (set_base_value_values self x)), clamp_nan by done.
      by apply nan_not_within.
    + intros [_ H]. revert H.
      rewrite assign_current_value_current, clamp_nan by done.
      by apply nan_not_within.
Qed.

Lemma mana_in_bounds : Stat.in_bounds mana.
Proof. repeat split. Defined.

Lemma stat_bounds_invariant_witness :
  Stat.in_bounds mana /\
  is_nan (fadd (Stat.current_value mana) (float_of_Z 75)) = false /\
  Stat.in_bounds (snd (Stat.modify_value mana (float_of_Z 75))).
Proof.
  split; [exact mana_in_bounds|]. split; [reflexivity|].
  exact (proj1 (stat_bounds_invariant mana (float_of_Z 75) mana_in_bounds)
           eq_refl).
Defined.

(** X2. [set_base_value] stores the clamp of the new value in both
    [base_value] and [current_value] and returns it, whatever the bounds and
    the previous values; no other field changes. *)
Theorem set_base_value_stores_clamp (self : Stat.StatComponent)
    (new_value : float) :
  let clamped :=
    Stat.clamp (Stat.min_value self) (Stat.max_value self) new_value in
  let self' := snd (Stat.set_base_value self new_value) in
  fst (Stat.set_base_value self new_value) = clamped /\
  Stat.base_value self' = clamped /\
  Stat.current_value self' = clamped /\
  Stat.min_value self' = Stat.min_value self /\
  Stat.max_value self' = Stat.max_value self /\
  Stat.name self' = Stat.name self /\
  Stat.description self' = Stat.description self /\
  Stat.component_type self' = Stat.component_type self.
Proof.
  cbn zeta.
  destruct (set_base_value_values self new_value) as [H1 H2].
  repeat split; try done.
Qed.

(** X3. [reset_to_base] never changes [base_value] and is idempotent; when
    [base_value] lies within the bounds it sets [current_value] to exactly
    [base_value] and changes nothing else. *)
Theorem reset_to_base_restores_base (self : Stat.StatComponent) :
  within (Stat.min_value self) (Stat.max_value self) (Stat.base_value self) ->
  Stat.current_value (Stat.reset_to_base self) = Stat.base_value self /\
  Stat.base_value (Stat.reset_to_base self) = Stat.base_value self /\
  Stat.min_value (Stat.reset_to_base self) = Stat.min_value self /\
  Stat.max_value (Stat.reset_to_base self) = Stat.max_value self /\
  Stat.name (Stat.reset_to_base self) = Stat.name self /\
  Stat.reset_to_base (Stat.reset_to_base self) = Stat.reset_to_base self.
Proof.
  intros [Hlo Hhi]. repeat split.
  unfold Stat.reset_to_base, Stat.assign_current_value,
    Stat.validate_current_value. cbn.
  destruct (Stat.min_value self) as [l|], (Stat.max_value self) as [h|];
    cbn in *; cases_fltb; try done; float_order.
Qed.

Lemma reset_to_base_restores_base_witness :
  within (Stat.min_value mana) (Stat.max_value mana) (Stat.base_value mana) /\
  Stat.current_value (Stat.reset_to_base mana) = float_of_Z 50.
Proof.
  assert (H : within (Stat.min_value mana) (Stat.max_value mana)
                (Stat.base_value mana))
    by (split; reflexivity).
  split; [exact H|].
  exact (proj1 (reset_to_base_restores_base mana H)).
Defined.

(** X5. Rebuilding a stat from its [model_dump()] record gives the stat
    back, and two stats with the same record are the same stat. *)
Theorem stat_model_dump_round_trip (self other : Stat.StatComponent) :
  Stat.init (Stat.model_dump self) = Ok self /\
  (Stat.model_dump self = Stat.model_dump other <-> self = other).
Proof.
  split; [by destruct self|]. split; [|by intros ->].
  destruct self, other. cbn. intros H. by simplify_eq.
Qed.

(** ** StatsComponent *)

(** *** Searching a list for the first element with a property *)

Section first_match.
Context {A : Type} (P : A -> Prop) `{!forall x, Decision (P x)}.

Lemma first_cons a (l : list A) :
  snd <$> list_find P (a :: l)
  = if decide (P a) then Some a else snd <$> list_find P l.
Proof.
  cbn. case_decide; [done|]. by destruct (list_find P l) as [[j y]|].
Qed.

Lemma first_app (l k : list A) :
  snd <$> list_find P (l ++ k)
  = match snd <$> list_find P l with
    | Some y => Some y
    | None => snd <$> list_find P k
    end.
Proof.
  induction l as [|a l IH]; [done|].
  rewrite <- app_comm_cons, !first_cons. by case_decide.
Qed.

Lemma first_delete_other (l : list A) i x :
  l !! i = Some x -> ~ P x ->
  snd <$> list_find P (delete i l) = snd <$> list_find P l.
Proof.
  revert i. induction l as [|a l IH]; intros [|i] Hi Hx; simplify_eq/=.
  - change (snd <$> list_find P l = snd <$> list_find P (x :: l)).
    rewrite first_cons. by case_decide.
  - change (snd <$> list_find P (a :: delete i l)
            = snd <$> list_find P (a :: l)).
    rewrite !first_cons. case_decide; [done|]. by eapply IH.
Qed.

Lemma first_delete_only (l : list A) i x :
  l !! i = Some x ->
  (forall j y, l !! j = Some y -> P y -> j = i) ->
  list_find P (delete i l) = None.
Proof.
  intros Hi Honly. apply list_find_None, Forall_lookup.
  intros j y Hj Hy.
  destruct (decide (j < i)%nat) as [Hlt|Hge].
  - rewrite list_lookup_delete_lt in Hj by done.
    specialize (Honly _ _ Hj Hy). lia.
  - rewrite list_lookup_delete_ge in Hj by lia.
    specialize (Honly _ _ Hj Hy). lia.
Qed.

Lemma first_insert_other (l : list A) i x y :
  l !! i = Some x -> ~ P x -> ~ P y ->
  snd <$> list_find P (<[i := y]> l) = snd <$> list_find P l.
Proof.
  revert i. induction l as [|a l IH]; intros [|i] Hi Hx Hy; simplify_eq/=.
  - change (snd <$> list_find P (y :: l) = snd <$> list_find P (x :: l)).
    rewrite !first_cons. by repeat case_decide.
  - change (snd <$> list_find P (a :: <[i := y]> l)
            = snd <$> list_find P (a :: l)).
    rewrite !first_cons. case_decide; [done|]. by eapply IH.
Qed.

Lemma first_insert_found (l : list A) i x y :
  list_find P l = Some (i, x) -> P y ->
  list_find P (<[i := y]> l) = Some (i, y).
Proof.
  intros (Hi & Hx & Hbefore)%list_find_Some Hy. apply list_find_Some.
  split; [|split; [done|]].
  - apply list_lookup_insert_eq. by eapply lookup_lt_Some.
  - intros j z Hj Hlt. rewrite list_lookup_insert_ne in Hj by lia.
    by eapply Hbefore.
Qed.
End first_match.

Lemma first_fmap {A} (P : A -> Prop) `{!forall x, Decision (P x)}
    (f : A -> A) (l : list A) :
  (forall x, P (f x) <-> P x) ->
  snd <$> list_find P (f <$> l) = f <$> (snd <$> list_find P l).
Proof.
  intros Hf. induction l as [|a l IH]; [done|].
  rewrite fmap_cons, !first_cons, IH.
  destruct (decide (P a)) as [Ha|Ha], (decide (P (f a))) as [Hfa|Hfa];
    try done; exfalso; [by apply Hfa, Hf | by apply Ha, Hf].
Qed.

Lemma get_stat_None_names (self : Stats.StatsComponent) name :
  Stats.get_stat self name = None <-> name ∉ Stats.get_stat_names self.
Proof.
  unfold Stats.get_stat, Stats.lookup_stat, Stats.get_stat_names.
  rewrite fmap_None, list_find_None, Forall_forall, list_elem_of_fmap.
  split.
  - intros H (stat & -> & Hin). by apply (H stat).
  - intros H stat Hin Hname. apply H. by exists stat.
Qed.

Lemma get_stat_Some_elem (self : Stats.StatsComponent) name s :
  Stats.get_stat self name = Some s ->
  exists i, Stats.lookup_stat self name = Some (i, s) /\
            Stats.stats self !! i = Some s /\ Stat.name s = name.
Proof.
  unfold Stats.get_stat. intros Hg.
  destruct (Stats.lookup_stat self name) as [[i s']|] eqn:Hl; [|done].
  cbn in Hg. simplify_eq. exists i. split; [done|].
  by apply list_find_Some in Hl as (? & ? & _).
Qed.

Lemma names_unique_lookup (self : Stats.StatsComponent) i j x y :
  Stats.names_unique self ->
  Stats.stats self !! i = Some x -> Stats.stats self !! j = Some y ->
  Stat.name x = Stat.name y -> i = j.
Proof.
  unfold Stats.names_unique, Stats.get_stat_names. intros Hu Hi Hj Hxy.
  eapply (NoDup_lookup _ i j (Stat.name x)); [done|..];
    rewrite list_lookup_fmap; [by rewrite Hi | by rewrite Hj, Hxy].
Qed.

(** X6. [get_stat] returns a stat of the collection that carries the name,
    and [None] exactly when no stat carries it; [has_stat] says which of
    the two it is. *)
Theorem get_stat_by_name (self : Stats.StatsComponent) (name : string) :
  match Stats.get_stat self name with
  | Some stat =>
    stat ∈ Stats.stats self /\ Stat.name stat = name /\
    name ∈ Stats.get_stat_names self /\ Stats.has_stat self name = true
  | None =>
    (name ∉ Stats.get_stat_names self) /\ Stats.has_stat self name = false
  end.
Proof.
  unfold Stats.has_stat.
  destruct (Stats.get_stat self name) as [s|] eqn:Hg.
  - destruct (get_stat_Some_elem _ _ _ Hg) as (i & _ & Hi & Hn).
    split; [by eapply list_elem_of_lookup_2|]. split; [done|].
    split; [|by apply bool_decide_eq_true].
    unfold Stats.get_stat_names. apply list_elem_of_fmap.
    exists s. split; [done | by eapply list_elem_of_lookup_2].
  - split; [by apply get_stat_None_names|].
    apply bool_decide_eq_false. by intros [].
Qed.

(** X7. [add_stat] for a name the collection does not hold, on a
    collection that is not at capacity, returns the new stat and appends it:
    the names are the old ones followed by the new one, [get_stat] finds the
    new stat under its name and finds every other name as before. *)
Theorem add_stat_appends (self : Stats.StatsComponent) (name : string)
    (base_value : float) (current_value min_value max_value : option float)
    (description : string) (replace_if_exists : bool) :
  name ∉ Stats.get_stat_names self ->
  Stats.at_capacity self = false ->
  let new_stat :=
    built name base_value current_value min_value max_value description in
  let self' :=
    snd (Stats.add_stat self name base_value current_value min_value
           max_value description replace_if_exists) in
  fst (Stats.add_stat self name base_value current_value min_value
         max_value description replace_if_exists) = Ok new_stat /\
  Stats.stats self' = Stats.stats self ++ [new_stat] /\
  Stats.get_stat_names self' = Stats.get_stat_names self ++ [name] /\
  Stats.get_stat self' name = Some new_stat /\
  (forall other, other <> name ->
     Stats.get_stat self' other = Stats.get_stat self other).
Proof.
  intros Habsent Hroom new_stat self'. subst self'.
  apply get_stat_None_names in Habsent.
  unfold Stats.add_stat. rewrite Habsent, Hroom, init_built. cbn.
  split; [done|]. split; [done|].
  split; [unfold Stats.get_stat_names; cbn; by rewrite fmap_app|].
  unfold Stats.get_stat, Stats.lookup_stat in *. cbn.
  split.
  - rewrite first_app, Habsent, first_cons. cbn. by case_decide.
  - intros other Hne. rewrite first_app, first_cons. cbn.
    case_decide; [done|].
    clear Habsent.
    destruct (list_find _ (Stats.stats self)) as [[j y]|]; reflexivity.
Qed.

Lemma add_stat_appends_witness :
  ("int" ∉ Stats.get_stat_names stats_one) /\
  Stats.at_capacity stats_one = false /\
  Stats.get_stat
    (snd (Stats.add_stat stats_one "int" (float_of_Z 8) None None None EmptyString
            false)) "int"
  = Some (built "int" (float_of_Z 8) None None None EmptyString).
Proof.
  assert (Ha : "int" ∉ Stats.get_stat_names stats_one)
    by (cbn; intros H; apply list_elem_of_singleton in H; discriminate).
  assert (Hc : Stats.at_capacity stats_one = false) by reflexivity.
  split; [exact Ha|]. split; [exact Hc|].
  exact (proj1 (proj2 (proj2 (proj2
           (add_stat_appends stats_one "int" (float_of_Z 8) None None None
              EmptyString false Ha Hc))))).
Defined.

Lemma names_unique_only (self : Stats.StatsComponent) i s :
  Stats.names_unique self ->
  Stats.stats self !! i = Some s ->
  forall j y, Stats.stats self !! j = Some y ->
              Stat.name y = Stat.name s -> j = i.
Proof. intros Hu Hi j y Hj Hn. by eapply names_unique_lookup. Qed.

Lemma delete_names_unique (self : Stats.StatsComponent) i :
  Stats.names_unique self ->
  Stats.names_unique (Stats.with_stats self (delete i (Stats.stats self))).
Proof.
  unfold Stats.names_unique, Stats.get_stat_names. cbn. intros Hu.
  rewrite list_fmap_delete. eapply sublist_NoDup; [done|].
  apply sublist_delete.
Qed.

Lemma delete_count_ok (self : Stats.StatsComponent) i :
  Stats.count_ok self ->
  Stats.count_ok (Stats.with_stats self (delete i (Stats.stats self))).
Proof.
  unfold Stats.count_ok. cbn.
  destruct (Stats.max_stats self) as [m|]; [|done]. intros Hc.
  pose proof (sublist_length _ _ (sublist_delete (Stats.stats self) i)). lia.
Qed.

(** X8. On a collection within its capacity whose names are unique,
    [add_stat] leaves a collection within its capacity whose names are
    unique, whatever its arguments and whether it returns or raises; and
    when it returns a stat, [get_stat] then finds that stat under the
    name. *)
Theorem add_stat_keeps_invariants (self : Stats.StatsComponent)
    (name : string) (base_value : float)
    (current_value min_value max_value : option float) (description : string)
    (replace_if_exists : bool) :
  Stats.count_ok self ->
  Stats.names_unique self ->
  let self' :=
    snd (Stats.add_stat self name base_value current_value min_value
           max_value description replace_if_exists) in
  Stats.count_ok self' /\
  Stats.names_unique self' /\
  match fst (Stats.add_stat self name base_value current_value min_value
               max_value description replace_if_exists) with
  | Ok stat => Stats.get_stat self' name = Some stat
  | Raise _ => self' = self
  end.
Proof.
  intros Hc Hu self'. subst self'. rewrite add_stat_outcome by done.
  set (new_stat := built name base_value current_value min_value max_value
                     description).
  destruct (Stats.lookup_stat self name) as [[i old]|] eqn:Hl.
  - destruct replace_if_exists; [|done]. cbn.
    pose proof Hl as (Hi & Hold & _)%list_find_Some.
    assert (Hgone : list_find (fun stat => Stat.name stat = name)
                      (delete i (Stats.stats self)) = None).
    { eapply first_delete_only; [done|]. intros j y Hj Hy.
      eapply names_unique_only; [done..|]. by rewrite Hy, Hold. }
    split; [|split].
    + unfold Stats.count_ok in *. cbn.
      destruct (Stats.max_stats self) as [m|]; [|done].
      rewrite length_app, length_delete by eauto. cbn.
      apply lookup_lt_Some in Hi. lia.
    + unfold Stats.names_unique, Stats.get_stat_names in *. cbn.
      rewrite fmap_app, list_fmap_delete. cbn. apply NoDup_app.
      split; [eapply sublist_NoDup; [done | apply sublist_delete]|].
      split; [|apply NoDup_singleton].
      intros x Hx Hx'. apply list_elem_of_singleton in Hx'. subst x.
      rewrite <- list_fmap_delete in Hx.
      apply list_elem_of_fmap in Hx as (y & Hy & Hin).
      apply list_find_None in Hgone. rewrite Forall_forall in Hgone.
      by apply (Hgone y).
    + unfold Stats.get_stat, Stats.lookup_stat. cbn.
      rewrite first_app, Hgone, first_cons. cbn. by case_decide.
  - destruct (Stats.at_capacity self) eqn:Hcap; [done|]. cbn.
    assert (Habsent : list_find (fun stat => Stat.name stat = name)
                        (Stats.stats self) = None) by done.
    split; [|split].
    + unfold Stats.count_ok, Stats.at_capacity in *. cbn.
      destruct (Stats.max_stats self) as [m|]; [|done].
      apply bool_decide_eq_false in Hcap. rewrite length_app. cbn. lia.
    + unfold Stats.names_unique, Stats.get_stat_names in *. cbn.
      rewrite fmap_app. cbn. apply NoDup_app.
      split; [done|]. split; [|apply NoDup_singleton].
      intros x Hx Hx'. apply list_elem_of_singleton in Hx'. subst x.
      apply list_elem_of_fmap in Hx as (y & Hy & Hin).
      apply list_find_None in Habsent. rewrite Forall_forall in Habsent.
      by apply (Habsent y).
    + unfold Stats.get_stat, Stats.lookup_stat. cbn.
      rewrite first_app, Habsent, first_cons. cbn. by case_decide.
Qed.

Lemma stats_one_ok : Stats.count_ok stats_one /\ Stats.names_unique stats_one.
Proof.
  split; [cbn; lia|]. unfold Stats.names_unique. cbn. apply NoDup_singleton.
Defined.

Lemma add_stat_keeps_invariants_witness :
  Stats.count_ok stats_one /\ Stats.names_unique stats_one /\
  Stats.names_unique
    (snd (Stats.add_stat stats_one "str" (float_of_Z 20) None None None EmptyString
            true)).
Proof.
  split; [exact (proj1 stats_one_ok)|]. split; [exact (proj2 stats_one_ok)|].
  exact (proj1 (proj2
           (add_stat_keeps_invariants stats_one "str" (float_of_Z 20) None None None
              EmptyString true (proj1 stats_one_ok) (proj2 stats_one_ok)))).
Defined.

(** X9. On a collection whose names are unique, [remove_stat] for a name
    it holds returns [True] and leaves one stat fewer; afterwards the name
    is no longer found, every other name is found as before, and the names
    are still unique. *)
Theorem remove_stat_removes (self : Stats.StatsComponent) (name : string) :
  Stats.names_unique self ->
  name ∈ Stats.get_stat_names self ->
  let self' := snd (Stats.remove_stat self name) in
  fst (Stats.remove_stat self name) = true /\
  S (length (Stats.stats self')) = length (Stats.stats self) /\
  Stats.get_stat self' name = None /\
  (forall other, other <> name ->
     Stats.get_stat self' other = Stats.get_stat self other) /\
  Stats.names_unique self' /\
  Stats.max_stats self' = Stats.max_stats self.
Proof.
  intros Hu Hin self'. subst self'. unfold Stats.remove_stat.
  destruct (Stats.lookup_stat self name) as [[i old]|] eqn:Hl.
  - pose proof Hl as (Hi & Hold & _)%list_find_Some. cbn.
    split; [done|]. split.
    { rewrite length_delete by eauto. apply lookup_lt_Some in Hi. lia. }
    split.
    { unfold Stats.get_stat, Stats.lookup_stat. cbn.
      erewrite first_delete_only; [done | done |].
      intros j y Hj Hy. eapply names_unique_only; [done..|].
      by rewrite Hy, Hold. }
    split; [|split; [by apply delete_names_unique | done]].
    intros other Hne. unfold Stats.get_stat, Stats.lookup_stat. cbn.
    eapply first_delete_other; [done|]. by rewrite Hold.
  - exfalso. apply (proj1 (get_stat_None_names self name)); [|done].
    unfold Stats.get_stat. by rewrite Hl.
Qed.

Lemma remove_stat_removes_witness :
  Stats.names_unique stats_one /\
  ("str" ∈ Stats.get_stat_names stats_one) /\
  Stats.get_stat (snd (Stats.remove_stat stats_one "str")) "str" = None.
Proof.
  assert (Hin : "str" ∈ Stats.get_stat_names stats_one)
    by (cbn; apply list_elem_of_singleton; reflexivity).
  split; [exact (proj2 stats_one_ok)|]. split; [exact Hin|].
  exact (proj1 (proj2 (proj2
           (remove_stat_removes stats_one "str" (proj2 stats_one_ok) Hin)))).
Defined.

Lemma update_found (self : Stats.StatsComponent) name i stat stat' :
  Stats.lookup_stat self name = Some (i, stat) ->
  Stat.name stat' = Stat.name stat ->
  changes_only self
    (Stats.with_stats self (<[i := stat']> (Stats.stats self))) name stat'.
Proof.
  intros Hl Hname. pose proof Hl as (Hi & Hstat & _)%list_find_Some.
  unfold changes_only, Stats.get_stat, Stats.lookup_stat,
    Stats.get_stat_names in *. cbn.
  split; [|split; [|split; [done|]]].
  - erewrite first_insert_found; [done | done |]. by rewrite Hname.
  - rewrite list_fmap_insert, Hname. apply list_insert_id.
    by rewrite list_lookup_fmap, Hi.
  - intros other Hne. eapply first_insert_other; [done|..];
      rewrite ?Hname, Hstat; done.
Qed.

(** X10. For a name the collection holds, each delegating operation
    returns what the stat's own operation returns on the stat [get_stat]
    finds, and changes the collection in that stat only, which becomes the
    stat the operation leaves: [modify_stat], [set_stat_base_value],
    [set_stat_current_value] and [reset_stat_to_base] (which returns
    [True]). *)
Theorem delegated_operations_change_one_stat (self : Stats.StatsComponent)
    (name : string) (stat : Stat.StatComponent) (x : float) :
  Stats.get_stat self name = Some stat ->
  (fst (Stats.modify_stat self name x) = Some (fst (Stat.modify_value stat x)) /\
   changes_only self (snd (Stats.modify_stat self name x)) name
     (snd (Stat.modify_value stat x))) /\
  (fst (Stats.set_stat_base_value self name x)
   = Some (fst (Stat.set_base_value stat x)) /\
   changes_only self (snd (Stats.set_stat_base_value self name x)) name
     (snd (Stat.set_base_value stat x))) /\
  (fst (Stats.set_stat_current_value self name x)
   = Some (Stat.current_value (Stat.assign_current_value stat x)) /\
   changes_only self (snd (Stats.set_stat_current_value self name x)) name
     (Stat.assign_current_value stat x)) /\
  (fst (Stats.reset_stat_to_base self name) = true /\
   changes_only self (snd (Stats.reset_stat_to_base self name)) name
     (Stat.reset_to_base stat)).
Proof.
  intros Hg. destruct (get_stat_Some_elem _ _ _ Hg) as (i & Hl & _ & _).
  unfold Stats.modify_stat, Stats.set_stat_base_value,
    Stats.set_stat_current_value, Stats.reset_stat_to_base.
  rewrite Hl.
  split; [split; [reflexivity|]|split; [split; [reflexivity|]|
    split; [split; [reflexivity|]|split; [reflexivity|]]]].
  - exact (update_found self name i stat (snd (Stat.modify_value stat x))
             Hl eq_refl).
  - exact (update_found self name i stat (snd (Stat.set_base_value stat x))
             Hl eq_refl).
  - exact (update_found self name i stat (Stat.assign_current_value stat x)
             Hl eq_refl).
  - exact (update_found self name i stat (Stat.reset_to_base stat) Hl eq_refl).
Qed.

Lemma delegated_operations_change_one_stat_witness :
  Stats.get_stat stats_one "str"
  = Some (built "str" (float_of_Z 10) None None None EmptyString) /\
  fst (Stats.modify_stat stats_one "str" (float_of_Z 5))
  = Some (fst (Stat.modify_value
                 (built "str" (float_of_Z 10) None None None EmptyString) (float_of_Z 5))).
Proof.
  assert (Hg : Stats.get_stat stats_one "str"
               = Some (built "str" (float_of_Z 10) None None None EmptyString))
    by reflexivity.
  split; [exact Hg|].
  exact (proj1 (proj1
           (delegated_operations_change_one_stat stats_one "str" _ (float_of_Z 5) Hg))).
Defined.

(** X11. The constructor of the collection raises exactly when [max_stats]
    is given and below 1.  Otherwise it keeps the first [max_stats] stats it
    was given, in order, and drops the rest without raising; the result is
    within its capacity, and all stats are kept when no capacity is
    given. *)
Theorem stats_init_truncates (stats0 : list Stat.StatComponent)
    (max_stats0 : option Z) :
  match max_stats0 with
  | Some m =>
    if bool_decide (1 <= m) then
      exists self,
        Stats.init stats0 (Some m) = Ok self /\
        Stats.stats self = take (Z.to_nat m) stats0 /\
        Stats.max_stats self = Some m /\
        Stats.count_ok self
    else
      Stats.init stats0 (Some m)
      = Raise (ValidationError (GreaterEqual "max_stats" 1))
  | None =>
    Stats.init stats0 None
    = Ok {| Stats.component_type := STAT; Stats.stats := stats0;
            Stats.max_stats := None |}
  end.
Proof.
  destruct max_stats0 as [m|]; [|done].
  unfold Stats.init. case_bool_decide as Hm; [|done].
  eexists. split; [reflexivity|].
  unfold Stats.validate_stats_count, Stats.count_ok. cbn.
  case_bool_decide as Hlen; cbn.
  - split; [done|]. split; [done|]. rewrite length_take. lia.
  - split; [|split; [done | lia]]. symmetry. apply take_ge. lia.
Qed.

(** X12. [reset_all_to_base] keeps the names, their order and the
    capacity; under every name [get_stat] then finds the reset of the stat
    it found before; resetting twice is resetting once. *)
Theorem reset_all_to_base_resets_each (self : Stats.StatsComponent)
    (name : string) :
  let self' := Stats.reset_all_to_base self in
  Stats.get_stat self' name = Stat.reset_to_base <$> Stats.get_stat self name /\
  Stats.get_stat_names self' = Stats.get_stat_names self /\
  Stats.max_stats self' = Stats.max_stats self /\
  Stats.reset_all_to_base self' = self'.
Proof.
  cbn zeta. unfold Stats.reset_all_to_base, Stats.get_stat, Stats.lookup_stat,
    Stats.get_stat_names. cbn.
  split; [by apply first_fmap|]. split.
  { rewrite <- list_fmap_compose. by apply list_fmap_ext. }
  split; [done|]. unfold Stats.with_stats. cbn. f_equal.
  rewrite <- list_fmap_compose. apply list_fmap_ext. intros i s _. cbn.
  unfold Stat.reset_to_base, Stat.assign_current_value. cbn. done.
Qed.

(** ** InventoryCellComponent *)

Lemma three_potions_wf : Cell.wf three_potions.
Proof. unfold Cell.wf, Cell.cell_ok. cbn. repeat split; (lia || done). Defined.

(** X13. On a cell the model admits, [add_items] returns an amount between
    0 and the amount asked for, raises [quantity] by exactly that amount,
    touches no field but [item_id] and [quantity], and leaves a cell the
    model admits.  When the amount asked for is positive and the cell is
    empty or holds the same item, the amount is
    [min(add_quantity, max_stack_size - quantity)], the cell then holds the
    item, and a shortfall means the cell is full; otherwise nothing is
    added and the cell is unchanged. *)
Theorem add_items_amount (self : Cell.InventoryCellComponent)
    (item_id0 : string) (n : Z) :
  Cell.wf self ->
  let added := fst (Cell.add_items self item_id0 n) in
  let self' := snd (Cell.add_items self item_id0 n) in
  Cell.wf self' /\
  0 <= added <= Z.max 0 n /\
  Cell.quantity self' = Cell.quantity self + added /\
  Cell.max_stack_size self' = Cell.max_stack_size self /\
  Cell.slot_type self' = Cell.slot_type self /\
  Cell.is_equipped self' = Cell.is_equipped self /\
  if bool_decide (0 < n)
     && (Cell.is_empty self || bool_decide (Cell.item_id self = Some item_id0))
  then added = Z.min n (Cell.max_stack_size self - Cell.quantity self) /\
       Cell.item_id self' = Some item_id0 /\
       (added = n \/ Cell.is_full self' = true)
  else added = 0 /\ self' = self.
Proof.
  intros Hwf. cbn zeta. split; [by apply add_items_wf|].
  destruct self as [ct i q m st eq]. destruct Hwf as [[Hq Hi] Hm].
  unfold Cell.add_items, Cell.is_empty, Cell.is_full. cbn in *.
  destruct i as [i|]; repeat (case_bool_decide; cbn);
    simplify_eq; repeat split; try lia; try done;
    try (destruct (Z.min_spec n (m - q)) as [[? ->]|[? ->]];
         ((left; lia) || (right; apply bool_decide_eq_true; lia))).
  all: try (exfalso; destruct Hi as [Hi1 Hi2]; (by apply Hi1) || (by apply Hi2)).
Qed.

Lemma add_items_amount_witness :
  Cell.wf three_potions /\
  0 <= fst (Cell.add_items three_potions "potion" 5) <= Z.max 0 5.
Proof.
  split; [exact three_potions_wf|].
  exact (proj1 (proj2 (add_items_amount three_potions "potion" 5
                         three_potions_wf))).
Defined.

(** X14. On a cell the model admits, [remove_items] returns
    [min(remove_quantity, quantity)] for a positive request and 0 otherwise,
    lowers [quantity] by exactly that amount, clears [item_id] exactly when
    no item is left, touches no other field and leaves a cell the model
    admits; a shortfall means the cell is empty afterwards. *)
Theorem remove_items_amount (self : Cell.InventoryCellComponent) (n : Z) :
  Cell.wf self ->
  let removed := fst (Cell.remove_items self n) in
  let self' := snd (Cell.remove_items self n) in
  Cell.wf self' /\
  removed = (if bool_decide (0 < n) then Z.min n (Cell.quantity self) else 0) /\
  Cell.quantity self' = Cell.quantity self - removed /\
  Cell.max_stack_size self' = Cell.max_stack_size self /\
  Cell.slot_type self' = Cell.slot_type self /\
  Cell.is_equipped self' = Cell.is_equipped self /\
  (if bool_decide (Cell.quantity self' = 0)
   then Cell.item_id self' = None
   else Cell.item_id self' = Cell.item_id self) /\
  (removed = Z.max 0 n \/ Cell.is_empty self' = true).
Proof.
  intros Hwf. cbn zeta. split; [by apply remove_items_wf|].
  destruct self as [ct i q m st eq]. destruct Hwf as [[Hq Hi] Hm].
  unfold Cell.remove_items, Cell.is_empty, Cell.update_quantity,
    Cell.update_item_id_quantity. cbn in *.
  destruct i as [i|]; repeat (case_bool_decide; cbn);
    simplify_eq; repeat split; try lia; try done;
    try (exfalso; destruct Hi as [Hi1 Hi2];
         ((by apply Hi1; lia) || (specialize (Hi2 eq_refl); lia)));
    try (destruct (Z.min_spec n q) as [[? Hmin]|[? Hmin]];
         ((left; lia) || (right; done) || (right; lia))).
  all: by apply Hi.
Qed.

Lemma remove_items_amount_witness :
  Cell.wf three_potions /\
  fst (Cell.remove_items three_potions 5)
  = (if bool_decide (0 < 5) then Z.min 5 (Cell.quantity three_potions) else 0).
Proof.
  split; [exact three_potions_wf|].
  exact (proj1 (proj2 (remove_items_amount three_potions 5 three_potions_wf))).
Defined.

(** X15. On a cell the model admits, removing what [add_items] has just
    added gives the cell back as it was, and removes exactly that amount. *)
Theorem add_items_then_remove (self : Cell.InventoryCellComponent)
    (item_id0 : string) (n : Z) :
  Cell.wf self ->
  Cell.remove_items (snd (Cell.add_items self item_id0 n))
    (fst (Cell.add_items self item_id0 n))
  = (fst (Cell.add_items self item_id0 n), self).
Proof.
  intros [[Hq Hi] Hm]. destruct self as [ct i q m st eq].
  unfold Cell.add_items, Cell.remove_items, Cell.is_empty,
    Cell.update_quantity, Cell.update_item_id_quantity. cbn in *.
  destruct i as [i|]; repeat (case_bool_decide; cbn in *); simplify_eq;
    try done; try lia;
    try (exfalso; destruct Hi as [Hi1 Hi2];
         ((by apply Hi1; lia) || (specialize (Hi2 eq_refl); lia)));
    try (f_equal; [lia | f_equal; lia]).
  all: try (exfalso; apply proj1 in Hi; specialize (Hi eq_refl); discriminate).
  all: try (exfalso; lia).
  all: repeat f_equal; lia.
Qed.

Lemma add_items_then_remove_witness :
  Cell.wf three_potions /\
  Cell.remove_items (snd (Cell.add_items three_potions "potion" 5))
    (fst (Cell.add_items three_potions "potion" 5))
  = (fst (Cell.add_items three_potions "potion" 5), three_potions).
Proof.
  split; [exact three_potions_wf|].
  exact (add_items_then_remove three_potions "potion" 5 three_potions_wf).
Defined.

(** X16. [clear_slot] never raises, whatever the cell: it returns the
    quantity the cell held and leaves the cell empty, without [item_id],
    with quantity 0 (the cell's [max_stack_size] itself if that is
    negative), every other field unchanged; a cell the model admits stays
    one. *)
Theorem clear_slot_empties (self : Cell.InventoryCellComponent) :
  exists self',
    Cell.clear_slot self = Ok (Cell.quantity self, self') /\
    Cell.item_id self' = None /\
    Cell.quantity self' = Z.min 0 (Cell.max_stack_size self) /\
    Cell.is_empty self' = true /\
    Cell.max_stack_size self' = Cell.max_stack_size self /\
    Cell.slot_type self' = Cell.slot_type self /\
    Cell.is_equipped self' = Cell.is_equipped self /\
    Cell.component_type self' = Cell.component_type self /\
    (1 <= Cell.max_stack_size self -> Cell.wf self').
Proof.
  destruct self as [ct i q m st eq].
  unfold Cell.clear_slot, Cell.assign_quantity, Cell.assign_item_id,
    Cell.check_ge, Cell.validate_quantity,
    Cell.validate_item_id_and_quantity, Cell.is_empty, Cell.wf, Cell.cell_ok.
  cbn.
  destruct i as [i|]; repeat (case_bool_decide; cbn); try lia;
    (eexists; split; [reflexivity|]; cbn;
     repeat split; try lia; try done;
     try (apply orb_true_iff; right; by apply bool_decide_eq_true)).
Qed.

(** X17. On a cell the model admits that holds an item, assigning a
    non-negative [quantity] succeeds, stores the value clamped against the
    cell's own [max_stack_size], clears [item_id] when the value is 0 and
    keeps it otherwise, and leaves a cell the model admits; a negative value
    is rejected. *)
Theorem assign_quantity_clamps (self : Cell.InventoryCellComponent)
    (item : string) (v : Z) :
  Cell.wf self ->
  Cell.item_id self = Some item ->
  if bool_decide (0 <= v) then
    exists self',
      Cell.assign_quantity self v = Ok self' /\
      Cell.quantity self' = Z.min v (Cell.max_stack_size self) /\
      Cell.item_id self' = (if bool_decide (v = 0) then None else Some item) /\
      Cell.max_stack_size self' = Cell.max_stack_size self /\
      Cell.wf self'
  else
    Cell.assign_quantity self v
    = Raise (ValidationError (GreaterEqual "quantity" 0)).
Proof.
  destruct self as [ct i q m st eq]. intros [[Hq Hi] Hm] Hitem.
  cbn in *. subst i.
  unfold Cell.assign_quantity, Cell.check_ge, Cell.validate_quantity,
    Cell.validate_item_id_and_quantity, Cell.wf, Cell.cell_ok. cbn.
  repeat (case_bool_decide; cbn); try lia; try done;
    (eexists; split; [reflexivity|]; cbn;
     repeat split; try lia; try done; intros; exfalso; lia).
Qed.

Lemma assign_quantity_clamps_witness :
  Cell.wf three_potions /\
  Cell.item_id three_potions = Some "potion" /\
  exists self',
    Cell.assign_quantity three_potions 10 = Ok self' /\
    Cell.quantity self' = Z.min 10 (Cell.max_stack_size three_potions) /\
    Cell.item_id self' = (if bool_decide (10 = 0) then None else Some "potion") /\
    Cell.max_stack_size self' = Cell.max_stack_size three_potions /\
    Cell.wf self'.
Proof.
  split; [exact three_potions_wf|]. split; [reflexivity|].
  exact (assign_quantity_clamps three_potions "potion" 10 three_potions_wf
           eq_refl).
Defined.

(** ** InventoryComponent *)

Lemma stored_nonneg item_id (c : Cell.InventoryCellComponent) :
  Cell.wf c -> 0 <= stored item_id c.
Proof.
  intros [[Hq _] _]. unfold stored. destruct (Inventory.holds item_id c); lia.
Qed.

Lemma total_nonneg item_id cells :
  Forall Cell.wf cells -> 0 <= total item_id cells.
Proof.
  induction 1 as [|c cells Hc _ IH]; cbn; [lia|].
  pose proof (stored_nonneg item_id c Hc). lia.
Qed.

Lemma stored_holds item_id (c : Cell.InventoryCellComponent) :
  Inventory.holds item_id c = true -> stored item_id c = Cell.quantity c.
Proof. unfold stored. by intros ->. Qed.

Lemma stored_other item_id other (c : Cell.InventoryCellComponent) :
  Cell.item_id c = Some item_id -> other <> item_id -> stored other c = 0.
Proof.
  intros Hi Hne. unfold stored, Inventory.holds. rewrite Hi.
  rewrite (bool_decide_eq_false_2 (Some item_id = Some other)) by congruence.
  by rewrite andb_false_r.
Qed.

Lemma stored_no_item item_id (c : Cell.InventoryCellComponent) :
  Cell.item_id c = None -> stored item_id c = 0.
Proof.
  intros Hi. unfold stored, Inventory.holds. rewrite Hi. cbn.
  by rewrite andb_false_r.
Qed.

Lemma holds_item item_id (c : Cell.InventoryCellComponent) :
  Inventory.holds item_id c = true ->
  Cell.item_id c = Some item_id /\ Cell.is_empty c = false.
Proof.
  unfold Inventory.holds. intros [He Hi]%andb_true_iff.
  apply negb_true_iff in He. by apply bool_decide_eq_true in Hi.
Qed.

(** What [remove_items] does to a cell that holds the item. *)
Lemma remove_items_holds item_id (c : Cell.InventoryCellComponent) remaining :
  Cell.wf c -> Inventory.holds item_id c = true -> 0 < remaining ->
  fst (Cell.remove_items c remaining) = Z.min remaining (Cell.quantity c) /\
  1 <= Cell.quantity c /\
  Cell.wf (snd (Cell.remove_items c remaining)) /\
  stored item_id (snd (Cell.remove_items c remaining))
  = Cell.quantity c - Z.min remaining (Cell.quantity c) /\
  forall other, other <> item_id ->
    stored other (snd (Cell.remove_items c remaining)) = 0.
Proof.
  intros Hwf Hh Hr. pose proof (remove_items_wf c remaining Hwf) as Hwf'.
  destruct (holds_item _ _ Hh) as [Hi He].
  destruct Hwf as [[Hq Hiff] Hm].
  assert (Hq1 : 1 <= Cell.quantity c).
  { unfold Cell.is_empty in He. apply orb_false_iff in He as [He _].
    apply bool_decide_eq_false in He. lia. }
  revert Hwf'. unfold Cell.remove_items. rewrite He.
  rewrite (bool_decide_eq_false_2 (remaining <= 0)) by lia. cbn.
  intros Hwf'. split; [done|]. split; [done|]. split; [done|].
  case_bool_decide as Hz; cbn.
  - split; [rewrite stored_no_item by done; lia|].
    intros other _. by apply stored_no_item.
  - split.
    + rewrite stored_holds; [done|].
      unfold Inventory.holds, Cell.is_empty. cbn. rewrite Hi.
      rewrite (bool_decide_eq_false_2 (_ = 0)) by done. cbn.
      by rewrite bool_decide_eq_true_2.
    + intros other Hne. by eapply stored_other.
Qed.

(** The loop of [remove_item] takes the items from the cells that hold
    them, in order, until the request is met or the cells run out. *)
Lemma drain_sound item_id cells : forall remaining,
  0 < remaining -> Forall Cell.wf cells ->
  exists cells' remaining' returned,
    Inventory.drain item_id cells remaining = (cells', remaining', returned) /\
    Forall Cell.wf cells' /\
    remaining - remaining' = Z.min remaining (total item_id cells) /\
    total item_id cells' = total item_id cells - (remaining - remaining') /\
    (if returned then remaining' = 0 else 0 < remaining') /\
    forall other, other <> item_id ->
      total other cells' = total other cells.
Proof.
  induction cells as [|c rest IH]; intros remaining Hr Hwf;
    cbn [Inventory.drain total].
  - exists [], remaining, false.
    split; [reflexivity|]. split; [done|]. split; [lia|].
    split; [cbn [total]; lia|]. split; [exact Hr | done].
  - apply Forall_cons in Hwf as [Hc Hrest].
    pose proof (total_nonneg item_id rest Hrest) as Hnn.
    destruct (Inventory.holds item_id c) eqn:Hh.
    + destruct (remove_items_holds item_id c remaining Hc Hh Hr)
        as (Hfst & Hq1 & Hwf' & Hst & Hother).
      destruct (holds_item _ _ Hh) as [Hi _].
      rewrite (stored_holds _ _ Hh).
      destruct (Cell.remove_items c remaining) as [removed c'] eqn:Hrm.
      cbn in Hfst, Hwf', Hst, Hother. subst removed.
      case_bool_decide as Hdone.
      * eexists _, _, true. split; [reflexivity|]. cbn.
        split; [by constructor|]. rewrite Hst.
        repeat split; try lia.
        intros other Hne. rewrite (Hother _ Hne).
        by rewrite (stored_other item_id other c).
      * destruct (IH (remaining - Z.min remaining (Cell.quantity c)))
          as (rest' & r' & b & Hd & Hw & Hmin & Htot & Hb & Hfr);
          [lia | done |].
        rewrite Hd. eexists _, _, b. split; [reflexivity|]. cbn.
        split; [by constructor|]. rewrite Hst, Htot.
        split; [lia|]. split; [lia|]. split; [done|].
        intros other Hne. rewrite (Hother _ Hne), (Hfr _ Hne).
        by rewrite (stored_other item_id other c).
    + destruct (IH remaining) as (rest' & r' & b & Hd & Hw & Hmin & Htot & Hb & Hfr);
        [done..|].
      rewrite Hd. eexists _, _, b. split; [reflexivity|]. cbn.
      assert (Hs0 : stored item_id c = 0) by (unfold stored; by rewrite Hh).
      rewrite Hs0, Htot.
      split; [by constructor|]. split; [lia|]. split; [lia|]. split; [done|].
      intros other Hne. by rewrite (Hfr _ Hne).
Qed.

Lemma get_item_count_with_cells (self : Inventory.InventoryComponent) l item_id :
  Inventory.get_item_count (Inventory.with_cells self l) item_id
  = total item_id l.
Proof. by rewrite get_item_count_total. Qed.

(** The facts about [remove_item] the theorems below share. *)
Lemma remove_item_facts (self : Inventory.InventoryComponent)
    (item_id : string) (quantity : Z) :
  Inventory.wf self ->
  let removed := fst (Inventory.remove_item self item_id quantity) in
  let self' := snd (Inventory.remove_item self item_id quantity) in
  removed = (if bool_decide (0 < quantity)
             then Z.min quantity (Inventory.get_item_count self item_id)
             else 0) /\
  Inventory.get_item_count self' item_id
  = Inventory.get_item_count self item_id - removed /\
  (forall other, other <> item_id ->
     Inventory.get_item_count self' other
     = Inventory.get_item_count self other) /\
  Inventory.wf self'.
Proof.
  intros [Hcells Hdef]. cbn zeta. unfold Inventory.remove_item.
  case_bool_decide as Hq.
  - rewrite bool_decide_eq_false_2 by lia. cbn.
    repeat split; try done; lia.
  - rewrite bool_decide_eq_true_2 by lia.
    destruct (drain_sound item_id (Inventory.cells self) quantity)
      as (cells' & r' & b & Hd & Hw & Hmin & Htot & Hb & Hfr); [lia | done |].
    rewrite Hd.
    assert (Hres : (if b then (quantity, Inventory.with_cells self cells')
                    else (quantity - r', Inventory.with_cells self cells'))
                   = (quantity - r', Inventory.with_cells self cells')).
    { destruct b; [subst r'; f_equal; lia | done]. }
    rewrite Hres. cbn [fst snd].
    rewrite get_item_count_with_cells, get_item_count_total.
    split; [lia|]. split; [lia|]. split; [|done].
    intros other Hne.
    rewrite get_item_count_with_cells, get_item_count_total. by apply Hfr.
Qed.

(** X18. On a well-formed inventory [remove_item] returns
    [min(quantity, get_item_count)] for a positive request and 0 otherwise;
    the item's count drops by exactly the amount returned, the count of
    every other item is unchanged, and the inventory stays well-formed. *)
Theorem remove_item_amount (self : Inventory.InventoryComponent)
    (item_id : string) (quantity : Z) :
  Inventory.wf self ->
  let removed := fst (Inventory.remove_item self item_id quantity) in
  let self' := snd (Inventory.remove_item self item_id quantity) in
  removed = (if bool_decide (0 < quantity)
             then Z.min quantity (Inventory.get_item_count self item_id)
             else 0) /\
  Inventory.get_item_count self' item_id
  = Inventory.get_item_count self item_id - removed /\
  (forall other, other <> item_id ->
     Inventory.get_item_count self' other
     = Inventory.get_item_count self other) /\
  Inventory.wf self'.
Proof. apply remove_item_facts. Qed.

Lemma remove_item_amount_witness :
  Inventory.wf two_potions /\
  fst (Inventory.remove_item two_potions "potion" 7)
  = (if bool_decide (0 < 7)
     then Z.min 7 (Inventory.get_item_count two_potions "potion")
     else 0).
Proof.
  split; [exact two_potions_wf|].
  exact (proj1 (remove_item_amount two_potions "potion" 7 two_potions_wf)).
Defined.

Lemma has_item_scan_total item_id quantity cells : forall total_quantity,
  Forall Cell.wf cells -> total_quantity < quantity ->
  Inventory.has_item_scan item_id quantity cells total_quantity
  = bool_decide (quantity <= total_quantity + total item_id cells).
Proof.
  induction cells as [|c rest IH]; intros acc Hwf Hacc; cbn.
  - symmetry. apply bool_decide_eq_false. lia.
  - apply Forall_cons in Hwf as [Hc Hrest].
    pose proof (total_nonneg item_id rest Hrest) as Hnn.
    unfold stored. destruct (Inventory.holds item_id c).
    + case_bool_decide as Hreach.
      * symmetry. apply bool_decide_eq_true. lia.
      * rewrite IH by (done || lia). apply bool_decide_ext. lia.
    + rewrite IH by done. apply bool_decide_ext. lia.
Qed.

(** X19. On a well-formed inventory [has_item] answers whether the
    quantity asked for is at most [get_item_count] of the item; a quantity
    of 0 or less is always held. *)
Theorem has_item_iff_count (self : Inventory.InventoryComponent)
    (item_id : string) (quantity : Z) :
  Inventory.wf self ->
  Inventory.has_item self item_id quantity
  = bool_decide (quantity <= 0
                 \/ quantity <= Inventory.get_item_count self item_id).
Proof.
  intros [Hcells _]. unfold Inventory.has_item.
  case_bool_decide as Hq.
  - symmetry. apply bool_decide_eq_true. by left.
  - rewrite has_item_scan_total by (done || lia).
    rewrite get_item_count_total. apply bool_decide_ext. lia.
Qed.

Lemma has_item_iff_count_witness :
  Inventory.wf two_potions /\
  Inventory.has_item two_potions "potion" 3
  = bool_decide (3 <= 0
                 \/ 3 <= Inventory.get_item_count two_potions "potion").
Proof.
  split; [exact two_potions_wf|].
  exact (has_item_iff_count two_potions "potion" 3 two_potions_wf).
Defined.

(** *** What a run of [add_item] leaves *)

(** A run of [add_item] that ends, on whatever fuel, ends as the
    specification's algorithm says, without raising. *)
Lemma add_item_run fuel (self self' : Inventory.InventoryComponent) item_id
    quantity mss r :
  Inventory.wf self -> Inventory.stack_size_ok mss ->
  Inventory.add_item fuel self item_id quantity mss = Some (r, self') ->
  exists n, r = Ok n /\
    Inventory.add_item_spec self item_id quantity mss n self' /\
    Inventory.wf self'.
Proof.
  intros Hwf Hs Hrun.
  destruct (add_item_sound self item_id quantity mss Hwf Hs)
    as (n & t & Hall & Hspec & Hwf').
  pose proof (add_item_mono _ _ _ (fuel `max` Z.to_nat quantity)%nat _ _ _
                Hrun ltac:(lia)) as Hrun'.
  rewrite Hall in Hrun' by lia. simplify_eq. by exists n.
Qed.

Lemma fill_spec_bounds item_id cells remaining cells' remaining' :
  Inventory.fill_spec item_id cells remaining cells' remaining' ->
  Forall Cell.wf cells -> 0 <= remaining ->
  0 <= remaining' <= remaining.
Proof.
  induction 1 as [cells r Hr | r | c rest r rest' r' Hr Hh _ IH
                 | c rest r rest' r' Hr Hh _ IH]; intros Hwf Hpos; try lia.
  - apply Forall_cons in Hwf as [Hc Hrest].
    destruct (stacked_holds_wf item_id c r Hr Hc Hh) as (Hacc & _ & _).
    specialize (IH Hrest ltac:(lia)). lia.
  - apply Forall_cons in Hwf as [Hc Hrest]. by apply IH.
Qed.

Lemma overflow_spec_bounds item_id max_cells stack cells remaining cells'
    remaining' :
  Inventory.overflow_spec item_id max_cells stack cells remaining cells'
    remaining' ->
  1 <= stack -> Forall Cell.wf cells -> 0 <= remaining ->
  0 <= remaining' <= remaining /\ Forall Cell.wf cells'.
Proof.
  induction 1 as [cells r Hr | cells r i c cells' r' Hr Hfirst _ IH
                 | cells r cells' r' Hr Hnone Hroom _ IH
                 | cells r Hr Hnone Hfull]; intros Hstack Hwf Hpos;
    try (split; [lia | done]).
  - destruct Hfirst as (Hi & He & _).
    assert (Hc : Cell.wf c) by (by eapply Forall_lookup_1).
    destruct (stacked_empty_wf item_id c r Hr Hc He) as (Hacc & _ & Hwf' & _).
    destruct IH as [Hb Hw]; [done | by apply Forall_insert | lia |].
    split; [lia | done].
  - destruct (fresh_cell_wf stack Hstack) as [Hfresh He].
    destruct (stacked_empty_wf item_id _ r Hr Hfresh He) as (Hacc & _ & Hwf' & _).
    destruct IH as [Hb Hw];
      [done | apply Forall_app; split; [done | by constructor] | lia |].
    split; [lia | done].
Qed.

Lemma stacked_other item_id other (c : Cell.InventoryCellComponent) n :
  other <> item_id -> stored other (Inventory.stacked c item_id n) = 0.
Proof. intros Hne. by apply (stored_other item_id). Qed.

Lemma fill_spec_other item_id other cells remaining cells' remaining' :
  Inventory.fill_spec item_id cells remaining cells' remaining' ->
  other <> item_id ->
  total other cells' = total other cells.
Proof.
  induction 1 as [cells r Hr | r | c rest r rest' r' Hr Hh _ IH
                 | c rest r rest' r' Hr Hh _ IH]; intros Hne; try done; cbn.
  - destruct (holds_item _ _ Hh) as [Hi _].
    rewrite stacked_other, (stored_other item_id other c), IH by done. done.
  - by rewrite IH.
Qed.

Lemma overflow_spec_other item_id other max_cells stack cells remaining cells'
    remaining' :
  Inventory.overflow_spec item_id max_cells stack cells remaining cells'
    remaining' ->
  other <> item_id ->
  total other cells' = total other cells.
Proof.
  induction 1 as [cells r Hr | cells r i c cells' r' Hr Hfirst _ IH
                 | cells r cells' r' Hr Hnone Hroom _ IH
                 | cells r Hr Hnone Hfull]; intros Hne; try done.
  - destruct Hfirst as (Hi & He & _).
    rewrite IH by done. rewrite (total_insert _ _ _ c) by done.
    rewrite stacked_other by done. rewrite (stored_empty _ c He). lia.
  - rewrite IH by done. rewrite total_app. cbn.
    rewrite stacked_other by done. lia.
Qed.

(** The facts about a run of [add_item] the theorems below share. *)
Lemma add_item_facts fuel (self self' : Inventory.InventoryComponent) item_id
    quantity mss r :
  Inventory.wf self -> Inventory.stack_size_ok mss ->
  Inventory.add_item fuel self item_id quantity mss = Some (r, self') ->
  exists n, r = Ok n /\
    0 <= n <= Z.max 0 quantity /\
    Inventory.get_item_count self' item_id
    = Inventory.get_item_count self item_id + n /\
    (forall other, other <> item_id ->
       Inventory.get_item_count self' other
       = Inventory.get_item_count self other) /\
    Inventory.wf self'.
Proof.
  intros Hwf Hs Hrun.
  destruct (add_item_run _ _ _ _ _ _ _ Hwf Hs Hrun) as (n & -> & Hspec & Hwf').
  exists n. split; [done|].
  pose proof (add_item_spec_count _ _ _ _ _ _ Hwf Hs Hspec) as Hcount.
  pose proof (stack_size_positive self mss Hwf Hs) as Hstack.
  destruct Hwf as [Hcells Hdef].
  unfold Inventory.add_item_spec in Hspec.
  case_bool_decide as Hq.
  - destruct Hspec as [-> ->]. split; [lia|]. split; [lia|]. done.
  - destruct Hspec as (cells1 & r1 & cells2 & r2 & Hf & Ho & -> & ->).
    pose proof (fill_spec_bounds _ _ _ _ _ Hf Hcells ltac:(lia)) as Hb1.
    pose proof (fill_spec_wf _ _ _ _ _ Hf Hcells) as Hw1.
    destruct (overflow_spec_bounds _ _ _ _ _ _ _ Ho Hstack Hw1 ltac:(lia))
      as [Hb2 Hw2].
    split; [lia|]. split; [done|]. split; [|done].
    intros other Hne.
    rewrite get_item_count_with_cells, get_item_count_total.
    rewrite (overflow_spec_other _ _ _ _ _ _ _ _ Ho Hne).
    by rewrite (fill_spec_other _ _ _ _ _ _ Hf Hne).
Qed.

(** X20. On a well-formed inventory, with a stack size for new cells that
    is absent or at least 1, [add_item] ends within [quantity] rounds of
    its [while] loop and does not raise: it returns an amount between 0 and
    the quantity asked for, the item's count rises by exactly that amount,
    the count of every other item is unchanged, and the inventory stays
    well-formed. *)
Theorem add_item_accounting (self : Inventory.InventoryComponent)
    (item_id : string) (quantity : Z) (max_stack_size : option Z) :
  Inventory.wf self ->
  Inventory.stack_size_ok max_stack_size ->
  exists n self',
    (forall fuel, (Z.to_nat quantity <= fuel)%nat ->
       Inventory.add_item fuel self item_id quantity max_stack_size
       = Some (Ok n, self')) /\
    0 <= n <= Z.max 0 quantity /\
    Inventory.get_item_count self' item_id
    = Inventory.get_item_count self item_id + n /\
    (forall other, other <> item_id ->
       Inventory.get_item_count self' other
       = Inventory.get_item_count self other) /\
    Inventory.wf self'.
Proof.
  intros Hwf Hs.
  destruct (add_item_sound self item_id quantity max_stack_size Hwf Hs)
    as (n & self' & Hall & _).
  exists n, self'. split; [exact Hall|].
  destruct (add_item_facts _ _ _ _ _ _ _ Hwf Hs (Hall _ (le_n _)))
    as (n' & Hn & Hfacts).
  by simplify_eq.
Qed.

Lemma add_item_accounting_witness :
  Inventory.wf two_potions /\ Inventory.stack_size_ok None /\
  exists n self',
    Inventory.add_item 9 two_potions "potion" 9 None = Some (Ok n, self') /\
    0 <= n <= Z.max 0 9 /\
    Inventory.get_item_count self' "potion"
    = Inventory.get_item_count two_potions "potion" + n /\
    Inventory.wf self'.
Proof.
  split; [exact two_potions_wf|]. split; [exact I|].
  destruct (add_item_accounting two_potions "potion" 9 None two_potions_wf I)
    as (n & self' & Hrun & Hb & Hc & _ & Hwf').
  exists n, self'. split; [exact (Hrun 9%nat (le_n _))|].
  split; [exact Hb|]. split; [exact Hc|exact Hwf'].
Defined.

Lemma topped_up_refl c : topped_up c c.
Proof. unfold topped_up. repeat split; lia. Qed.

Lemma topped_up_trans c1 c2 c3 :
  topped_up c1 c2 -> topped_up c2 c3 -> topped_up c1 c3.
Proof.
  unfold topped_up. intros (?&?&?&?&?) (?&?&?&?&?).
  repeat split; try congruence; lia.
Qed.

Lemma topped_up_stacked (c : Cell.InventoryCellComponent) item_id n :
  0 <= n -> topped_up c (Inventory.stacked c item_id n).
Proof. intros Hn. unfold topped_up. cbn. repeat split; lia. Qed.

Lemma extends_refl cells : extends cells cells.
Proof.
  split; [done|]. intros i c Hi. exists c. split; [done | apply topped_up_refl].
Qed.

Lemma extends_trans l1 l2 l3 : extends l1 l2 -> extends l2 l3 -> extends l1 l3.
Proof.
  intros [Hl12 H12] [Hl23 H23]. split; [lia|].
  intros i c Hi. destruct (H12 i c Hi) as (c2 & Hi2 & Ht2).
  destruct (H23 i c2 Hi2) as (c3 & Hi3 & Ht3).
  exists c3. split; [done | by eapply topped_up_trans].
Qed.

Lemma extends_cons c c' l l' :
  topped_up c c' -> extends l l' -> extends (c :: l) (c' :: l').
Proof.
  intros Ht [Hl H]. split; [cbn; lia|].
  intros [|i] x Hi; cbn in *; simplify_eq; [by exists c' | by apply H].
Qed.

Lemma extends_insert (l : list Cell.InventoryCellComponent) i c c' :
  l !! i = Some c -> topped_up c c' -> extends l (<[i := c']> l).
Proof.
  intros Hi Ht. split; [by rewrite length_insert|].
  intros j x Hj. destruct (decide (i = j)) as [->|Hne].
  - simplify_eq. exists c'. split; [|done].
    apply list_lookup_insert_eq. by eapply lookup_lt_Some.
  - exists x. rewrite list_lookup_insert_ne by done.
    split; [done | apply topped_up_refl].
Qed.

Lemma extends_app (l k : list Cell.InventoryCellComponent) : extends l (l ++ k).
Proof.
  split; [rewrite length_app; lia|].
  intros i c Hi. exists c. split; [by apply lookup_app_l_Some|].
  apply topped_up_refl.
Qed.

Lemma fill_spec_extends item_id cells remaining cells' remaining' :
  Inventory.fill_spec item_id cells remaining cells' remaining' ->
  Forall Cell.wf cells ->
  extends cells cells' /\ length cells' = length cells.
Proof.
  induction 1 as [cells r Hr | r | c rest r rest' r' Hr Hh _ IH
                 | c rest r rest' r' Hr Hh _ IH]; intros Hwf;
    try (split; [apply extends_refl | done]).
  - apply Forall_cons in Hwf as [Hc Hrest].
    destruct (stacked_holds_wf item_id c r Hr Hc Hh) as (Hacc & _ & _).
    destruct (IH Hrest) as [He Hl]. split; [|cbn; lia].
    apply extends_cons; [apply topped_up_stacked; lia | done].
  - apply Forall_cons in Hwf as [Hc Hrest].
    destruct (IH Hrest) as [He Hl]. split; [|cbn; lia].
    apply extends_cons; [apply topped_up_refl | done].
Qed.

Lemma overflow_spec_extends item_id max_cells stack cells remaining cells'
    remaining' :
  Inventory.overflow_spec item_id max_cells stack cells remaining cells'
    remaining' ->
  1 <= stack -> Forall Cell.wf cells ->
  extends cells cells' /\
  Z.of_nat (length cells') <= Z.max (Z.of_nat (length cells)) max_cells.
Proof.
  induction 1 as [cells r Hr | cells r i c cells' r' Hr Hfirst _ IH
                 | cells r cells' r' Hr Hnone Hroom _ IH
                 | cells r Hr Hnone Hfull]; intros Hstack Hwf;
    try (split; [apply extends_refl | lia]).
  - destruct Hfirst as (Hi & He & _).
    assert (Hc : Cell.wf c) by (by eapply Forall_lookup_1).
    destruct (stacked_empty_wf item_id c r Hr Hc He) as (Hacc & _ & Hwf' & _).
    destruct IH as [Hext Hlen]; [done | by apply Forall_insert |].
    rewrite length_insert in Hlen. split; [|done].
    eapply extends_trans; [|exact Hext].
    eapply extends_insert; [done|]. apply topped_up_stacked. lia.
  - destruct (fresh_cell_wf stack Hstack) as [Hfresh He].
    destruct (stacked_empty_wf item_id _ r Hr Hfresh He) as (Hacc & _ & Hwf' & _).
    destruct IH as [Hext Hlen];
      [done | apply Forall_app; split; [done | by constructor] |].
    rewrite length_app in Hlen. cbn in Hlen. split; [|lia].
    eapply extends_trans; [|exact Hext]. apply extends_app.
Qed.

(** X21. On a well-formed inventory, with a stack size for new cells that
    is absent or at least 1, [add_item] ends and keeps every cell at its
    position, with the same [max_stack_size], [slot_type] and [is_equipped]
    and at least the quantity it had; it only appends cells, never beyond
    [max_cells] (or the number of cells it found, if that was larger), and
    leaves [max_cells] and [default_max_stack_size] alone. *)
Theorem add_item_keeps_cells_in_place (self : Inventory.InventoryComponent)
    (item_id : string) (quantity : Z) (max_stack_size : option Z) :
  Inventory.wf self ->
  Inventory.stack_size_ok max_stack_size ->
  exists n self',
    (forall fuel, (Z.to_nat quantity <= fuel)%nat ->
       Inventory.add_item fuel self item_id quantity max_stack_size
       = Some (Ok n, self')) /\
    extends (Inventory.cells self) (Inventory.cells self') /\
    Z.of_nat (length (Inventory.cells self'))
    <= Z.max (Z.of_nat (length (Inventory.cells self)))
         (Inventory.max_cells self) /\
    Inventory.max_cells self' = Inventory.max_cells self /\
    Inventory.default_max_stack_size self'
    = Inventory.default_max_stack_size self.
Proof.
  intros Hwf Hs.
  destruct (add_item_sound self item_id quantity max_stack_size Hwf Hs)
    as (n & self' & Hall & Hspec & Hwf').
  exists n, self'. split; [exact Hall|]. clear Hall.
  pose proof (stack_size_positive self max_stack_size Hwf Hs) as Hstack.
  destruct Hwf as [Hcells Hdef].
  unfold Inventory.add_item_spec in Hspec.
  case_bool_decide as Hq.
  - destruct Hspec as [-> ->]. split; [apply extends_refl|]. split; [lia|done].
  - destruct Hspec as (cells1 & r1 & cells2 & r2 & Hf & Ho & -> & ->).
    destruct (fill_spec_extends _ _ _ _ _ Hf Hcells) as [He1 Hl1].
    pose proof (fill_spec_wf _ _ _ _ _ Hf Hcells) as Hw1.
    destruct (overflow_spec_extends _ _ _ _ _ _ _ Ho Hstack Hw1) as [He2 Hl2].
    cbn. split; [by eapply extends_trans|]. split; [lia|done].
Qed.

Lemma add_item_keeps_cells_in_place_witness :
  Inventory.wf two_potions /\ Inventory.stack_size_ok None /\
  exists n self',
    Inventory.add_item 9 two_potions "potion" 9 None = Some (Ok n, self') /\
    extends (Inventory.cells two_potions) (Inventory.cells self').
Proof.
  split; [exact two_potions_wf|]. split; [exact I|].
  destruct (add_item_keeps_cells_in_place two_potions "potion" 9 None
              two_potions_wf I) as (n & self' & Hrun & He & _).
  exists n, self'. split; [exact (Hrun 9%nat (le_n _))|exact He].
Defined.

(** *** A full inventory *)

Lemma stacked_nothing item_id (c : Cell.InventoryCellComponent) :
  Cell.item_id c = Some item_id -> Inventory.stacked c item_id 0 = c.
Proof.
  destruct c as [ct i q m st eq]. cbn. intros ->.
  unfold Inventory.stacked. cbn. f_equal. lia.
Qed.

Lemma full_not_empty (c : Cell.InventoryCellComponent) :
  Cell.wf c -> Cell.is_full c = true -> Cell.is_empty c = false.
Proof.
  intros [[Hq Hi] Hm] Hf. unfold Cell.is_full, Cell.is_empty in *.
  apply bool_decide_eq_true in Hf. apply orb_false_iff.
  split; apply bool_decide_eq_false; [lia|].
  intros Hnone. apply Hi in Hnone. lia.
Qed.

Lemma fill_full item_id cells : forall remaining,
  0 < remaining ->
  Forall Cell.wf cells -> Forall (fun c => Cell.is_full c = true) cells ->
  Inventory.fill item_id cells remaining = (cells, remaining, false).
Proof.
  induction cells as [|c rest IH]; intros remaining Hr Hwf Hfull; cbn; [done|].
  apply Forall_cons in Hwf as [Hc Hrest].
  apply Forall_cons in Hfull as [Hcf Hrf].
  destruct (Inventory.holds item_id c) eqn:Hh.
  - rewrite add_items_holds by done.
    destruct (holds_item _ _ Hh) as [Hi _].
    assert (Hacc : Inventory.accepts c remaining = 0).
    { unfold Inventory.accepts. destruct Hc as [[Hq _] _].
      unfold Cell.is_full in Hcf. apply bool_decide_eq_true in Hcf. lia. }
    rewrite Hacc, stacked_nothing, Z.sub_0_r by done.
    rewrite bool_decide_eq_false_2 by lia.
    by rewrite IH.
  - by rewrite IH.
Qed.

(** X22. A well-formed inventory for which [is_full()] holds takes
    nothing: [add_item] of any item, in any quantity, with any stack size
    for new cells, returns 0 and leaves the inventory as it was. *)
Theorem full_inventory_takes_nothing (self : Inventory.InventoryComponent)
    (fuel : nat) (item_id : string) (quantity : Z)
    (max_stack_size : option Z) :
  Inventory.wf self ->
  Inventory.is_full self = true ->
  Inventory.add_item (S fuel) self item_id quantity max_stack_size
  = Some (Ok 0, self).
Proof.
  intros [Hcells _] Hfull. unfold Inventory.is_full in Hfull.
  case_bool_decide as Hlen; [done|].
  assert (Hall : Forall (fun c => Cell.is_full c = true) (Inventory.cells self)).
  { apply Forall_forall. intros c Hc.
    apply (proj1 (forallb_forall _ _) Hfull). by apply list_elem_of_In. }
  unfold Inventory.add_item. case_bool_decide as Hq; [done|].
  rewrite fill_full by (done || lia).
  rewrite with_cells_same, place_unfold.
  rewrite bool_decide_eq_false_2 by done.
  assert (Hnone : Inventory.find_empty (Inventory.cells self) = None).
  { apply list_find_None, Forall_forall. intros c Hc.
    rewrite Forall_forall in Hcells, Hall.
    rewrite (full_not_empty c) by auto. done. }
  rewrite Hnone, bool_decide_eq_false_2 by done.
  by rewrite Z.sub_diag.
Qed.

Lemma full_bag_wf : Inventory.wf full_bag.
Proof. split; [|cbn; lia]. repeat constructor; cbn; try lia; done. Defined.

Lemma full_inventory_takes_nothing_witness :
  Inventory.wf full_bag /\
  Inventory.is_full full_bag = true /\
  Inventory.add_item 1 full_bag "potion" 3 None = Some (Ok 0, full_bag).
Proof.
  split; [exact full_bag_wf|]. split; [reflexivity|].
  exact (full_inventory_takes_nothing full_bag 0 "potion" 3 None
           full_bag_wf eq_refl).
Defined.

(** *** A shortfall *)

Lemma fill_spec_shortfall item_id cells remaining cells' remaining' :
  Inventory.fill_spec item_id cells remaining cells' remaining' ->
  Forall Cell.wf cells -> 0 < remaining' ->
  Forall (fun c => Inventory.holds item_id c = true -> Cell.is_full c = true)
    cells'.
Proof.
  induction 1 as [cells r Hr | r | c rest r rest' r' Hr Hh Hsub IH
                 | c rest r rest' r' Hr Hh Hsub IH]; intros Hwf Hleft.
  - lia.
  - constructor.
  - apply Forall_cons in Hwf as [Hc Hrest].
    destruct (stacked_holds_wf item_id c r Hr Hc Hh) as (Hacc & _ & _).
    pose proof (fill_spec_bounds _ _ _ _ _ Hsub Hrest ltac:(lia)) as Hb.
    constructor; [|by apply IH].
    intros _. unfold Cell.is_full. apply bool_decide_eq_true. cbn.
    unfold Inventory.accepts in *. lia.
  - apply Forall_cons in Hwf as [Hc Hrest].
    constructor; [|by apply IH]. intros Hh'. congruence.
Qed.

Lemma overflow_spec_shortfall item_id max_cells stack cells remaining cells'
    remaining' :
  Inventory.overflow_spec item_id max_cells stack cells remaining cells'
    remaining' ->
  1 <= stack -> Forall Cell.wf cells -> 0 < remaining' ->
  Forall (fun c => Inventory.holds item_id c = true -> Cell.is_full c = true)
    cells ->
  Forall (fun c => Inventory.holds item_id c = true -> Cell.is_full c = true)
    cells' /\
  Inventory.no_empty cells' /\
  max_cells <= Z.of_nat (length cells').
Proof.
  induction 1 as [cells r Hr | cells r i c cells' r' Hr Hfirst Hsub IH
                 | cells r cells' r' Hr Hnone Hroom Hsub IH
                 | cells r Hr Hnone Hfull]; intros Hstack Hwf Hleft Hinv.
  - lia.
  - destruct Hfirst as (Hi & He & _).
    assert (Hc : Cell.wf c) by (by eapply Forall_lookup_1).
    destruct (stacked_empty_wf item_id c r Hr Hc He) as (Hacc & Hz & Hwf' & _).
    destruct (overflow_spec_bounds _ _ _ _ _ _ _ Hsub Hstack
                ltac:(by apply Forall_insert) ltac:(lia)) as [Hb _].
    apply IH; [done | by apply Forall_insert | done |].
    apply Forall_insert; [done|].
    intros _. unfold Cell.is_full. apply bool_decide_eq_true. cbn.
    unfold Inventory.accepts in *. lia.
  - destruct (fresh_cell_wf stack Hstack) as [Hfresh He].
    destruct (stacked_empty_wf item_id _ r Hr Hfresh He)
      as (Hacc & Hz & Hwf' & _).
    assert (Hwf1 : Forall Cell.wf
              (cells ++ [Inventory.stacked (Inventory.fresh_cell stack) item_id
                           (Inventory.accepts (Inventory.fresh_cell stack) r)]))
      by (apply Forall_app; split; [done | by constructor]).
    destruct (overflow_spec_bounds _ _ _ _ _ _ _ Hsub Hstack Hwf1 ltac:(lia))
      as [Hb _].
    apply IH; [done | done | done |].
    apply Forall_app. split; [done|]. constructor; [|done].
    intros _. unfold Cell.is_full. apply bool_decide_eq_true. cbn.
    unfold Inventory.accepts in *. cbn in *. lia.
  - done.
Qed.

Lemma no_empty_count (self : Inventory.InventoryComponent) :
  Inventory.no_empty (Inventory.cells self) ->
  Inventory.get_empty_cells_count self = 0.
Proof.
  unfold Inventory.get_empty_cells_count, Inventory.no_empty.
  induction (Inventory.cells self) as [|c l IH]; intros Hn; cbn; [done|].
  rewrite (Hn c) by apply list_elem_of_here.
  apply IH. intros x Hx. apply Hn. by apply list_elem_of_further.
Qed.

(** X23. On a well-formed inventory, with a stack size for new cells that
    is absent or at least 1, [add_item] ends, and when it returns less than
    the quantity asked for, the inventory it leaves has no room for the
    item: no cell is empty ([get_empty_cells_count] is 0), the number of
    cells has reached [max_cells], and every cell that holds the item is
    full. *)
Theorem add_item_shortfall_means_no_room (self : Inventory.InventoryComponent)
    (item_id : string) (quantity : Z) (max_stack_size : option Z) :
  Inventory.wf self ->
  Inventory.stack_size_ok max_stack_size ->
  exists n self',
    (forall fuel, (Z.to_nat quantity <= fuel)%nat ->
       Inventory.add_item fuel self item_id quantity max_stack_size
       = Some (Ok n, self')) /\
    (n < quantity ->
     Inventory.no_empty (Inventory.cells self') /\
     Inventory.get_empty_cells_count self' = 0 /\
     Inventory.max_cells self' <= Z.of_nat (length (Inventory.cells self')) /\
     Forall (fun c => Inventory.holds item_id c = true -> Cell.is_full c = true)
       (Inventory.cells self')).
Proof.
  intros Hwf Hs.
  destruct (add_item_sound self item_id quantity max_stack_size Hwf Hs)
    as (n & self' & Hall & Hspec & Hwf').
  exists n, self'. split; [exact Hall|]. clear Hall. intros Hshort.
  pose proof (stack_size_positive self max_stack_size Hwf Hs) as Hstack.
  destruct Hwf as [Hcells Hdef].
  unfold Inventory.add_item_spec in Hspec.
  case_bool_decide as Hq; [destruct Hspec as [-> ->]; lia|].
  destruct Hspec as (cells1 & r1 & cells2 & r2 & Hf & Ho & -> & ->).
  pose proof (fill_spec_wf _ _ _ _ _ Hf Hcells) as Hw1.
  pose proof (fill_spec_bounds _ _ _ _ _ Hf Hcells ltac:(lia)) as Hb1.
  destruct (overflow_spec_bounds _ _ _ _ _ _ _ Ho Hstack Hw1 ltac:(lia))
    as [Hb2 _].
  destruct (overflow_spec_shortfall _ _ _ _ _ _ _ Ho Hstack Hw1 ltac:(lia))
    as (Hfull & Hnone & Hlen).
  { eapply fill_spec_shortfall; [done | done | lia]. }
  split; [done|]. split; [by apply no_empty_count|]. split; done.
Qed.

Lemma add_item_shortfall_means_no_room_witness :
  Inventory.wf two_potions /\ Inventory.stack_size_ok None /\
  exists n self',
    Inventory.add_item 20 two_potions "potion" 20 None = Some (Ok n, self') /\
    n = 12 /\
    Inventory.get_empty_cells_count self' = 0.
Proof.
  split; [exact two_potions_wf|]. split; [exact I|].
  destruct (add_item_shortfall_means_no_room two_potions "potion" 20 None
              two_potions_wf I) as (n & self' & Hrun & Hroom).
  pose proof (Hrun 20%nat (le_n _)) as H20.
  assert (Hn : n = 12) by (vm_compute in H20; congruence).
  exists n, self'. split; [exact H20|]. split; [exact Hn|].
  apply Hroom. lia.
Defined.

(** X24. On a well-formed inventory, with a stack size for new cells that
    is absent or at least 1, [add_item] ends, and removing from the
    inventory it leaves the amount it returned takes exactly that amount
    and brings the item's count back to what it was before the
    [add_item]. *)
Theorem add_item_then_remove_item (self : Inventory.InventoryComponent)
    (item_id : string) (quantity : Z) (max_stack_size : option Z) :
  Inventory.wf self ->
  Inventory.stack_size_ok max_stack_size ->
  exists n self',
    (forall fuel, (Z.to_nat quantity <= fuel)%nat ->
       Inventory.add_item fuel self item_id quantity max_stack_size
       = Some (Ok n, self')) /\
    fst (Inventory.remove_item self' item_id n) = n /\
    Inventory.get_item_count (snd (Inventory.remove_item self' item_id n))
      item_id
    = Inventory.get_item_count self item_id.
Proof.
  intros Hwf Hs.
  destruct (add_item_sound self item_id quantity max_stack_size Hwf Hs)
    as (n & self' & Hall & _).
  exists n, self'. split; [exact Hall|].
  destruct (add_item_facts _ _ _ _ _ _ _ Hwf Hs (Hall _ (le_n _)))
    as (n' & Hn & Hb & Hcount & _ & Hwf').
  simplify_eq.
  pose proof (total_nonneg item_id _ (proj1 Hwf)) as Hnn.
  rewrite <- get_item_count_total in Hnn.
  destruct (remove_item_facts self' item_id n' Hwf') as (Hrem & Hc & _).
  cbn zeta in Hrem, Hc. rewrite Hc, Hrem.
  case_bool_decide; split; lia.
Qed.

Lemma add_item_then_remove_item_witness :
  Inventory.wf two_potions /\ Inventory.stack_size_ok None /\
  exists n self',
    Inventory.add_item 4 two_potions "potion" 4 None = Some (Ok n, self') /\
    fst (Inventory.remove_item self' "potion" n) = n.
Proof.
  split; [exact two_potions_wf|]. split; [exact I|].
  destruct (add_item_then_remove_item two_potions "potion" 4 None
              two_potions_wf I) as (n & self' & Hrun & Hrem & _).
  exists n, self'. split; [exact (Hrun 4%nat (le_n _))|exact Hrem].
Defined.

(** *** Clearing and constructing *)

Lemma clear_slot_value (c : Cell.InventoryCellComponent) :
  Cell.clear_slot c = Ok (Cell.quantity c, cleared c).
Proof.
  destruct c as [ct i q m st eq].
  unfold Cell.clear_slot, Cell.assign_quantity, Cell.assign_item_id,
    Cell.check_ge, Cell.validate_quantity,
    Cell.validate_item_id_and_quantity, cleared. cbn.
  destruct i as [i|]; repeat (case_bool_decide; cbn); try lia;
    repeat f_equal; lia.
Qed.

Lemma clear_each (cells : list Cell.InventoryCellComponent) :
  mapM (fun cell => r ← Cell.clear_slot cell; Ok (snd r)) cells
  = Ok (cleared <$> cells).
Proof.
  induction cells as [|c cells IH]; [done|].
  cbn [mapM]. rewrite clear_slot_value. cbn. rewrite IH. done.
Qed.

Lemma total_cleared item_id cells : total item_id (cleared <$> cells) = 0.
Proof.
  induction cells as [|c cells IH]; [done|].
  cbn. rewrite IH, stored_no_item by done. done.
Qed.

(** X25. [clear_all] never raises: it leaves as many cells as it found,
    each the cleared form of the cell at its position (no [item_id], the
    other fields kept), so that no item is counted any more and every cell
    counts as empty. *)
Theorem clear_all_empties (self : Inventory.InventoryComponent)
    (item_id : string) :
  exists self',
    Inventory.clear_all self = Ok self' /\
    Inventory.cells self' = cleared <$> Inventory.cells self /\
    length (Inventory.cells self') = length (Inventory.cells self) /\
    Inventory.get_item_count self' item_id = 0 /\
    Inventory.get_empty_cells_count self'
    = Z.of_nat (length (Inventory.cells self)) /\
    Inventory.max_cells self' = Inventory.max_cells self /\
    Inventory.default_max_stack_size self'
    = Inventory.default_max_stack_size self.
Proof.
  exists (Inventory.with_cells self (cleared <$> Inventory.cells self)).
  split; [unfold Inventory.clear_all; by rewrite clear_each|].
  split; [done|]. split; [cbn; by rewrite length_fmap|].
  split; [by rewrite get_item_count_with_cells, total_cleared|].
  split; [|done].
  unfold Inventory.get_empty_cells_count.
  cbn [Inventory.cells Inventory.with_cells].
  induction (Inventory.cells self) as [|c l IH]; [done|].
  cbn [fmap list_fmap foldr length].
  change (list_fmap _ _ cleared l) with (cleared <$> l). rewrite IH.
  unfold Cell.is_empty. cbn. rewrite orb_true_r. lia.
Qed.

(** X26. The constructor of the inventory raises exactly when [max_cells]
    or [default_max_stack_size] is given and below 1.  Otherwise it keeps
    the first [max_cells] cells it was given, in order, and drops the rest
    without raising; [max_cells] defaults to 10 and
    [default_max_stack_size] to 1. *)
Theorem inventory_init_truncates (cells0 : list Cell.InventoryCellComponent)
    (max_cells0 default0 : option Z) :
  let m := default 10 max_cells0 in
  let d := default 1 default0 in
  if bool_decide (1 <= m) then
    if bool_decide (1 <= d) then
      exists self,
        Inventory.init cells0 max_cells0 default0 = Ok self /\
        Inventory.cells self = take (Z.to_nat m) cells0 /\
        Inventory.max_cells self = m /\
        Inventory.default_max_stack_size self = d /\
        Z.of_nat (length (Inventory.cells self)) <= m
    else
      Inventory.init cells0 max_cells0 default0
      = Raise (ValidationError (GreaterEqual "default_max_stack_size" 1))
  else
    Inventory.init cells0 max_cells0 default0
    = Raise (ValidationError (GreaterEqual "max_cells" 1)).
Proof.
  cbn zeta. unfold Inventory.init, Cell.check_ge.
  destruct max_cells0 as [m|], default0 as [d|]; cbn;
    repeat (case_bool_decide; cbn); try done; try lia;
    (eexists; split; [reflexivity|];
     unfold Inventory.validate_cells_count; cbn;
     case_bool_decide; cbn;
     [ split; [done|]; split; [done|]; split; [done|];
       rewrite length_take; lia
     | split; [symmetry; apply take_ge; lia|];
       split; [done|]; split; [done|]; lia ]).
Qed.

(** X4. The constructor of a cell raises exactly when the quantity given
    is negative, the [max_stack_size] given is below 1, or a positive
    quantity comes without [item_id].  Otherwise the cell it returns is one
    the model admits, with the [max_stack_size] given (1 by default) and
    with [min(quantity, 1)] items whatever that [max_stack_size] is;
    [item_id] is kept exactly when an item is held. *)
Theorem cell_init_outcome (data : Cell.Data) :
  let q := default 0 (Cell.d_quantity data) in
  let m := default 1 (Cell.d_max_stack_size data) in
  match Cell.init data with
  | Ok cell =>
    Cell.wf cell /\
    Cell.quantity cell = Z.min q 1 /\
    Cell.max_stack_size cell = m /\
    Cell.item_id cell
    = (if bool_decide (q = 0) then None else Cell.d_item_id data) /\
    Cell.slot_type cell = Cell.d_slot_type data /\
    Cell.is_equipped cell = default false (Cell.d_is_equipped data)
  | Raise _ => q < 0 \/ m < 1 \/ (0 < q /\ Cell.d_item_id data = None)
  end.
Proof.
  destruct data as [ct i q m st eq]. cbn zeta.
  unfold Cell.init, Cell.check_ge, Cell.validate_quantity,
    Cell.validate_item_id_and_quantity, Cell.wf, Cell.cell_ok. cbn.
  destruct q as [q|], m as [m|], i as [i|]; cbn;
    repeat (case_bool_decide; cbn); try lia;
    try (left; lia); try (right; left; lia); try (right; right; split; [lia|done]);
    repeat split; try lia; try done; intros; exfalso; lia.
Qed.
